(** * net/http/pprof: the HTTP handlers of the profiling endpoints

    A shallow embedding of [src/net/http/pprof/pprof.go].  The handlers
    [Cmdline], [Profile], [Trace], [Symbol] and [handler.ServeHTTP] are
    translated statement by statement into functions that pass the response
    writer and the state of the runtime explicitly.  The library routines they
    call ([strconv], [fmt], [bufio], [time], [strings]) are written out next to
    them with the behaviour of the Go 1.11 standard library on a 64-bit
    platform, so that every handler can be evaluated on a concrete request. *)

From Stdlib Require Import ZArith Ascii String List Lia Bool.
From Stdlib Require Import Floats.SpecFloat.
From stdpp Require Import base option gmap strings.

Local Open Scope string_scope.
Local Open Scope Z_scope.

(* ===================================================================== *)
(** ** Bytes and strings *)
(* ===================================================================== *)

(** A Go string is a sequence of bytes: [string] with one [ascii] per byte. *)
Definition byte_val (c : ascii) : Z := Z.of_N (N_of_ascii c).

Definition NUL : ascii := Ascii.ascii_of_N 0.
Definition LF : ascii := Ascii.ascii_of_N 10.
Definition plus_byte : ascii := Ascii.ascii_of_N 43.

Definition str1 (c : ascii) : string := String c EmptyString.

Module Strings.

(** [strings.Join(elems, sep)]. *)
Fixpoint Join (elems : list string) (sep : string) : string :=
  match elems with
  | nil => ""
  | e :: nil => e
  | e :: rest => e ++ sep ++ Join rest sep
  end.

(** [strings.Split(s, sep)] for a separator of one byte: the pieces between
    the separators, in order; one piece more than there are separators. *)
Fixpoint Split (s : string) (sep : ascii) : list string :=
  match s with
  | EmptyString => "" :: nil
  | String c s' =>
      if Ascii.eqb c sep then "" :: Split s' sep
      else match Split s' sep with
           | nil => str1 c :: nil
           | piece :: pieces => String c piece :: pieces
           end
  end.

(** Whether the byte [c] occurs in [s] ([strings.IndexByte(s, c) >= 0]). *)
Fixpoint Contains (s : string) (c : ascii) : bool :=
  match s with
  | EmptyString => false
  | String c' s' => Ascii.eqb c' c || Contains s' c
  end.

(** [out] is [buf] with more text after it. *)
Definition extends (buf out : string) : Prop := exists more, out = buf ++ more.

End Strings.

(* ===================================================================== *)
(** ** Machine integers *)
(* ===================================================================== *)

Definition maxUint64 : Z := 2 ^ 64 - 1.
Definition maxInt64 : Z := 2 ^ 63 - 1.
Definition minInt64 : Z := - 2 ^ 63.

(** Wrap-around of [uint64] and [int64] arithmetic. *)
Definition wrap_u64 (n : Z) : Z := n mod 2 ^ 64.
Definition wrap_i64 (n : Z) : Z := (n + 2 ^ 63) mod 2 ^ 64 - 2 ^ 63.

Definition in_int64 (n : Z) : bool := (minInt64 <=? n) && (n <=? maxInt64).

(* ===================================================================== *)
(** ** strconv *)
(* ===================================================================== *)

Module Strconv.

(** The [Err] field of a [*strconv.NumError]. *)
Inductive NumError := ErrSyntax | ErrRange.

(** The value of a digit byte, as the [switch] in [ParseUint] computes it. *)
Definition digit (c : ascii) : option Z :=
  let b := byte_val c in
  if (48 <=? b) && (b <=? 57) then Some (b - 48)
  else if (97 <=? b) && (b <=? 122) then Some (b - 97 + 10)
  else if (65 <=? b) && (b <=? 90) then Some (b - 65 + 10)
  else None.

(** The digit loop of [ParseUint] with [bitSize = 64], so [maxVal] is
    [maxUint64]; [n] is the accumulator. *)
Fixpoint digits (base cutoff : Z) (s : string) (n : Z) : Z * option NumError :=
  match s with
  | EmptyString => (n, None)
  | String c s' =>
      match digit c with
      | None => (0, Some ErrSyntax)
      | Some d =>
          if base <=? d then (0, Some ErrSyntax)
          else if cutoff <=? n then (maxUint64, Some ErrRange)
          else
            let n' := wrap_u64 (n * base) in
            let n1 := wrap_u64 (n' + d) in
            if (n1 <? n') || (maxUint64 <? n1) then (maxUint64, Some ErrRange)
            else digits base cutoff s' n1
      end
  end.

(** [strconv.ParseUint(s, base, 64)] for [base] 0 or 2..36.  With base 0 the
    prefix selects the base: [0x]/[0X] is 16, a leading [0] is 8, anything
    else is 10. *)
Definition ParseUint (s : string) (base : Z) : Z * option NumError :=
  match s with
  | EmptyString => (0, Some ErrSyntax)
  | String c0 s1 =>
      let run (b : Z) (ds : string) := digits b (maxUint64 / b + 1) ds 0 in
      if (2 <=? base) && (base <=? 36) then run base s
      else if base =? 0 then
        if Ascii.eqb c0 "0" then
          match s1 with
          | String c1 s2 =>
              if Ascii.eqb c1 "x" || Ascii.eqb c1 "X" then
                match s2 with
                | EmptyString => (0, Some ErrSyntax)
                | _ => run 16 s2
                end
              else run 8 s1
          | EmptyString => run 8 s1
          end
        else run 10 s
      else (0, Some ErrSyntax)
  end.

(** [strconv.ParseInt(s, base, 64)]. *)
Definition ParseInt (s : string) (base : Z) : Z * option NumError :=
  match s with
  | EmptyString => (0, Some ErrSyntax)
  | String c0 s1 =>
      let neg := Ascii.eqb c0 "-" in
      let s' := if Ascii.eqb c0 "+" || neg then s1 else s in
      let cutoff := 2 ^ 63 in
      match ParseUint s' base with
      | (_, Some ErrSyntax) => (0, Some ErrSyntax)
      | (un, _) =>
          if negb neg && (cutoff <=? un) then (cutoff - 1, Some ErrRange)
          else if neg && (cutoff <? un) then (- cutoff, Some ErrRange)
          else (if neg then - un else un, None)
      end
  end.

(** [strconv.Atoi(s)] where [int] has 64 bits.  Its fast path for short
    strings computes what [ParseInt(s, 10, 0)] computes. *)
Definition Atoi (s : string) : Z * option NumError := ParseInt s 10.

Definition hexdigit (d : Z) : ascii :=
  Ascii.ascii_of_N (Z.to_N (if d <? 10 then 48 + d else 87 + d)).

Fixpoint hex_loop (fuel : nat) (n : Z) (acc : string) : string :=
  match fuel with
  | O => acc
  | S fuel' =>
      let acc' := String (hexdigit (n mod 16)) acc in
      if n / 16 =? 0 then acc' else hex_loop fuel' (n / 16) acc'
  end.

(** [strconv.FormatUint(n, 16)] of a [uint64]: at most 16 digits. *)
Definition FormatHex (n : Z) : string := hex_loop 16 n "".

End Strconv.

(* ===================================================================== *)
(** ** float64 and time *)
(* ===================================================================== *)

Module Float64.

(** IEEE 754 binary64, through the executable specification of the
    Standard Library: 53 bits of precision, rounding to nearest even. *)
Definition prec : Z := 53.
Definition emax : Z := 1024.

Definition float64 := spec_float.

Definition zero : float64 := S754_zero false.

(** The conversions [float64(n)] of an integer and of an integer constant. *)
Definition of_int (n : Z) : float64 := binary_normalize prec emax n 0 false.

Definition add (x y : float64) : float64 := SFadd prec emax x y.
Definition mul (x y : float64) : float64 := SFmul prec emax x y.
Definition div (x y : float64) : float64 := SFdiv prec emax x y.

(** [x <= y], [x < y] and [x >= y]; all false when an operand is NaN. *)
Definition le (x y : float64) : bool := SFleb x y.
Definition lt (x y : float64) : bool := SFltb x y.
Definition ge (x y : float64) : bool := SFleb y x.

(** Not a NaN, and with the sign bit [s]. *)
Definition has_sign (s : bool) (x : float64) : bool :=
  match x with
  | S754_zero s' | S754_infinity s' | S754_finite s' _ _ => Bool.eqb s' s
  | S754_nan => false
  end.

(** Below zero: a negative finite value or -Inf. *)
Definition below_zero (x : float64) : bool :=
  match x with
  | S754_infinity s | S754_finite s _ _ => s
  | _ => false
  end.

(** The mantissa of [float64(n)] for [0 < n < 2^53]: [n] shifted to 53 bits. *)
Definition mant53 (n : positive) : positive :=
  match (53 - Zpos (digits2_pos n))%Z with
  | Zpos k => Pos.iter xO n k
  | _ => n
  end.

(** The integer part of a finite value, towards zero. *)
Definition trunc (x : float64) : option Z :=
  match x with
  | S754_zero _ => Some 0
  | S754_finite s m e =>
      let a := match e with
               | Zneg p => Z.shiftr (Zpos m) (Zpos p)
               | _ => Z.shiftl (Zpos m) e
               end in
      Some (if s then - a else a)
  | _ => None
  end.

(** The conversion [int64(x)]: the fraction is discarded; [indefinite] is
    what the platform yields when the value does not fit (the language
    leaves that result to the implementation). *)
Definition to_int64 (indefinite : Z) (x : float64) : Z :=
  match trunc x with
  | Some n => if in_int64 n then n else indefinite
  | None => indefinite
  end.

End Float64.

Module Time.

(** A [time.Duration] is an [int64] count of nanoseconds. *)
Definition Duration := Z.

Definition Second : Duration := 1000000000.

(** [d.Seconds()]:
    [sec := d / Second; nsec := d % Second;
     return float64(sec) + float64(nsec)/1e9]. *)
Definition Seconds (d : Duration) : Float64.float64 :=
  let sec := Z.quot d Second in
  let nsec := Z.rem d Second in
  Float64.add (Float64.of_int sec)
              (Float64.div (Float64.of_int nsec) (Float64.of_int 1000000000)).

End Time.

(* ===================================================================== *)
(** ** fmt: a format without operands *)
(* ===================================================================== *)

Module Fmt.

(** [Cmdline] passes its text to [fmt.Fprintf] as the format, with no
    operand.  This is [pp.doPrintf(format, nil)]: text is copied up to a
    [%]; after it come flags, an argument index, a width, a precision and
    the verb; since no operand is left every verb but [%] prints an error
    marker. *)

Definition is_flag (c : ascii) : bool :=
  Ascii.eqb c "#" || Ascii.eqb c "0" || Ascii.eqb c "+" || Ascii.eqb c "-"
  || Ascii.eqb c " ".

Definition is_digit (c : ascii) : bool :=
  (48 <=? byte_val c) && (byte_val c <=? 57).

Fixpoint skip_flags (s : string) : string :=
  match s with
  | String c s' => if is_flag c then skip_flags s' else s
  | EmptyString => s
  end.

Definition tooLarge (x : Z) : bool := (1000000 <? x) || (x <? -1000000).

(** [parsenum(s, start, end)] on the region [s[start:end]]: the number, whether
    one was present, and the part of the region left unread (nothing is left
    after a number that is too large). *)
Fixpoint parsenum_loop (s : string) (num : Z) (isnum : bool) : Z * bool * string :=
  match s with
  | EmptyString => (num, isnum, s)
  | String c s' =>
      if is_digit c then
        if tooLarge num then (0, false, "")
        else parsenum_loop s' (num * 10 + (byte_val c - 48)) true
      else (num, isnum, s)
  end.

Definition parsenum (s : string) : Z * bool * string := parsenum_loop s 0 false.

(** The text before the first [c] in [s] and the text after it. *)
Fixpoint cut (c : ascii) (s : string) : option (string * string) :=
  match s with
  | EmptyString => None
  | String c' s' =>
      if Ascii.eqb c' c then Some ("", s')
      else match cut c s' with
           | Some (before, after) => Some (String c' before, after)
           | None => None
           end
  end.

(** [parseArgNumber(format)] where [format] begins with the bracket: whether
    the bracketed number parsed, and the format after the bytes consumed. *)
Definition parseArgNumber (format : string) : bool * string :=
  match format with
  | String _ body =>
      if (Z.of_nat (String.length format) <? 3) then (false, body)
      else match cut "]" body with
           | Some (region, after) =>
               let '(_, ok, unread) := parsenum region in
               match unread with
               | EmptyString => (ok, after)
               | _ => (false, after)
               end
           | None => (false, body)
           end
  | EmptyString => (false, format)
  end.

(** [pp.argNumber] with [numArgs = 0]: no index is in range, so a bracket
    always clears [goodArgNum].  Returns [goodArgNum], [found], the rest. *)
Definition argNumber (good : bool) (s : string) : bool * bool * string :=
  match s with
  | String c _ =>
      if Ascii.eqb c "[" then
        let '(ok, rest) := parseArgNumber s in (false, ok, rest)
      else (good, false, s)
  | EmptyString => (good, false, s)
  end.

Definition RuneError : string :=
  String (Ascii.ascii_of_N 239) (String (Ascii.ascii_of_N 191)
    (String (Ascii.ascii_of_N 189) "")).

Definition between (lo hi : Z) (c : ascii) : bool :=
  (lo <=? byte_val c) && (byte_val c <=? hi).

(** For the first byte of an encoding of more than one byte: how many bytes
    follow, and the range the first of them must lie in. *)
Definition rune_shape (c : ascii) : nat * Z * Z :=
  let b := byte_val c in
  if between 194 223 c then (1%nat, 128, 191)
  else if b =? 224 then (2%nat, 160, 191)
  else if between 225 236 c || between 238 239 c then (2%nat, 128, 191)
  else if b =? 237 then (2%nat, 128, 159)
  else if b =? 240 then (3%nat, 144, 191)
  else if between 241 243 c then (3%nat, 128, 191)
  else if b =? 244 then (3%nat, 128, 143)
  else (0%nat, 0, 0).

(** [utf8.DecodeRuneInString] followed by [WriteRune]: the bytes written for
    the verb at the head of [String c s] and the format after the verb.  A
    well-formed encoding is written back as it is; anything else consumes
    one byte and writes U+FFFD. *)
Definition verb_rune (c : ascii) (s : string) : string * string :=
  let bad := (RuneError, s) in
  if byte_val c <? 128 then (str1 c, s)
  else
    let '(n, lo, hi) := rune_shape c in
    match n, s with
    | 1%nat, String c1 s1 =>
        if between lo hi c1 then (String c (str1 c1), s1) else bad
    | 2%nat, String c1 (String c2 s2) =>
        if between lo hi c1 && between 128 191 c2
        then (String c (String c1 (str1 c2)), s2) else bad
    | 3%nat, String c1 (String c2 (String c3 s3)) =>
        if between lo hi c1 && between 128 191 c2 && between 128 191 c3
        then (String c (String c1 (String c2 (str1 c3))), s3) else bad
    | _, _ => bad
    end.

(** The width of a directive: a star asks for an operand, and there is
    none.  Returns what is printed, [goodArgNum], [afterIndex], the rest. *)
Definition width (good afterIndex : bool) (s : string)
  : string * bool * bool * string :=
  match s with
  | String "*" s' => ("%!(BADWIDTH)", good, false, s')
  | _ =>
      let '(_, widPresent, s') := parsenum s in
      ("", if afterIndex && widPresent then false else good, afterIndex, s')
  end.

(** The precision: only looked for when a byte follows the dot. *)
Definition precision (good afterIndex : bool) (s : string)
  : string * bool * bool * string :=
  match s with
  | String "." (String _ _ as s') =>
      let good := if afterIndex then false else good in
      let '(good, afterIndex, s') := argNumber good s' in
      match s' with
      | String "*" s'' => ("%!(BADPREC)", good, false, s'')
      | _ => let '(_, _, s'') := parsenum s' in ("", good, afterIndex, s'')
      end
  | _ => ("", good, afterIndex, s)
  end.

(** The verb: [%] prints itself; any other verb has no operand. *)
Definition verb (good : bool) (s : string) : string * string :=
  match s with
  | EmptyString => ("%!(NOVERB)", "")
  | String c s' =>
      if Ascii.eqb c "%" then ("%", s')
      else
        let '(v, rest) := verb_rune c s' in
        ("%!" ++ v ++ (if good then "(MISSING)" else "(BADINDEX)"), rest)
  end.

(** One directive: the format after a [%].  Returns what is printed and the
    format that remains. *)
Definition directive (s : string) : string * string :=
  let s := skip_flags s in
  let '(good, afterIndex, s) := argNumber true s in
  let '(out1, good, afterIndex, s) := width good afterIndex s in
  let '(out2, good, afterIndex, s) := precision good afterIndex s in
  let '(good, _, s) :=
    if afterIndex then (good, afterIndex, s) else argNumber good s in
  let '(out3, s) := verb good s in
  (out1 ++ out2 ++ out3, s).

(** The loop of [doPrintf]; every round consumes at least one byte, so
    [fuel] may be the length of the format. *)
Fixpoint doPrintf (fuel : nat) (format : string) : option string :=
  match format with
  | EmptyString => Some ""
  | String c rest =>
      match fuel with
      | O => None
      | S fuel' =>
          if Ascii.eqb c "%" then
            let '(out, rest') := directive rest in
            match doPrintf fuel' rest' with
            | Some tail => Some (out ++ tail)
            | None => None
            end
          else
            match doPrintf fuel' rest with
            | Some tail => Some (String c tail)
            | None => None
            end
      end
  end.

(** [fmt.Sprintf(format)]: [None] would mean the fuel ran out, which
    [Sprintf_total] excludes. *)
Definition Sprintf (format : string) : option string :=
  doPrintf (String.length format) format.

End Fmt.

(* ===================================================================== *)
(** ** io and bufio *)
(* ===================================================================== *)

Module Io.

(** The errors a read can report: [io.EOF], [bufio.ErrBufferFull], or any
    other error of the underlying reader, with its text. *)
Inductive error :=
| EOF
| ErrBufferFull
| ReadError (text : string).

(** [err.Error()], what [%v] prints. *)
Definition Error (e : error) : string :=
  match e with
  | EOF => "EOF"
  | ErrBufferFull => "bufio: buffer full"
  | ReadError text => text
  end.

Definition is_EOF (e : error) : bool :=
  match e with EOF => true | _ => false end.

(** A source of bytes: the bytes it delivers, then the error that ends it
    ([EOF] for a body or a string that was read to its end).  The error comes
    from a read of its own, after the last byte. *)
Record Source := { data : string; final : error }.

End Io.

Module Bufio.

Definition defaultBufSize : nat := 4096.

(** A [*bufio.Reader] of the default size over a source: what has not been
    handed out yet. *)
Record Reader := { unread : string; rdErr : Io.error }.

Definition NewReader (src : Io.Source) : Reader :=
  {| unread := Io.data src; rdErr := Io.final src |}.

Inductive scanned :=
| Found (line rest : string)      (* the delimiter is the last byte of [line] *)
| Full (line rest : string)       (* the buffer filled up without a delimiter *)
| Ended (line : string).          (* the source ended without a delimiter *)

Definition push (c : ascii) (r : scanned) : scanned :=
  match r with
  | Found line rest => Found (String c line) rest
  | Full line rest => Full (String c line) rest
  | Ended line => Ended (String c line)
  end.

(** Search the next [room] bytes of [s] for [delim]. *)
Fixpoint scan (room : nat) (delim : ascii) (s : string) : scanned :=
  match room with
  | O => Full "" s
  | S room' =>
      match s with
      | EmptyString => Ended ""
      | String c s' =>
          if Ascii.eqb c delim then Found (str1 c) s'
          else push c (scan room' delim s')
      end
  end.

(** [b.ReadSlice(delim)]: the bytes up to and including the first delimiter;
    without a delimiter, a full buffer with [ErrBufferFull], or else all the
    bytes that are left with the error of the source. *)
Definition ReadSlice (b : Reader) (delim : ascii)
  : string * option Io.error * Reader :=
  match scan defaultBufSize delim (unread b) with
  | Found line rest => (line, None, {| unread := rest; rdErr := rdErr b |})
  | Full line rest =>
      (line, Some Io.ErrBufferFull, {| unread := rest; rdErr := rdErr b |})
  | Ended line => (line, Some (rdErr b), {| unread := ""; rdErr := rdErr b |})
  end.

(** The results of the successive calls [b.ReadSlice(delim)], up to and
    including the first one that reports an error. *)
Fixpoint reads (fuel : nat) (b : Reader) (delim : ascii)
  : list (string * option Io.error) :=
  match fuel with
  | O => nil
  | S fuel' =>
      let '(line, err, b') := ReadSlice b delim in
      match err with
      | Some _ => (line, err) :: nil
      | None => (line, err) :: reads fuel' b' delim
      end
  end.

Definition ReadSlices (b : Reader) (delim : ascii)
  : list (string * option Io.error) :=
  reads (S (String.length (unread b))) b delim.

End Bufio.

(* ===================================================================== *)
(** ** net/http *)
(* ===================================================================== *)

Module Http.

Definition StatusOK : Z := 200.
Definition StatusBadRequest : Z := 400.
Definition StatusNotFound : Z := 404.
Definition StatusInternalServerError : Z := 500.

(** [http.Header] is a [map[string][]string]. *)
Abbreviation Header := (gmap string (list string)).

(** [h.Set(key, value)] and [h.Del(key)].  The keys this package uses are
    already in canonical form. *)
Definition Set_ (h : Header) (key value : string) : Header :=
  <[key := value :: nil]> h.
Definition Del (h : Header) (key : string) : Header := delete key h.

(** [h.Get(key)]: the first value of the key, if it has one. *)
Definition Get (h : Header) (key : string) : option string :=
  match h !! key with
  | Some (v :: _) => Some v
  | _ => None
  end.

(** A response in the making: the header map the handler edits, the status
    line and the headers as they were sent (once they are), and the body. *)
Record ResponseWriter := {
  header : Header;
  sent : option (Z * Header);
  body : string
}.

(** What a server hands to a handler. *)
Definition NewResponse (h : Header) : ResponseWriter :=
  {| header := h; sent := None; body := "" |}.

Definition SetHeader (w : ResponseWriter) (key value : string) : ResponseWriter :=
  {| header := Set_ (header w) key value; sent := sent w; body := body w |}.

Definition DelHeader (w : ResponseWriter) (key : string) : ResponseWriter :=
  {| header := Del (header w) key; sent := sent w; body := body w |}.

(** [w.WriteHeader(status)]: sends the status with the headers as they are
    now; a second call changes nothing. *)
Definition WriteHeader (w : ResponseWriter) (status : Z) : ResponseWriter :=
  match sent w with
  | Some _ => w
  | None => {| header := header w; sent := Some (status, header w); body := body w |}
  end.

(** [w.Write(p)]: sends status 200 first if no status was sent. *)
Definition Write (w : ResponseWriter) (p : string) : ResponseWriter :=
  let w := WriteHeader w StatusOK in
  {| header := header w; sent := sent w; body := body w ++ p |}.

(** The status of the response and a header of it, as the client sees them. *)
Definition status (w : ResponseWriter) : option Z := fst <$> sent w.
Definition sentHeader (w : ResponseWriter) (key : string) : option string :=
  match sent w with
  | Some (_, h) => Get h key
  | None => None
  end.

Record Server := { WriteTimeout : Time.Duration }.

(** The parts of a [*http.Request] the handlers read: the method, the raw
    query of the URL, the body, the parsed form behind [FormValue], and the
    server stored in the context under [http.ServerContextKey], if any. *)
Record Request := {
  Method : string;
  RawQuery : string;
  Body : Io.Source;
  Form : gmap string (list string);
  ContextServer : option Server
}.

(** [r.FormValue(key)]: the first value of [key], or the empty string. *)
Definition FormValue (r : Request) (key : string) : string :=
  match Form r !! key with
  | Some (v :: _) => v
  | _ => ""
  end.

End Http.

(* ===================================================================== *)
(** ** The runtime behind the handlers *)
(* ===================================================================== *)

Module Runtime.

(** The calls a handler makes into the runtime, in the order it makes them. *)
Inductive Call :=
| StartCPUProfile_
| StopCPUProfile_
| TraceStart_
| TraceStop_
| Sleep_ (d : Time.Duration)
| GC_
| WriteTo_ (name : string) (debug : Z).

(** The state of the runtime that the handlers change: whether the CPU
    sampler and the execution tracer are capturing, how many collections
    were forced, and the calls made so far. *)
Record State := {
  cpuProfiling : bool;
  tracing : bool;
  numForcedGC : nat;
  calls : list Call
}.

Definition record (c : Call) (st : State) : State :=
  {| cpuProfiling := cpuProfiling st; tracing := tracing st;
     numForcedGC := numForcedGC st; calls := calls st ++ c :: nil |}.

(** Modelled from the spec: [runtime/pprof.StartCPUProfile] is not part of
    this package; the sampler permits one capture at a time, and a start
    while one is active fails and leaves the capture alone. *)
Definition StartCPUProfile (st : State) : State * option string :=
  let st := record StartCPUProfile_ st in
  if cpuProfiling st then (st, Some "cpu profiling already in use")
  else ({| cpuProfiling := true; tracing := tracing st;
           numForcedGC := numForcedGC st; calls := calls st |}, None).

Definition StopCPUProfile (st : State) : State :=
  let st := record StopCPUProfile_ st in
  {| cpuProfiling := false; tracing := tracing st;
     numForcedGC := numForcedGC st; calls := calls st |}.

(** Modelled from the spec: [runtime/trace.Start] is not part of this
    package; the tracer permits one capture at a time as the sampler does. *)
Definition TraceStart (st : State) : State * option string :=
  let st := record TraceStart_ st in
  if tracing st then (st, Some "tracing is already enabled")
  else ({| cpuProfiling := cpuProfiling st; tracing := true;
           numForcedGC := numForcedGC st; calls := calls st |}, None).

Definition TraceStop (st : State) : State :=
  let st := record TraceStop_ st in
  {| cpuProfiling := cpuProfiling st; tracing := false;
     numForcedGC := numForcedGC st; calls := calls st |}.

(** [runtime.GC()]. *)
Definition GC (st : State) : State :=
  let st := record GC_ st in
  {| cpuProfiling := cpuProfiling st; tracing := tracing st;
     numForcedGC := S (numForcedGC st); calls := calls st |}.

(** A [*pprof.Profile] of the registry: what [p.WriteTo(w, debug)] writes,
    given the state of the runtime when it is called. *)
Record NamedProfile := { Payload : State -> Z -> string }.

(** What the process provides and the handlers only read: [os.Args], the
    symbol table behind [runtime.FuncForPC(pc).Name()], the registry behind
    [pprof.Lookup], and the bytes the sampler and the tracer write to the
    response during a capture. *)
Record Process := {
  Args : list string;
  FuncForPC : Z -> option string;
  Lookup : string -> option NamedProfile;
  cpuSamples : string;
  traceEvents : string
}.

End Runtime.

(* ===================================================================== *)
(** ** package pprof *)
(* ===================================================================== *)

Module Pprof.
Import Http Runtime.

Definition quote : string := str1 (Ascii.ascii_of_N 34).
Definition newline : string := str1 LF.

(** [fmt.Fprintln(w, txt)]. *)
Definition Fprintln (w : ResponseWriter) (txt : string) : ResponseWriter :=
  Write w (txt ++ newline).

Section Handlers.

Variable proc : Process.

(** [strconv.ParseFloat(s, 64)] and the result of a [float64] to [int64]
    conversion that does not fit, as the platform has them. *)
Variable ParseFloat : string -> Float64.float64 * option Strconv.NumError.
Variable indefinite : Z.

(** [func Cmdline]: the joined arguments are the format of [Fprintf].
    [None] only if formatting ran out of fuel, which it never does. *)
Definition Cmdline (w : ResponseWriter) (r : Request) : option ResponseWriter :=
  let w := SetHeader w "X-Content-Type-Options" "nosniff" in
  let w := SetHeader w "Content-Type" "text/plain; charset=utf-8" in
  match Fmt.Sprintf (Strings.Join (Args proc) (str1 NUL)) with
  | Some out => Some (Write w out)
  | None => None
  end.

(** [func sleep]: wait for [d] or until the client is gone.  How long the
    wait lasts is outside the model; the call and its duration are kept. *)
Definition sleep (d : Time.Duration) (st : State) : State :=
  record (Sleep_ d) st.

(** [func durationExceedsWriteTimeout]. *)
Definition durationExceedsWriteTimeout (r : Request) (seconds : Float64.float64)
  : bool :=
  match ContextServer r with
  | Some srv =>
      negb (WriteTimeout srv =? 0)
      && Float64.ge seconds (Time.Seconds (WriteTimeout srv))
  | None => false
  end.

(** [func serveError]. *)
Definition serveError (w : ResponseWriter) (status : Z) (txt : string)
  : ResponseWriter :=
  let w := SetHeader w "Content-Type" "text/plain; charset=utf-8" in
  let w := SetHeader w "X-Go-Pprof" "1" in
  let w := DelHeader w "Content-Disposition" in
  let w := WriteHeader w status in
  Fprintln w txt.

(** The value of [sec] in [Profile] after its first three statements. *)
Definition Profile_sec (r : Request) : Z :=
  let '(sec, _) := Strconv.ParseInt (FormValue r "seconds") 10 in
  if sec =? 0 then 30 else sec.

(** [func Profile]. *)
Definition Profile (w : ResponseWriter) (r : Request) (st : State)
  : ResponseWriter * State :=
  let w := SetHeader w "X-Content-Type-Options" "nosniff" in
  let sec := Profile_sec r in
  if durationExceedsWriteTimeout r (Float64.of_int sec) then
    (serveError w StatusBadRequest
       "profile duration exceeds server's WriteTimeout", st)
  else
    let w := SetHeader w "Content-Type" "application/octet-stream" in
    let w := SetHeader w "Content-Disposition"
               ("attachment; filename=" ++ quote ++ "profile" ++ quote) in
    match StartCPUProfile st with
    | (st, Some err) =>
        (serveError w StatusInternalServerError
           ("Could not enable CPU profiling: " ++ err), st)
    | (st, None) =>
        let st := sleep (wrap_i64 (sec * Time.Second)) st in
        let st := StopCPUProfile st in
        (Write w (cpuSamples proc), st)
    end.

(** The value of [sec] in [Trace] after its first three statements. *)
Definition Trace_sec (r : Request) : Float64.float64 :=
  let '(sec, err) := ParseFloat (FormValue r "seconds") in
  if Float64.le sec Float64.zero || bool_decide (err <> None)
  then Float64.of_int 1 else sec.

(** [func Trace]. *)
Definition Trace (w : ResponseWriter) (r : Request) (st : State)
  : ResponseWriter * State :=
  let w := SetHeader w "X-Content-Type-Options" "nosniff" in
  let sec := Trace_sec r in
  if durationExceedsWriteTimeout r sec then
    (serveError w StatusBadRequest
       "profile duration exceeds server's WriteTimeout", st)
  else
    let w := SetHeader w "Content-Type" "application/octet-stream" in
    let w := SetHeader w "Content-Disposition"
               ("attachment; filename=" ++ quote ++ "trace" ++ quote) in
    match TraceStart st with
    | (st, Some err) =>
        (serveError w StatusInternalServerError
           ("Could not enable tracing: " ++ err), st)
    | (st, None) =>
        let d := Float64.to_int64 indefinite
                   (Float64.mul sec (Float64.of_int Time.Second)) in
        let st := sleep d st in
        let st := TraceStop st in
        (Write w (traceEvents proc), st)
    end.

(** [word[0 : len(word)-1]]. *)
Fixpoint trim_last (word : string) : string :=
  match word with
  | EmptyString => ""
  | String c EmptyString => ""
  | String c rest => String c (trim_last rest)
  end.

(** The body of the [for] loop in [Symbol] up to the check of [err]: the
    buffer after the word was looked up. *)
Definition Symbol_word (word : string) (err : option Io.error) (buf : string)
  : string :=
  let word := match err with None => trim_last word | Some _ => word end in
  let '(pc, _) := Strconv.ParseUint word 0 in
  if negb (pc =? 0) then
    match FuncForPC proc pc with
    | Some name =>
        buf ++ "0x" ++ Strconv.FormatHex pc ++ " " ++ name ++ newline
    | None => buf
    end
  else buf.

(** The [for] loop of [Symbol].  Every round that goes on has consumed a
    byte, so the rounds are bounded by the length of the input. *)
Fixpoint Symbol_loop (fuel : nat) (b : Bufio.Reader) (buf : string)
  : option string :=
  match fuel with
  | O => None
  | S fuel' =>
      let '(word, err, b) := Bufio.ReadSlice b plus_byte in
      let buf := Symbol_word word err buf in
      match err with
      | Some e =>
          Some (if negb (Io.is_EOF e)
                then buf ++ "reading request: " ++ Io.Error e ++ newline
                else buf)
      | None => Symbol_loop fuel' b buf
      end
  end.

(** What the loop leaves in [buf] after the words [ws], each read without an
    error, and then after the last word [lw], read with the error [e]. *)
Definition after_words (ws : list string) (buf : string) : string :=
  fold_left (fun buf w => Symbol_word w None buf) ws buf.

Definition after_last (lw : string) (e : Io.error) (buf : string) : string :=
  let buf := Symbol_word lw (Some e) buf in
  if Io.is_EOF e then buf
  else buf ++ "reading request: " ++ Io.Error e ++ newline.

(** The source that [Symbol] reads: the body of a POST, the raw query
    otherwise. *)
Definition Symbol_input (r : Request) : Io.Source :=
  if String.eqb (Method r) "POST" then Body r
  else {| Io.data := RawQuery r; Io.final := Io.EOF |}.

(** The contents of [buf] when the loop of [Symbol] is left. *)
Definition Symbol_output (r : Request) : option string :=
  let buf := "num_symbols: 1" ++ newline in
  let b := Bufio.NewReader (Symbol_input r) in
  Symbol_loop (S (String.length (Bufio.unread b))) b buf.

(** [func Symbol]. *)
Definition Symbol (w : ResponseWriter) (r : Request) : option ResponseWriter :=
  let w := SetHeader w "X-Content-Type-Options" "nosniff" in
  let w := SetHeader w "Content-Type" "text/plain; charset=utf-8" in
  match Symbol_output r with
  | Some buf => Some (Write w buf)
  | None => None
  end.

(** [func (name handler) ServeHTTP]. *)
Definition ServeHTTP (name : string) (w : ResponseWriter) (r : Request)
  (st : State) : ResponseWriter * State :=
  let w := SetHeader w "X-Content-Type-Options" "nosniff" in
  match Lookup proc name with
  | None => (serveError w StatusNotFound "Unknown profile", st)
  | Some p =>
      let '(gc, _) := Strconv.Atoi (FormValue r "gc") in
      let st := if String.eqb name "heap" && (0 <? gc) then GC st else st in
      let '(debug, _) := Strconv.Atoi (FormValue r "debug") in
      let w :=
        if negb (debug =? 0) then
          SetHeader w "Content-Type" "text/plain; charset=utf-8"
        else
          let w := SetHeader w "Content-Type" "application/octet-stream" in
          SetHeader w "Content-Disposition"
            ("attachment; filename=" ++ quote ++ name ++ quote) in
      let st := record (WriteTo_ name debug) st in
      (Write w (Payload p st debug), st)
  end.

End Handlers.

(** The response that refuses a capture for its duration: status 400 and the
    explanation as plain text. *)
Definition refused_for_duration (w : ResponseWriter) : Prop :=
  status w = Some StatusBadRequest
  /\ sentHeader w "Content-Type" = Some "text/plain; charset=utf-8"
  /\ body w = "profile duration exceeds server's WriteTimeout" ++ newline.

(** The line that Symbol writes for an address the symbol table knows, no text
    for one it does not know. *)
Definition resolved_line (proc : Process) (pc : Z) : string :=
  match FuncForPC proc pc with
  | Some name => "0x" ++ Strconv.FormatHex pc ++ " " ++ name ++ newline
  | None => ""
  end.

End Pprof.

(* ===================================================================== *)
(** ** Concrete processes and requests *)
(* ===================================================================== *)

Module Example.
Import Http Runtime Pprof.

(** A runtime with no capture under way. *)
Definition idle : State :=
  {| cpuProfiling := false; tracing := false; numForcedGC := 0; calls := nil |}.

(** A symbol table with two functions, at 0x1a and at 0x2b. *)
Definition symtab (pc : Z) : option string :=
  if pc =? 26 then Some "main.foo"
  else if pc =? 43 then Some "main.bar"
  else None.

(** A profile whose text tells its name, its form, and how many collections
    had been forced when it was written. *)
Definition dump (name : string) : NamedProfile :=
  {| Payload := fun st debug =>
       name ++ (if debug =? 0 then " (binary), after " else " (text), after ")
            ++ Strconv.FormatHex (Z.of_nat (numForcedGC st)) ++ " forced GC" |}.

(** A registry with the profiles [heap] and [goroutine]. *)
Definition registry (name : string) : option NamedProfile :=
  if String.eqb name "heap" || String.eqb name "goroutine"
  then Some (dump name) else None.

(** A process started as [prog --rate=50%]. *)
Definition process : Process :=
  {| Args := "prog" :: "--rate=50%" :: nil;
     FuncForPC := symtab;
     Lookup := registry;
     cpuSamples := "cpu samples";
     traceEvents := "trace events" |}.

(** A GET request with the given form values and server. *)
Definition get (form : list (string * list string)) (srv : option Server)
  : Request :=
  {| Method := "GET"; RawQuery := "";
     Body := {| Io.data := ""; Io.final := Io.EOF |};
     Form := list_to_map form; ContextServer := srv |}.

(** A POST request with the given body, read to its end. *)
Definition post (body : string) : Request :=
  {| Method := "POST"; RawQuery := "";
     Body := {| Io.data := body; Io.final := Io.EOF |};
     Form := ∅; ContextServer := None |}.

(** A stand-in for [strconv.ParseFloat] that accepts decimal integers only. *)
Definition ParseFloat_int (s : string)
  : Float64.float64 * option Strconv.NumError :=
  match Strconv.ParseInt s 10 with
  | (n, None) => (Float64.of_int n, None)
  | (_, Some e) => (Float64.zero, Some e)
  end.

End Example.

(* ===================================================================== *)
(** ** Index and the index page *)
(* ===================================================================== *)

Module PprofIndex.
Import Http Runtime Pprof.

(** [strings.HasPrefix(s, prefix)]. *)
Fixpoint HasPrefix (s prefix : string) {struct prefix} : bool :=
  match prefix with
  | EmptyString => true
  | String p prefix' =>
      match s with
      | EmptyString => false
      | String c s' => Ascii.eqb c p && HasPrefix s' prefix'
      end
  end.

(** [s[n:]]. *)
Fixpoint skip (n : nat) (s : string) : string :=
  match n with
  | O => s
  | S n' => match s with EmptyString => s | String _ s' => skip n' s' end
  end.

(** [strings.TrimPrefix(s, prefix)]. *)
Definition TrimPrefix (s prefix : string) : string :=
  if HasPrefix s prefix then skip (String.length prefix) s else s.

Definition decdigit (d : Z) : ascii := Ascii.ascii_of_N (Z.to_N (48 + d)).

Fixpoint dec_loop (fuel : nat) (n : Z) (acc : string) : string :=
  match fuel with
  | O => acc
  | S fuel' =>
      let acc' := String (decdigit (n mod 10)) acc in
      if n / 10 =? 0 then acc' else dec_loop fuel' (n / 10) acc'
  end.

(** [strconv.Itoa(n)] of an [int]: at most 19 digits after the sign. *)
Definition Itoa (n : Z) : string :=
  if n <? 0 then "-" ++ dec_loop 19 (- n) "" else dec_loop 19 n "".

(** What the index template reads of a [*pprof.Profile]: [p.Name()] and
    [p.Count()]. *)
Record ProfileInfo := { Name : string; Count : Z }.

(** The mount point that [Index] looks for. *)
Definition mount : string := "/debug/pprof/".

Section Index.

Variable proc : Process.

(** [pprof.Profiles()], the profiles of the registry when [Index] runs. *)
Variable profiles : list ProfileInfo.

(** The escapers that html/template puts on the actions of [indexTmpl]: the
    one for text, and the chain for a URL at the start of a quoted
    attribute. *)
Variable htmlEscaper : string -> string.
Variable hrefEscaper : string -> string.

(** The text of [indexTmpl] before [range]. *)
Definition indexHead : string :=
  "<html>" ++ newline
  ++ "<head>" ++ newline
  ++ "<title>/debug/pprof/</title>" ++ newline
  ++ "</head>" ++ newline
  ++ "<body>" ++ newline
  ++ "/debug/pprof/<br>" ++ newline
  ++ "<br>" ++ newline
  ++ "profiles:<br>" ++ newline
  ++ "<table>" ++ newline.

(** One round of [range]: the row of a profile. *)
Definition indexRow (p : ProfileInfo) : string :=
  newline
  ++ "<tr><td align=right>" ++ htmlEscaper (Itoa (Count p))
  ++ "<td><a href=" ++ quote ++ hrefEscaper (Name p) ++ "?debug=1" ++ quote
  ++ ">" ++ htmlEscaper (Name p) ++ "</a>" ++ newline.

(** The text of [indexTmpl] after [end]. *)
Definition indexFoot : string :=
  newline
  ++ "</table>" ++ newline
  ++ "<br>" ++ newline
  ++ "<a href=" ++ quote ++ "goroutine?debug=2" ++ quote
  ++ ">full goroutine stack dump</a><br>" ++ newline
  ++ "</body>" ++ newline
  ++ "</html>" ++ newline.

(** What [indexTmpl.Execute(w, profiles)] writes. *)
Definition indexPage : string :=
  indexHead ++ String.concat "" (map indexRow profiles) ++ indexFoot.

(** [func Index], with [r.URL.Path] passed beside the request. *)
Definition Index (path : string) (w : ResponseWriter) (r : Request)
  (st : State) : ResponseWriter * State :=
  let page := (Write w indexPage, st) in
  if HasPrefix path mount then
    let name := TrimPrefix path mount in
    if negb (String.eqb name "") then ServeHTTP proc name w r st
    else page
  else page.

End Index.

(** [func Handler]. *)
Definition Handler (proc : Process) (name : string)
  : ResponseWriter -> Request -> State -> ResponseWriter * State :=
  ServeHTTP proc name.

End PprofIndex.

(* ===================================================================== *)
(** ** Tokens of a symbol request *)
(* ===================================================================== *)

Module SymbolTokens.
Import Http Runtime Pprof.

(** What the loop of [Symbol] writes for a token: the line of its address
    when the token parses to an address other than 0. *)
Definition token_text (proc : Process) (token : string) : string :=
  let '(pc, _) := Strconv.ParseUint token 0 in
  if negb (pc =? 0) then resolved_line proc pc else "".

(** A token of a request: no plus sign in it, and short enough for the
    buffer of the reader together with its delimiter. *)
Definition is_token (t : string) : bool :=
  negb (Strings.Contains t plus_byte)
  && (String.length t <? Bufio.defaultBufSize)%nat.

(** An address as [%#x] writes it. *)
Definition hex_address (pc : Z) : string := "0x" ++ Strconv.FormatHex pc.

(** The number that the digits of [s] in base [base] add to [acc]; [None]
    when a byte of [s] is no digit of the base. *)
Fixpoint number (base : Z) (s : string) (acc : Z) : option Z :=
  match s with
  | EmptyString => Some acc
  | String c s' =>
      match Strconv.digit c with
      | Some d => if d <? base then number base s' (acc * base + d) else None
      | None => None
      end
  end.

(** The value of a string of decimal digits, [None] for any other string. *)
Definition decimal_value (s : string) : option Z :=
  match s with
  | EmptyString => None
  | _ => number 10 s 0
  end.

(** The first line of every answer of [Symbol]. *)
Definition symbol_head : string := "num_symbols: 1" ++ newline.

(** The line that [Symbol] writes for the error that ends its reads. *)
Definition error_line (e : Io.error) : string :=
  if Io.is_EOF e then "" else "reading request: " ++ Io.Error e ++ newline.

(** The texts of a list joined without a separator. *)
Definition concat_text (texts : list string) : string :=
  fold_right String.append "" texts.



(** A request to /symbol by GET with the given raw query. *)
Definition query (q : string) : Request :=
  {| Method := "GET"; RawQuery := q;
     Body := {| Io.data := ""; Io.final := Io.EOF |};
     Form := ∅; ContextServer := None |}.

End SymbolTokens.

(* ===================================================================== *)
(** ** Downloads and errors *)
(* ===================================================================== *)

Module Capture.
Import Http Runtime Pprof.

(** A fresh writer after the headers of a download were set on it, as
    [Profile], [Trace] and a named profile in its binary form set them. *)
Definition download (h : Header) (file : string) : ResponseWriter :=
  SetHeader
    (SetHeader
       (SetHeader (NewResponse h) "X-Content-Type-Options" "nosniff")
       "Content-Type" "application/octet-stream")
    "Content-Disposition" ("attachment; filename=" ++ quote ++ file ++ quote).

(** The response carries [X-Content-Type-Options: nosniff]. *)
Definition nosniff (w : ResponseWriter) : Prop :=
  sentHeader w "X-Content-Type-Options" = Some "nosniff".

(** The response has the headers of an error: plain text, the marker
    [X-Go-Pprof: 1], and no [Content-Disposition]. *)
Definition plain_error (w : ResponseWriter) : Prop :=
  sentHeader w "Content-Type" = Some "text/plain; charset=utf-8"
  /\ sentHeader w "X-Go-Pprof" = Some "1"
  /\ sentHeader w "Content-Disposition" = None.

(** A stand-in for [strconv.ParseFloat] that reads [NaN] and decimal
    integers. *)
Definition ParseFloat_nan (s : string)
  : Float64.float64 * option Strconv.NumError :=
  if String.eqb s "NaN" then (S754_nan, None) else Example.ParseFloat_int s.

End Capture.

(* ===================================================================== *)
(** * Properties *)
(* ===================================================================== *)

(** ** The library routines on small inputs *)

Module Tests.

Example ParseUint_base_0 :
  Strconv.ParseUint "0x1a" 0 = (26, None)
  /\ Strconv.ParseUint "0X2B" 0 = (43, None)
  /\ Strconv.ParseUint "017" 0 = (15, None)
  /\ Strconv.ParseUint "42" 0 = (42, None)
  /\ Strconv.ParseUint "0" 0 = (0, None)
  /\ Strconv.ParseUint "1a" 0 = (0, Some Strconv.ErrSyntax)
  /\ Strconv.ParseUint "2b" 0 = (0, Some Strconv.ErrSyntax)
  /\ Strconv.ParseUint "0x" 0 = (0, Some Strconv.ErrSyntax)
  /\ Strconv.ParseUint "" 0 = (0, Some Strconv.ErrSyntax)
  /\ Strconv.ParseUint "18446744073709551615" 0 = (maxUint64, None)
  /\ Strconv.ParseUint "18446744073709551616" 0
     = (maxUint64, Some Strconv.ErrRange).
Proof. repeat split; reflexivity. Qed.

Example ParseInt_base_10 :
  Strconv.ParseInt "30" 10 = (30, None)
  /\ Strconv.ParseInt "+5" 10 = (5, None)
  /\ Strconv.ParseInt "-5" 10 = (-5, None)
  /\ Strconv.ParseInt "" 10 = (0, Some Strconv.ErrSyntax)
  /\ Strconv.ParseInt "1.5" 10 = (0, Some Strconv.ErrSyntax)
  /\ Strconv.ParseInt "9223372036854775808" 10
     = (maxInt64, Some Strconv.ErrRange)
  /\ Strconv.ParseInt "-9223372036854775808" 10 = (minInt64, None).
Proof. repeat split; reflexivity. Qed.

Example FormatHex_examples :
  Strconv.FormatHex 26 = "1a"
  /\ Strconv.FormatHex 4096 = "1000"
  /\ Strconv.FormatHex maxUint64 = "ffffffffffffffff".
Proof. repeat split; reflexivity. Qed.

Example Sprintf_without_operands :
  Fmt.Sprintf "plain text" = Some "plain text"
  /\ Fmt.Sprintf "100%" = Some "100%!(NOVERB)"
  /\ Fmt.Sprintf "a%%b" = Some "a%b"
  /\ Fmt.Sprintf "%d items" = Some "%!d(MISSING) items"
  /\ Fmt.Sprintf "%-08.3f" = Some "%!f(MISSING)"
  /\ Fmt.Sprintf "%*d" = Some "%!(BADWIDTH)%!d(MISSING)"
  /\ Fmt.Sprintf "%.*d" = Some "%!(BADPREC)%!d(MISSING)"
  /\ Fmt.Sprintf "%[1]d" = Some "%!d(BADINDEX)".
Proof. repeat split; reflexivity. Qed.

Example Seconds_examples :
  Time.Seconds 30000000000 = Float64.of_int 30
  /\ Time.Seconds 1500000000
     = Float64.div (Float64.of_int 3) (Float64.of_int 2)
  /\ Float64.ge (Float64.of_int 30) (Time.Seconds 30000000000) = true
  /\ Float64.ge (Float64.of_int 30) (Time.Seconds 30000000001) = false
  /\ Float64.ge (Float64.of_int 30) (Time.Seconds 29999999999) = true.
Proof. repeat split; reflexivity. Qed.

Example ReadSlice_examples :
  let b := Bufio.NewReader {| Io.data := "0x1a+0x2b"; Io.final := Io.EOF |} in
  Bufio.ReadSlices b plus_byte
  = ("0x1a+", None) :: ("0x2b", Some Io.EOF) :: nil.
Proof. reflexivity. Qed.

End Tests.

(** ** Formatting always ends *)

Module FmtFacts.
Import Fmt.

Lemma skip_flags_length (s : string) :
  (String.length (skip_flags s) <= String.length s)%nat.
Proof.
  induction s as [|c s IH]; simpl; [lia|].
  destruct (is_flag c); simpl; lia.
Qed.

Lemma parsenum_loop_length (s : string) :
  forall num isnum,
    (String.length (snd (parsenum_loop s num isnum)) <= String.length s)%nat.
Proof.
  induction s as [|c s IH]; intros num isnum; simpl; [lia|].
  destruct (is_digit c); simpl; [|lia].
  destruct (tooLarge num); simpl; [lia|].
  specialize (IH (num * 10 + (byte_val c - 48)) true). lia.
Qed.

Lemma parsenum_length (s : string) :
  (String.length (snd (parsenum s)) <= String.length s)%nat.
Proof. apply parsenum_loop_length. Qed.

Lemma cut_length (c : ascii) (s : string) :
  forall before after,
    cut c s = Some (before, after) ->
    (String.length after < String.length s)%nat.
Proof.
  induction s as [|c' s IH]; intros before after; simpl; [discriminate|].
  destruct (Ascii.eqb c' c).
  - intros [= <- <-]. lia.
  - destruct (cut c s) as [[b a]|] eqn:E; [|discriminate].
    intros [= <- <-]. specialize (IH _ _ eq_refl). lia.
Qed.

Lemma parseArgNumber_length (s : string) :
  (String.length (snd (parseArgNumber s)) <= String.length s)%nat.
Proof.
  destruct s as [|c body]; simpl; [lia|].
  destruct (Z.of_nat (S (String.length body)) <? 3); simpl; [lia|].
  destruct (cut "]" body) as [[region after]|] eqn:E; simpl; [|lia].
  apply cut_length in E.
  destruct (parsenum region) as [[n ok] unread].
  destruct unread; simpl; lia.
Qed.

Lemma argNumber_length (good : bool) (s : string) :
  (String.length (snd (argNumber good s)) <= String.length s)%nat.
Proof.
  unfold argNumber. destruct s as [|c s']; [simpl; lia|].
  destruct (Ascii.eqb c "["); [|simpl; lia].
  pose proof (parseArgNumber_length (String c s')) as H.
  destruct (parseArgNumber (String c s')) as [ok rest]. exact H.
Qed.

Lemma verb_rune_length (c : ascii) (s : string) :
  (String.length (snd (verb_rune c s)) <= String.length s)%nat.
Proof.
  unfold verb_rune.
  destruct (byte_val c <? 128); [simpl; lia|].
  destruct (rune_shape c) as [[n lo] hi].
  destruct n as [|[|[|[|n]]]]; simpl; try lia;
    repeat match goal with
      | |- context [match ?x with EmptyString => _ | String _ _ => _ end] =>
          destruct x; simpl; try lia
      | |- context [if ?b then _ else _] => destruct b; simpl; try lia
      end.
Qed.

Lemma width_length (good afterIndex : bool) (s : string) :
  (String.length (snd (width good afterIndex s)) <= String.length s)%nat.
Proof.
  pose proof (parsenum_length s) as H.
  unfold width. destruct (parsenum s) as [[n wp] s'] eqn:E. simpl in H.
  destruct s as [|c s1]; [exact H|].
  destruct (Ascii.eqb c "*") eqn:Ec.
  - apply Ascii.eqb_eq in Ec. subst c. simpl. lia.
  - assert (Hc : c <> "*"%char) by (intros ->; discriminate).
    destruct c as [[] [] [] [] [] [] [] []]; try exact H. congruence.
Qed.

Lemma precision_length (good afterIndex : bool) (s : string) :
  (String.length (snd (precision good afterIndex s)) <= String.length s)%nat.
Proof.
  assert (Hdot : forall c2 s2,
    (String.length
       (snd (let '(good', afterIndex', s') :=
               argNumber (if afterIndex then false else good) (String c2 s2) in
             match s' with
             | String "*" s'' => ("%!(BADPREC)", good', false, s'')
             | _ => let '(_, _, s'') := parsenum s' in
                    ("", good', afterIndex', s'')
             end))
     <= String.length (String c2 s2))%nat).
  { intros c2 s2.
    pose proof (argNumber_length (if afterIndex then false else good)
                  (String c2 s2)) as Ha.
    destruct (argNumber _ (String c2 s2)) as [[g a] s']. simpl in Ha.
    pose proof (parsenum_length s') as Hp.
    destruct (parsenum s') as [[n pp] s''] eqn:E. simpl in Hp.
    destruct s' as [|c s1]; [simpl in *; lia|].
    destruct (Ascii.eqb c "*") eqn:Ec.
    - apply Ascii.eqb_eq in Ec. subst c. simpl in *. lia.
    - destruct c as [[] [] [] [] [] [] [] []]; simpl in *; lia. }
  unfold precision.
  destruct s as [|c s1]; [simpl; lia|].
  destruct s1 as [|c2 s2].
  - destruct c as [[] [] [] [] [] [] [] []]; simpl; lia.
  - specialize (Hdot c2 s2).
    destruct c as [[] [] [] [] [] [] [] []]; try (simpl; lia).
    etransitivity; [exact Hdot|]. simpl. lia.
Qed.

Lemma verb_length (good : bool) (s : string) :
  (String.length (snd (verb good s)) <= String.length s)%nat.
Proof.
  unfold verb. destruct s as [|c s']; [simpl; lia|].
  destruct (Ascii.eqb c "%"); [simpl; lia|].
  pose proof (verb_rune_length c s') as H.
  destruct (verb_rune c s') as [v rest]. simpl in *. lia.
Qed.

Lemma directive_length (s : string) :
  (String.length (snd (directive s)) <= String.length s)%nat.
Proof.
  unfold directive.
  pose proof (skip_flags_length s) as H0.
  pose proof (argNumber_length true (skip_flags s)) as H1.
  destruct (argNumber true (skip_flags s)) as [[g1 a1] s1]. simpl in H1.
  pose proof (width_length g1 a1 s1) as H2.
  destruct (width g1 a1 s1) as [[[o1 g2] a2] s2]. simpl in H2.
  pose proof (precision_length g2 a2 s2) as H3.
  destruct (precision g2 a2 s2) as [[[o2 g3] a3] s3]. simpl in H3.
  assert (H4 : (String.length
                  (snd (if a3 then (g3, a3, s3) else argNumber g3 s3))
                <= String.length s3)%nat).
  { destruct a3; [simpl; lia|apply argNumber_length]. }
  destruct (if a3 then (g3, a3, s3) else argNumber g3 s3) as [[g4 a4] s4].
  simpl in H4.
  pose proof (verb_length g4 s4) as H5.
  destruct (verb g4 s4) as [o3 s5]. simpl in *. lia.
Qed.

Lemma doPrintf_enough (fuel : nat) :
  forall format, (String.length format <= fuel)%nat ->
                 is_Some (doPrintf fuel format).
Proof.
  induction fuel as [|fuel IH]; intros format Hlen.
  - destruct format; simpl in *; [eauto|lia].
  - destruct format as [|c rest]; simpl in *; [eauto|].
    destruct (Ascii.eqb c "%").
    + pose proof (directive_length rest) as Hd.
      destruct (directive rest) as [out rest']. simpl in Hd.
      destruct (IH rest') as [tail ->]; [lia|]. eauto.
    + destruct (IH rest) as [tail ->]; [lia|]. eauto.
Qed.

(** [Sprintf] returns for every format. *)
Lemma Sprintf_total (format : string) : is_Some (Sprintf format).
Proof. apply doPrintf_enough. lia. Qed.

(** A format without [%] is printed as it is. *)
Lemma doPrintf_plain (format : string) :
  forall fuel, (String.length format <= fuel)%nat ->
               Strings.Contains format "%" = false ->
               doPrintf fuel format = Some format.
Proof.
  induction format as [|c rest IH]; intros fuel Hlen Hc.
  - destruct fuel; reflexivity.
  - destruct fuel as [|fuel]; simpl in *; [lia|].
    apply orb_false_iff in Hc as [Hc1 Hc2]. rewrite Hc1.
    rewrite IH; [reflexivity|lia|exact Hc2].
Qed.

Lemma Sprintf_plain (format : string) :
  Strings.Contains format "%" = false -> Sprintf format = Some format.
Proof. intros H. apply doPrintf_plain; [lia|exact H]. Qed.

End FmtFacts.

(** ** Joining and splitting *)

Module StringsFacts.
Import Strings.

Lemma Contains_app (s t : string) (c : ascii) :
  Contains (s ++ t) c = Contains s c || Contains t c.
Proof.
  induction s as [|c' s IH]; simpl; [reflexivity|].
  rewrite IH. apply orb_assoc.
Qed.

Lemma Split_plain (s : string) (sep : ascii) :
  Contains s sep = false -> Split s sep = s :: nil.
Proof.
  induction s as [|c s IH]; simpl; [reflexivity|].
  intros H. apply orb_false_iff in H as [H1 H2].
  rewrite H1, (IH H2). reflexivity.
Qed.

Lemma Split_app (s rest : string) (sep : ascii) :
  Contains s sep = false ->
  Split (s ++ String sep rest) sep = s :: Split rest sep.
Proof.
  induction s as [|c s IH]; simpl.
  - intros _. rewrite Ascii.eqb_refl. reflexivity.
  - intros H. apply orb_false_iff in H as [H1 H2].
    rewrite H1, (IH H2). reflexivity.
Qed.

(** Splitting undoes joining when no element holds the separator and there
    is at least one element. *)
Lemma Split_Join (elems : list string) (sep : ascii) :
  elems <> nil ->
  Forall (fun e => Contains e sep = false) elems ->
  Split (Join elems (str1 sep)) sep = elems.
Proof.
  intros Hne Hall. induction Hall as [|e rest He Hrest IH]; [congruence|].
  destruct rest as [|e' rest'].
  - simpl. apply Split_plain, He.
  - change (Join (e :: e' :: rest') (str1 sep))
      with (e ++ String sep (Join (e' :: rest') (str1 sep))).
    rewrite (Split_app _ _ _ He), IH; [reflexivity|discriminate].
Qed.

Lemma Contains_Join (elems : list string) (sep c : ascii) :
  Ascii.eqb sep c = false ->
  Forall (fun e => Contains e c = false) elems ->
  Contains (Join elems (str1 sep)) c = false.
Proof.
  intros Hsep Hall. induction Hall as [|e rest He Hrest IH]; [reflexivity|].
  destruct rest as [|e' rest']; [exact He|].
  change (Join (e :: e' :: rest') (str1 sep))
    with (e ++ String sep (Join (e' :: rest') (str1 sep))).
  rewrite Contains_app, He. simpl. rewrite Hsep. exact IH.
Qed.

End StringsFacts.

(** ** The loop of Symbol *)

Module SymbolFacts.
Import Http Runtime Pprof.

Lemma append_cons (c : ascii) (s t : string) :
  String c s ++ t = String c (s ++ t).
Proof. reflexivity. Qed.

Lemma append_assoc (s t u : string) : (s ++ t) ++ u = s ++ (t ++ u).
Proof.
  induction s as [|c s IH]; [reflexivity|].
  now rewrite !append_cons, IH.
Qed.

Lemma append_nil_r (s : string) : s ++ "" = s.
Proof.
  induction s as [|c s IH]; [reflexivity|]. now rewrite append_cons, IH.
Qed.

Lemma extends_refl (buf : string) : Strings.extends buf buf.
Proof. exists "". now rewrite append_nil_r. Qed.

Lemma extends_trans (a b c : string) :
  Strings.extends a b -> Strings.extends b c -> Strings.extends a c.
Proof.
  intros [m ->] [n ->]. exists (m ++ n). apply append_assoc.
Qed.

Lemma extends_app (buf more : string) : Strings.extends buf (buf ++ more).
Proof. now exists more. Qed.

(** A successful read takes at least one byte off the input. *)
Lemma scan_Found_shorter (room : nat) (delim : ascii) :
  forall s line rest,
    Bufio.scan room delim s = Bufio.Found line rest ->
    (String.length rest < String.length s)%nat.
Proof.
  induction room as [|room IH]; intros s line rest; simpl; [discriminate|].
  destruct s as [|c s']; [discriminate|].
  destruct (Ascii.eqb c delim).
  - intros [= <- <-]. simpl. lia.
  - destruct (Bufio.scan room delim s') as [l r|l r|l] eqn:E; simpl;
      try discriminate.
    intros [= <- <-]. specialize (IH _ _ _ E). simpl. lia.
Qed.

Lemma ReadSlice_ok_shorter (b b' : Bufio.Reader) (delim : ascii) (line : string) :
  Bufio.ReadSlice b delim = (line, None, b') ->
  (String.length (Bufio.unread b') < String.length (Bufio.unread b))%nat.
Proof.
  unfold Bufio.ReadSlice.
  destruct (Bufio.scan Bufio.defaultBufSize delim (Bufio.unread b))
    as [l r|l r|l] eqn:E; intros [= <- <-]; simpl.
  eapply scan_Found_shorter, E.
Qed.

Section Loop.
Variable proc : Process.

Lemma Symbol_loop_reads (fuel : nat) :
  forall b buf,
    (String.length (Bufio.unread b) < fuel)%nat ->
    exists ws lw e,
      Bufio.reads fuel b plus_byte
        = (map (fun w => (w, None)) ws ++ (lw, Some e) :: nil)%list
      /\ (e = Io.ErrBufferFull \/ e = Bufio.rdErr b)
      /\ Symbol_loop proc fuel b buf
         = Some (after_last proc lw e (after_words proc ws buf)).
Proof.
  induction fuel as [|fuel IH]; intros b buf Hlen; [lia|].
  simpl.
  destruct (Bufio.ReadSlice b plus_byte) as [[word err] b'] eqn:E.
  destruct err as [e|].
  - exists nil, word, e. split; [reflexivity|]. split.
    + unfold Bufio.ReadSlice in E.
      destruct (Bufio.scan _ _ _); inversion E; subst; auto.
    + unfold after_last. simpl. destruct (Io.is_EOF e); reflexivity.
  - assert (Herr : Bufio.rdErr b' = Bufio.rdErr b).
    { unfold Bufio.ReadSlice in E.
      destruct (Bufio.scan _ _ _); inversion E; subst; reflexivity. }
    apply ReadSlice_ok_shorter in E.
    destruct (IH b' (Symbol_word proc word None buf))
      as (ws & lw & e & Hr & He & Hl); [lia|].
    exists (word :: ws), lw, e. split; [|split].
    + simpl. now rewrite Hr.
    + now rewrite <- Herr.
    + exact Hl.
Qed.

Lemma Symbol_word_extends (w : string) (err : option Io.error) (buf : string) :
  Strings.extends buf (Symbol_word proc w err buf).
Proof.
  unfold Symbol_word.
  destruct (Strconv.ParseUint _ 0) as [pc e].
  destruct (negb (pc =? 0)); [|apply extends_refl].
  destruct (FuncForPC proc pc); [apply extends_app|apply extends_refl].
Qed.

Lemma after_words_extends (ws : list string) :
  forall buf, Strings.extends buf (after_words proc ws buf).
Proof.
  induction ws as [|w ws IH]; intros buf; simpl; [apply extends_refl|].
  eapply extends_trans; [apply Symbol_word_extends|apply IH].
Qed.

Lemma after_last_extends (lw : string) (e : Io.error) (buf : string) :
  Strings.extends buf (after_last proc lw e buf).
Proof.
  unfold after_last. destruct (Io.is_EOF e).
  - apply Symbol_word_extends.
  - eapply extends_trans; [apply Symbol_word_extends|apply extends_app].
Qed.

End Loop.

End SymbolFacts.

(** ** Order of float64 *)

Module Float64Facts.
Import Float64.

Lemma SFcompare_Lt_swap (x y : float64) :
  SFcompare x y = Some Lt -> SFcompare y x = Some Gt.
Proof.
  destruct x as [sx|sx| |sx mx ex], y as [sy|sy| |sy my ey]; simpl;
    try discriminate;
    try (destruct sx; simpl; congruence);
    try (destruct sy; simpl; congruence);
    try (destruct sx, sy; simpl; congruence).
  change (Pos.compare_cont Eq mx my) with (Pos.compare mx my).
  change (Pos.compare_cont Eq my mx) with (Pos.compare my mx).
  rewrite (Z.compare_antisym ex ey), (Pos.compare_antisym mx my).
  destruct sx, sy; try congruence;
    destruct (ex ?= ey); simpl; try congruence;
    destruct (mx ?= my)%positive; simpl; congruence.
Qed.

(** [x < y] excludes [x >= y]. *)
Lemma lt_not_ge (x y : float64) : lt x y = true -> ge x y = false.
Proof.
  unfold lt, ge, SFltb, SFleb. intros H.
  destruct (SFcompare x y) as [[]|] eqn:E; try discriminate.
  now rewrite (SFcompare_Lt_swap _ _ E).
Qed.

(** A value above zero is not [<= 0]. *)
Lemma positive_not_le_zero (x : float64) : lt zero x = true -> le x zero = false.
Proof. apply lt_not_ge. Qed.

(** *** Signs through rounding *)

Lemma shr_1_nonneg (r : shr_record) : 0 <= shr_m r -> 0 <= shr_m (shr_1 r).
Proof.
  destruct r as [m r s]. destruct m as [|[p|p|]|p]; simpl; lia.
Qed.

Lemma shr_1_div2 (r : shr_record) :
  0 <= shr_m r -> shr_m (shr_1 r) = shr_m r / 2.
Proof.
  destruct r as [m r s]. rewrite <- Z.div2_div.
  destruct m as [|[p|p|]|p]; simpl; intros H; try reflexivity. lia.
Qed.

Lemma pow2_xI (p : positive) : 2 ^ Zpos p~1 = 2 * (2 ^ Zpos p * 2 ^ Zpos p).
Proof.
  replace (Zpos p~1) with (Zpos p + Zpos p + 1) by lia.
  rewrite !Z.pow_add_r by lia. change (2 ^ 1) with 2. ring.
Qed.

Lemma pow2_xO (p : positive) : 2 ^ Zpos p~0 = 2 ^ Zpos p * 2 ^ Zpos p.
Proof.
  replace (Zpos p~0) with (Zpos p + Zpos p) by lia.
  now rewrite Z.pow_add_r by lia.
Qed.

Lemma iter_shr_1 (p : positive) :
  forall r, 0 <= shr_m r ->
            0 <= shr_m (SpecFloat.iter_pos shr_1 p r)
            /\ shr_m (SpecFloat.iter_pos shr_1 p r) = shr_m r / 2 ^ Zpos p.
Proof.
  induction p as [p IH|p IH|]; intros r Hr; cbn [SpecFloat.iter_pos].
  - pose proof (shr_1_nonneg r Hr) as H1.
    destruct (IH _ H1) as [H2 E2]. destruct (IH _ H2) as [H3 E3].
    split; [exact H3|].
    rewrite E3, E2, (shr_1_div2 r Hr), !Z.div_div, pow2_xI by lia.
    reflexivity.
  - destruct (IH _ Hr) as [H2 E2]. destruct (IH _ H2) as [H3 E3].
    split; [exact H3|].
    rewrite E3, E2, Z.div_div, pow2_xO by lia. reflexivity.
  - split; [apply shr_1_nonneg, Hr|].
    rewrite (shr_1_div2 r Hr). reflexivity.
Qed.

Lemma shr_record_of_loc_m (m : Z) (l : location) :
  shr_m (shr_record_of_loc m l) = m.
Proof. destruct l as [|[]]; reflexivity. Qed.

Lemma shr_fexp_nonneg (m e : Z) (l : location) :
  0 <= m -> 0 <= shr_m (fst (shr_fexp prec emax m e l)).
Proof.
  intros Hm. unfold shr_fexp, shr.
  destruct (fexp prec emax (Zdigits2 m + e) - e) as [|p|p]; cbn [fst];
    try (rewrite shr_record_of_loc_m; exact Hm).
  apply iter_shr_1. rewrite shr_record_of_loc_m. exact Hm.
Qed.

Lemma round_nearest_even_ge (m : Z) (l : location) :
  m <= round_nearest_even m l.
Proof.
  destruct l as [|[]]; simpl; try lia. destruct (Z.even m); lia.
Qed.

(** Rounding keeps the sign and makes no NaN of a mantissa that is not
    negative. *)
Lemma binary_round_aux_sign (s : bool) (mx ex : Z) (lx : location) :
  0 <= mx -> has_sign s (binary_round_aux prec emax s mx ex lx) = true.
Proof.
  intros Hm. unfold binary_round_aux.
  pose proof (shr_fexp_nonneg mx ex lx Hm) as H1.
  destruct (shr_fexp prec emax mx ex lx) as [mrs' e']. cbn [fst] in H1.
  pose proof (round_nearest_even_ge (shr_m mrs') (loc_of_shr_record mrs')) as H2.
  pose proof (shr_fexp_nonneg
                (round_nearest_even (shr_m mrs') (loc_of_shr_record mrs'))
                e' loc_Exact ltac:(lia)) as H3.
  destruct (shr_fexp prec emax _ e' loc_Exact) as [mrs'' e'']. cbn [fst] in H3.
  destruct (shr_m mrs'') as [|m|m]; [| |lia]; simpl.
  - apply Bool.eqb_reflx.
  - destruct (e'' <=? emax - prec); simpl; apply Bool.eqb_reflx.
Qed.

Lemma binary_round_sign (s : bool) (m : positive) (e : Z) :
  has_sign s (binary_round prec emax s m e) = true.
Proof.
  unfold binary_round. destruct (shl_align m e _) as [mz ez].
  apply binary_round_aux_sign. lia.
Qed.

Lemma of_int_nonneg (n : Z) : 0 <= n -> has_sign false (of_int n) = true.
Proof.
  intros Hn. destruct n as [|m|m]; [reflexivity| |lia].
  apply binary_round_sign.
Qed.

Lemma add_sign (x y : float64) :
  has_sign false x = true -> has_sign false y = true ->
  has_sign false (add x y) = true.
Proof.
  destruct x as [[]|[]| |[] mx ex], y as [[]|[]| |[] my ey]; simpl;
    try discriminate; try reflexivity.
  intros _ _. unfold add, SFadd. cbn [cond_Zopp Z.add].
  apply binary_round_sign.
Qed.

Lemma div_sign (x y : float64) :
  has_sign false x = true -> has_sign false y = true ->
  y <> S754_zero false -> y <> S754_infinity false ->
  has_sign false (div x y) = true.
Proof.
  destruct x as [[]|[]| |[] mx ex], y as [[]|[]| |[] my ey]; simpl;
    try discriminate; try reflexivity; try congruence.
  intros _ _ _ _. unfold div, SFdiv.
  destruct (SFdiv_core_binary prec emax (Zpos mx) ex (Zpos my) ey)
    as [[mz ez] lz] eqn:E.
  apply binary_round_aux_sign.
  unfold SFdiv_core_binary in E.
  set (m' := match _ - _ - _ with
             | 0 => Zpos mx | Zpos _ => _ | Zneg _ => 0 end) in E.
  assert (Hm' : 0 <= m').
  { subst m'. destruct (_ - _ - _); try lia. apply Z.shiftl_nonneg. lia. }
  pose proof (Z.div_pos m' (Zpos my) Hm' ltac:(lia)) as Hq.
  unfold Z.div in Hq.
  destruct (Z.div_eucl m' (Zpos my)) as [q r]. injection E as <- _ _. exact Hq.
Qed.

(** *** Values below zero *)

Lemma digits2_pos_bound (m : positive) : 2 ^ Zpos (digits2_pos m) <= 2 * Zpos m.
Proof.
  induction m as [m IH|m IH|]; cbn [digits2_pos];
    rewrite ?Pos2Z.inj_succ, ?Z.pow_succ_r by lia; lia.
Qed.

Lemma shr_fexp_pos (m e : Z) (l : location) :
  0 < m -> emin prec emax <= e ->
  0 < shr_m (fst (shr_fexp prec emax m e l))
  /\ e <= snd (shr_fexp prec emax m e l).
Proof.
  intros Hm He. unfold shr_fexp, shr.
  destruct m as [|M|M]; try lia. cbn [Zdigits2].
  pose proof (digits2_pos_bound M) as Hd.
  set (d := Zpos (digits2_pos M)) in *.
  destruct (fexp prec emax (d + e) - e) as [|p|p] eqn:K; cbn [fst snd];
    rewrite ?shr_record_of_loc_m; try (split; lia).
  destruct (iter_shr_1 p (shr_record_of_loc (Zpos M) l)) as [H1 E1];
    [rewrite shr_record_of_loc_m; lia|].
  rewrite E1, shr_record_of_loc_m. split; [|lia].
  apply Z.div_str_pos. split; [apply Z.pow_pos_nonneg; lia|].
  unfold fexp, emin, prec, emax in *.
  assert (Hp : Zpos p <= d - 1) by lia.
  assert (H2 : 2 ^ Zpos p <= 2 ^ (d - 1)) by (apply Z.pow_le_mono_r; lia).
  replace d with (Z.succ (d - 1)) in Hd by lia.
  rewrite Z.pow_succ_r in Hd by lia. lia.
Qed.

Lemma binary_round_aux_below_zero (mx ex : Z) (lx : location) :
  0 < mx -> emin prec emax <= ex ->
  below_zero (binary_round_aux prec emax true mx ex lx) = true.
Proof.
  intros Hm He. unfold binary_round_aux.
  destruct (shr_fexp_pos mx ex lx Hm He) as [H1 E1].
  destruct (shr_fexp prec emax mx ex lx) as [mrs' e']. cbn [fst snd] in *.
  pose proof (round_nearest_even_ge (shr_m mrs') (loc_of_shr_record mrs')) as H2.
  destruct (shr_fexp_pos
              (round_nearest_even (shr_m mrs') (loc_of_shr_record mrs'))
              e' loc_Exact ltac:(lia) ltac:(lia)) as [H3 _].
  destruct (shr_fexp prec emax _ e' loc_Exact) as [mrs'' e'']. cbn [fst] in H3.
  destruct (shr_m mrs'') as [|m|m]; try lia.
  destruct (e'' <=? emax - prec); reflexivity.
Qed.

Lemma of_int_negative (n : Z) : n < 0 -> below_zero (of_int n) = true.
Proof.
  intros Hn. destruct n as [|m|m]; try lia.
  unfold of_int, binary_normalize, binary_round, shl_align.
  set (e' := fexp prec emax (Zpos (digits2_pos m) + 0)).
  assert (He' : emin prec emax <= e') by apply Z.le_max_r.
  assert (H0 : emin prec emax <= 0) by discriminate.
  destruct (e' - 0); apply binary_round_aux_below_zero; lia.
Qed.

Lemma ge_below_zero (x y : float64) :
  below_zero x = true -> has_sign false y = true -> ge x y = false.
Proof.
  destruct x as [sx|[]| |[] mx ex], y as [[]|[]| |[] my ey]; simpl;
    try discriminate; reflexivity.
Qed.

(** A duration that is not negative has seconds that are not negative. *)
Lemma Seconds_nonneg (d : Z) : 0 <= d -> has_sign false (Time.Seconds d) = true.
Proof.
  intros Hd. unfold Time.Seconds.
  apply add_sign.
  - apply of_int_nonneg, Z.quot_pos; [exact Hd|reflexivity].
  - apply div_sign; try discriminate; [|reflexivity].
    apply of_int_nonneg, Z.rem_nonneg; [discriminate|exact Hd].
Qed.

(** A negative number of seconds is never [>=] the seconds of a duration that
    is not negative. *)
Lemma negative_below_timeout (n d : Z) :
  n < 0 -> 0 <= d -> ge (of_int n) (Time.Seconds d) = false.
Proof.
  intros Hn Hd.
  apply ge_below_zero; [apply of_int_negative, Hn|apply Seconds_nonneg, Hd].
Qed.

(** *** Whole seconds *)

Lemma digits2_pos_upper (m : positive) : Zpos m < 2 ^ Zpos (digits2_pos m).
Proof.
  induction m as [m IH|m IH|]; cbn [digits2_pos];
    rewrite ?Pos2Z.inj_succ, ?Z.pow_succ_r by lia; lia.
Qed.

Lemma iter_xO_value (k m : positive) : Zpos (Pos.iter xO m k) = Zpos m * 2 ^ Zpos k.
Proof.
  induction k as [|k IH] using Pos.peano_ind.
  - simpl. lia.
  - rewrite Pos.iter_succ, Pos2Z.inj_xO, IH, Pos2Z.inj_succ, Z.pow_succ_r by lia. ring.
Qed.

Lemma iter_xO_digits (k m : positive) :
  Zpos (digits2_pos (Pos.iter xO m k)) = Zpos (digits2_pos m) + Zpos k.
Proof.
  induction k as [|k IH] using Pos.peano_ind.
  - simpl. lia.
  - rewrite Pos.iter_succ. cbn [digits2_pos]. rewrite Pos2Z.inj_succ, IH. lia.
Qed.

(** A mantissa of 53 digits with an exponent in range is its own rounding. *)
Lemma binary_round_aux_exact (s : bool) (m : positive) (e : Z) :
  Zpos (digits2_pos m) = 53 -> -1074 <= e <= 971 ->
  binary_round_aux prec emax s (Zpos m) e loc_Exact = S754_finite s m e.
Proof.
  intros Hd He.
  assert (Hs : shr_fexp prec emax (Zpos m) e loc_Exact
               = ({| shr_m := Zpos m; shr_r := false; shr_s := false |}, e)).
  { unfold shr_fexp. cbn [Zdigits2]. rewrite Hd.
    replace (fexp prec emax (53 + e) - e) with 0; [reflexivity|].
    unfold fexp, emin, prec, emax. lia. }
  unfold binary_round_aux. rewrite Hs. cbn [shr_m loc_of_shr_record round_nearest_even].
  rewrite Hs. cbn [shr_m].
  replace (e <=? emax - prec) with true; [reflexivity|].
  symmetry. apply Z.leb_le. unfold emax, prec. lia.
Qed.

(** The mantissa and the exponent of [float64(n)] for [0 < n < 2^53]. *)
Lemma of_int_small (n : positive) :
  Zpos n < 2 ^ 53 ->
  of_int (Zpos n) = S754_finite false (mant53 n) (Zpos (digits2_pos n) - 53)
  /\ Zpos (mant53 n) = Zpos n * 2 ^ (53 - Zpos (digits2_pos n))
  /\ 1 <= Zpos (digits2_pos n) <= 53.
Proof.
  intros Hn.
  pose proof (digits2_pos_bound n) as Hlo.
  assert (Hd : 1 <= Zpos (digits2_pos n) <= 53).
  { split; [lia|].
    destruct (Z.le_gt_cases (Zpos (digits2_pos n)) 53) as [H|H]; [exact H|].
    assert (2 ^ 54 <= 2 ^ Zpos (digits2_pos n)) by (apply Z.pow_le_mono_r; lia).
    change (2 ^ 54) with (2 * 2 ^ 53) in *. lia. }
  unfold of_int, binary_normalize, binary_round, shl_align, mant53.
  replace (fexp prec emax (Zpos (digits2_pos n) + 0) - 0)
    with (Zpos (digits2_pos n) - 53)
    by (unfold fexp, emin, prec, emax; lia).
  replace (fexp prec emax (Zpos (digits2_pos n) + 0))
    with (Zpos (digits2_pos n) - 53)
    by (unfold fexp, emin, prec, emax; lia).
  destruct (Zpos (digits2_pos n) - 53) as [|k|k] eqn:K; try lia.
  - replace (53 - Zpos (digits2_pos n)) with 0 by lia.
    rewrite binary_round_aux_exact by lia.
    repeat split; try lia.
  - replace (53 - Zpos (digits2_pos n)) with (Zpos k) by lia.
    rewrite binary_round_aux_exact.
    + repeat split; try lia. apply iter_xO_value.
    + rewrite iter_xO_digits. lia.
    + lia.
Qed.

Lemma of_int_small_le (a b : positive) :
  Zpos a < 2 ^ 53 -> Zpos b < 2 ^ 53 ->
  ge (of_int (Zpos a)) (of_int (Zpos b)) = (Zpos b <=? Zpos a).
Proof.
  intros Ha Hb.
  destruct (of_int_small a Ha) as (Ea & Va & Da).
  destruct (of_int_small b Hb) as (Eb & Vb & Db).
  pose proof (digits2_pos_bound a) as La. pose proof (digits2_pos_upper a) as Ua.
  pose proof (digits2_pos_bound b) as Lb. pose proof (digits2_pos_upper b) as Ub.
  set (da := Zpos (digits2_pos a)) in *. set (db := Zpos (digits2_pos b)) in *.
  unfold ge, SFleb. rewrite Ea, Eb. cbn [SFcompare].
  destruct (Z.compare_spec (db - 53) (da - 53)) as [E|L|G].
  - assert (Hd : db = da) by lia.
    change (Pos.compare_cont Eq (mant53 b) (mant53 a))
      with (Pos.compare (mant53 b) (mant53 a)).
    rewrite Pos2Z.inj_compare, Va, Vb, Hd.
    assert (Hp : 0 < 2 ^ (53 - da)) by (apply Z.pow_pos_nonneg; lia).
    destruct (Z.compare_spec (Zpos b * 2 ^ (53 - da)) (Zpos a * 2 ^ (53 - da)));
      symmetry; [apply Z.leb_le|apply Z.leb_le|apply Z.leb_gt]; nia.
  - assert (H : 2 ^ db <= 2 ^ (da - 1)) by (apply Z.pow_le_mono_r; lia).
    replace da with (Z.succ (da - 1)) in La by lia.
    rewrite Z.pow_succ_r in La by lia.
    symmetry. apply Z.leb_le. lia.
  - assert (H : 2 ^ da <= 2 ^ (db - 1)) by (apply Z.pow_le_mono_r; lia).
    replace db with (Z.succ (db - 1)) in Lb by lia.
    rewrite Z.pow_succ_r in Lb by lia.
    symmetry. apply Z.leb_gt. lia.
Qed.

(** From [2^53] on, [float64(n)] has a positive exponent or is +Inf. *)
Lemma of_int_large (n : positive) :
  2 ^ 53 <= Zpos n ->
  match of_int (Zpos n) with
  | S754_finite false _ e => 1 <= e
  | S754_infinity false => True
  | _ => False
  end.
Proof.
  intros Hn.
  pose proof (digits2_pos_upper n) as Un.
  assert (Hd : 54 <= Zpos (digits2_pos n)).
  { destruct (Z.le_gt_cases 54 (Zpos (digits2_pos n))) as [H|H]; [exact H|].
    assert (2 ^ Zpos (digits2_pos n) <= 2 ^ 53) by (apply Z.pow_le_mono_r; lia).
    lia. }
  unfold of_int, binary_normalize, binary_round, shl_align.
  replace (fexp prec emax (Zpos (digits2_pos n) + 0) - 0)
    with (Zpos (digits2_pos n) - 53)
    by (unfold fexp, emin, prec, emax; lia).
  destruct (Zpos (digits2_pos n) - 53) as [|k|k] eqn:K; try lia.
  unfold binary_round_aux.
  assert (E1 : 1 <= snd (shr_fexp prec emax (Zpos n) 0 loc_Exact)).
  { unfold shr_fexp, shr. cbn [Zdigits2].
    replace (fexp prec emax (Zpos (digits2_pos n) + 0) - 0) with (Zpos k)
      by (unfold fexp, emin, prec, emax; lia).
    cbn [snd]. lia. }
  destruct (shr_fexp_pos (Zpos n) 0 loc_Exact) as [H1 _]; [lia|discriminate|].
  destruct (shr_fexp prec emax (Zpos n) 0 loc_Exact) as [mrs' e'].
  cbn [fst snd] in *.
  pose proof (round_nearest_even_ge (shr_m mrs') (loc_of_shr_record mrs')) as H2.
  destruct (shr_fexp_pos
              (round_nearest_even (shr_m mrs') (loc_of_shr_record mrs'))
              e' loc_Exact) as [H3 E3]; [lia|unfold emin, prec, emax; lia|].
  destruct (shr_fexp prec emax _ e' loc_Exact) as [mrs'' e''].
  cbn [fst snd] in *.
  destruct (shr_m mrs'') as [|m|m]; try lia.
  destruct (e'' <=? emax - prec); [lia|exact I].
Qed.

(** Against a whole number of seconds below [2^53], the comparison of the
    handlers is the comparison of integers. *)
Lemma of_int_ge_small (sec : Z) (k : positive) :
  Zpos k < 2 ^ 53 ->
  ge (of_int sec) (of_int (Zpos k)) = (Zpos k <=? sec).
Proof.
  intros Hk. destruct (of_int_small k Hk) as (Ek & _ & Dk).
  destruct sec as [|n|n].
  - unfold ge. rewrite Ek. reflexivity.
  - destruct (Z.lt_ge_cases (Zpos n) (2 ^ 53)) as [Hn|Hn].
    + now apply of_int_small_le.
    + pose proof (of_int_large n Hn) as Hl.
      unfold ge, SFleb. rewrite Ek.
      replace (Zpos k <=? Zpos n) with true by (symmetry; apply Z.leb_le; lia).
      destruct (of_int (Zpos n)) as [s|[]| |[] m e]; try contradiction;
        cbn [SFcompare]; [reflexivity|].
      destruct (Z.compare_spec (Zpos (digits2_pos k) - 53) e);
        first [reflexivity | lia].
  - pose proof (of_int_negative (Zneg n) ltac:(lia)) as Hb.
    unfold ge, SFleb. rewrite Ek.
    destruct (of_int (Zneg n)) as [s|[]| |[] m e]; try discriminate;
      reflexivity.
Qed.

Lemma Seconds_whole (k : Z) : 0 <= k -> Time.Seconds (k * Time.Second) = of_int k.
Proof.
  intros Hk. unfold Time.Seconds.
  rewrite Z.quot_mul, Z.rem_mul by discriminate.
  pose proof (of_int_nonneg k Hk) as Hs.
  change (div (of_int 0) (of_int 1000000000)) with (S754_zero false).
  destruct (of_int k) as [[]|[]| |[] m e]; try discriminate; reflexivity.
Qed.

Lemma whole_seconds_ge (sec k : Z) :
  0 < k < 2 ^ 53 ->
  ge (of_int sec) (Time.Seconds (k * Time.Second)) = (k <=? sec).
Proof.
  intros Hk. rewrite Seconds_whole by lia.
  destruct k as [|k|k]; try lia. apply of_int_ge_small. lia.
Qed.

End Float64Facts.

(** ** The error response *)

Module ResponseFacts.
Import Http Runtime Pprof.

Lemma serveError_fresh (h : Header) (status : Z) (txt : string) :
  serveError (NewResponse h) status txt
  = let h' := Del (Set_ (Set_ h "Content-Type" "text/plain; charset=utf-8")
                     "X-Go-Pprof" "1") "Content-Disposition" in
    {| header := h'; sent := Some (status, h'); body := txt ++ newline |}.
Proof. reflexivity. Qed.

Lemma Get_Set_eq (h : Header) (key value : string) :
  Get (Set_ h key value) key = Some value.
Proof. unfold Get, Set_. now rewrite lookup_insert_eq. Qed.

Lemma Get_Set_ne (h : Header) (key key' value : string) :
  key <> key' -> Get (Set_ h key value) key' = Get h key'.
Proof. intros H. unfold Get, Set_. now rewrite lookup_insert_ne. Qed.

Lemma Get_Del_eq (h : Header) (key : string) : Get (Del h key) key = None.
Proof. unfold Get, Del. now rewrite lookup_delete_eq. Qed.

Lemma Get_Del_ne (h : Header) (key key' : string) :
  key <> key' -> Get (Del h key) key' = Get h key'.
Proof. intros H. unfold Get, Del. now rewrite lookup_delete_ne. Qed.

(** Rewrites a [Get] through the edits of a header map with literal keys. *)
Ltac header_get :=
  repeat first
    [ rewrite Get_Set_eq
    | rewrite Get_Del_eq
    | rewrite Get_Set_ne by discriminate
    | rewrite Get_Del_ne by discriminate ].

(** What the client sees of an error response on a fresh writer, whose header
    map had [X-Content-Type-Options] set. *)
Lemma serveError_seen (h : Header) (status : Z) (txt : string) :
  let w := serveError
             (SetHeader (NewResponse h) "X-Content-Type-Options" "nosniff")
             status txt in
  Http.status w = Some status
  /\ body w = txt ++ newline
  /\ sentHeader w "Content-Type" = Some "text/plain; charset=utf-8"
  /\ sentHeader w "X-Content-Type-Options" = Some "nosniff"
  /\ sentHeader w "X-Go-Pprof" = Some "1"
  /\ sentHeader w "Content-Disposition" = None
  /\ Get (header w) "Content-Disposition" = None.
Proof.
  change (SetHeader (NewResponse h) "X-Content-Type-Options" "nosniff")
    with (NewResponse (Set_ h "X-Content-Type-Options" "nosniff")).
  rewrite serveError_fresh. cbv zeta. unfold sentHeader, Http.status.
  cbn [sent header body fmap option_fmap option_map fst].
  repeat split; header_get; reflexivity.
Qed.

End ResponseFacts.

(* ===================================================================== *)
(** * The claims *)
(* ===================================================================== *)

Module PprofSpec.
Import Http Runtime Pprof.

(** C1.  A request to /profile, and likewise one to /trace, that comes with a
    server whose WriteTimeout is not zero and asks for a duration that, in
    seconds, is at least WriteTimeout.Seconds() is answered with status 400
    and a plain-text explanation, and the runtime is left as it was: no call
    to the sampler or the tracer is made and neither starts capturing.  When
    the WriteTimeout is a whole number [k] of seconds, the comparison in
    /profile is the one of integers: the request is refused when its seconds
    are at least [k], and passes the check when they are fewer. *)
Theorem capture_refused_at_write_timeout
  (proc : Process)
  (ParseFloat : string -> Float64.float64 * option Strconv.NumError)
  (indefinite : Z) (h : Header) (r : Request) (st : State) (srv : Server) :
  ContextServer r = Some srv ->
  WriteTimeout srv <> 0 ->
  (Float64.ge (Float64.of_int (Profile_sec r))
              (Time.Seconds (WriteTimeout srv)) = true ->
   refused_for_duration (fst (Profile proc (NewResponse h) r st))
   /\ snd (Profile proc (NewResponse h) r st) = st)
  /\
  (Float64.ge (Trace_sec ParseFloat r)
              (Time.Seconds (WriteTimeout srv)) = true ->
   refused_for_duration
     (fst (Trace proc ParseFloat indefinite (NewResponse h) r st))
   /\ snd (Trace proc ParseFloat indefinite (NewResponse h) r st) = st)
  /\
  (forall k, 0 < k < 2 ^ 53 -> WriteTimeout srv = k * Time.Second ->
     (k <= Profile_sec r ->
      refused_for_duration (fst (Profile proc (NewResponse h) r st))
      /\ snd (Profile proc (NewResponse h) r st) = st)
     /\ (Profile_sec r < k ->
         durationExceedsWriteTimeout r (Float64.of_int (Profile_sec r))
         = false)).
Proof.
  intros Hsrv Hwt.
  assert (Hnz : negb (WriteTimeout srv =? 0) = true).
  { apply negb_true_iff, Z.eqb_neq, Hwt. }
  assert (HP : Float64.ge (Float64.of_int (Profile_sec r))
                 (Time.Seconds (WriteTimeout srv)) = true ->
               refused_for_duration (fst (Profile proc (NewResponse h) r st))
               /\ snd (Profile proc (NewResponse h) r st) = st).
  { intros Hge. unfold Profile, durationExceedsWriteTimeout.
    rewrite Hsrv, Hnz, Hge. cbn [andb fst snd].
    destruct (ResponseFacts.serveError_seen h StatusBadRequest
                "profile duration exceeds server's WriteTimeout")
      as (Hs & Hb & Hct & _).
    repeat split; assumption. }
  split; [exact HP|]. split.
  - intros Hge. unfold Trace, durationExceedsWriteTimeout.
    rewrite Hsrv, Hnz, Hge. cbn [andb fst snd].
    destruct (ResponseFacts.serveError_seen h StatusBadRequest
                "profile duration exceeds server's WriteTimeout")
      as (Hs & Hb & Hct & _).
    repeat split; assumption.
  - intros k Hk Hwhole.
    pose proof (Float64Facts.whole_seconds_ge (Profile_sec r) k Hk) as Hcmp.
    rewrite <- Hwhole in Hcmp. split.
    + intros Hle. apply HP. rewrite Hcmp. apply Z.leb_le, Hle.
    + intros Hlt. unfold durationExceedsWriteTimeout.
      rewrite Hsrv, Hnz, Hcmp. apply Z.leb_gt, Hlt.
Qed.

(** The default 30 seconds of /profile and the default 1 second of /trace
    against a server with a WriteTimeout of one second. *)
Lemma capture_refused_at_write_timeout_witness :
  let r := Example.get nil (Some {| WriteTimeout := 1000000000 |}) in
  (refused_for_duration (fst (Profile Example.process (NewResponse ∅) r Example.idle))
   /\ snd (Profile Example.process (NewResponse ∅) r Example.idle) = Example.idle)
  /\
  (refused_for_duration
     (fst (Trace Example.process Example.ParseFloat_int minInt64
             (NewResponse ∅) r Example.idle))
   /\ snd (Trace Example.process Example.ParseFloat_int minInt64
             (NewResponse ∅) r Example.idle) = Example.idle).
Proof.
  intros r.
  destruct (capture_refused_at_write_timeout Example.process
              Example.ParseFloat_int minInt64 ∅ r Example.idle
              {| WriteTimeout := 1000000000 |} eq_refl)
    as (HP & HT & _); [discriminate|].
  split; [apply HP | apply HT]; reflexivity.
Defined.

(** Cmdline always answers. *)
Lemma Cmdline_total (proc : Process) (w : ResponseWriter) (r : Request) :
  is_Some (Cmdline proc w r).
Proof.
  unfold Cmdline.
  destruct (FmtFacts.Sprintf_total (Strings.Join (Args proc) (str1 NUL)))
    as [out ->].
  eauto.
Qed.

(** When there is an argument, and no argument holds a percent sign or a NUL
    byte, the body of Cmdline split at the NUL bytes is the argument vector. *)
Lemma Cmdline_echoes_plain_arguments
  (proc : Process) (h : Header) (r : Request) :
  Args proc <> nil ->
  Forall (fun a => Strings.Contains a "%" = false) (Args proc) ->
  Forall (fun a => Strings.Contains a NUL = false) (Args proc) ->
  exists w, Cmdline proc (NewResponse h) r = Some w
            /\ Strings.Split (body w) NUL = Args proc.
Proof.
  intros Hne Hpct Hnul. unfold Cmdline.
  rewrite FmtFacts.Sprintf_plain
    by (apply StringsFacts.Contains_Join; [reflexivity|exact Hpct]).
  eexists. split; [reflexivity|].
  cbn [body Write WriteHeader SetHeader NewResponse sent header].
  change ("" ++ Strings.Join (Args proc) (str1 NUL))
    with (Strings.Join (Args proc) (str1 NUL)).
  now apply StringsFacts.Split_Join.
Qed.

(** C2.  For the process started as [prog --rate=50%] the body of Cmdline is
    not the arguments joined by NUL: the joined text is used as a format, so
    the trailing percent sign is printed as [%!(NOVERB)], and the body split
    at the NUL byte differs from the argument vector. *)
Theorem Cmdline_percent_argument_not_echoed :
  let out := body <$> Cmdline Example.process (NewResponse ∅)
                        (Example.get nil None) in
  out = Some ("prog" ++ str1 NUL ++ "--rate=50%!(NOVERB)")
  /\ out <> Some (Strings.Join (Args Example.process) (str1 NUL))
  /\ (fun b => Strings.Split b NUL) <$> out
     = Some ("prog" :: "--rate=50%!(NOVERB)" :: nil)
  /\ (fun b => Strings.Split b NUL) <$> out <> Some (Args Example.process).
Proof.
  cbv zeta. repeat split; try reflexivity; vm_compute; discriminate.
Qed.

(** C3, as stated, fails: with 0x1a and 0x2b in the symbol table, the body
    [1a+2b+0] does not produce their two lines.  Without the prefix 0x the
    tokens are read in base 10, where they are no numbers. *)
Lemma Symbol_unprefixed_tokens_counterexample :
  ~ (forall proc : Process,
       Symbol_output proc (Example.post "1a+2b+0")
       = Some ("num_symbols: 1" ++ newline
               ++ resolved_line proc 26 ++ resolved_line proc 43)).
Proof.
  intros H. specialize (H Example.process). vm_compute in H. discriminate.
Qed.

(** C3, amended.  The body [0x1a+0x2b+0] of a POST resolves [0x1a] and [0x2b]
    (one line [<hex address> <function name>] for each that the symbol table
    knows) and skips [0]; the body [1a+2b+0] resolves nothing; and for every
    request the response of Symbol begins with the line [num_symbols: 1]. *)
Theorem Symbol_resolves_hex_tokens
  (proc : Process) (h : Header) (r : Request) :
  (Method r = "POST" ->
   Body r = {| Io.data := "0x1a+0x2b+0"; Io.final := Io.EOF |} ->
   Symbol_output proc r
   = Some ("num_symbols: 1" ++ newline
           ++ resolved_line proc 26 ++ resolved_line proc 43))
  /\ (Method r = "POST" ->
      Body r = {| Io.data := "1a+2b+0"; Io.final := Io.EOF |} ->
      Symbol_output proc r = Some ("num_symbols: 1" ++ newline))
  /\ (exists w rest,
        Symbol proc (NewResponse h) r = Some w
        /\ body w = ("num_symbols: 1" ++ newline) ++ rest).
Proof.
  split; [|split].
  - intros Hm Hb. unfold Symbol_output, Symbol_input, resolved_line.
    rewrite Hm, Hb. destruct proc as [args symtab registry cpu trace].
    cbn [FuncForPC].
    match goal with
    | |- ?lhs = _ => let v := eval vm_compute in lhs in change lhs with v
    end.
    destruct (symtab 26), (symtab 43);
      rewrite ?SymbolFacts.append_nil_r; reflexivity.
  - intros Hm Hb. unfold Symbol_output, Symbol_input.
    rewrite Hm, Hb. vm_compute. reflexivity.
  - unfold Symbol, Symbol_output.
    destruct (SymbolFacts.Symbol_loop_reads proc
                (S (String.length
                      (Bufio.unread (Bufio.NewReader (Symbol_input r)))))
                (Bufio.NewReader (Symbol_input r))
                ("num_symbols: 1" ++ newline))
      as (ws & lw & e & _ & _ & ->); [lia|].
    destruct (SymbolFacts.extends_trans _ _ _
                (SymbolFacts.after_words_extends proc ws
                   ("num_symbols: 1" ++ newline))
                (SymbolFacts.after_last_extends proc lw e _))
      as [rest Hrest].
    eexists. exists rest. split; [reflexivity|].
    cbn [body Write WriteHeader SetHeader NewResponse sent header].
    rewrite Hrest. reflexivity.
Qed.

(** The two bodies against the example symbol table, which knows both
    addresses. *)
Lemma Symbol_resolves_hex_tokens_witness :
  Symbol_output Example.process (Example.post "0x1a+0x2b+0")
  = Some ("num_symbols: 1" ++ newline
          ++ "0x1a main.foo" ++ newline ++ "0x2b main.bar" ++ newline)
  /\ Symbol_output Example.process (Example.post "1a+2b+0")
     = Some ("num_symbols: 1" ++ newline).
Proof.
  destruct (Symbol_resolves_hex_tokens Example.process ∅
              (Example.post "0x1a+0x2b+0")) as (H1 & _ & _).
  destruct (Symbol_resolves_hex_tokens Example.process ∅
              (Example.post "1a+2b+0")) as (_ & H2 & _).
  split; [exact (H1 eq_refl eq_refl) | exact (H2 eq_refl eq_refl)].
Defined.

(** C4.  A request for a profile name that the registry does not know is
    answered with status 404 and a plain-text body; the response carries
    X-Content-Type-Options: nosniff and the marker X-Go-Pprof: 1, and no
    Content-Disposition, whatever the header map held before; the runtime is
    not touched. *)
Theorem unknown_profile_is_404
  (proc : Process) (name : string) (h : Header) (r : Request) (st : State) :
  Lookup proc name = None ->
  let w := fst (ServeHTTP proc name (NewResponse h) r st) in
  status w = Some StatusNotFound
  /\ body w = "Unknown profile" ++ newline
  /\ sentHeader w "Content-Type" = Some "text/plain; charset=utf-8"
  /\ sentHeader w "X-Content-Type-Options" = Some "nosniff"
  /\ sentHeader w "X-Go-Pprof" = Some "1"
  /\ sentHeader w "Content-Disposition" = None
  /\ Get (header w) "Content-Disposition" = None
  /\ snd (ServeHTTP proc name (NewResponse h) r st) = st.
Proof.
  intros Hl. unfold ServeHTTP. rewrite Hl. cbn [fst snd].
  pose proof (ResponseFacts.serveError_seen h StatusNotFound "Unknown profile")
    as H.
  cbv zeta in *. repeat split; apply H.
Qed.

(** The name [block] is not in the example registry; the header map comes
    with a Content-Disposition already set. *)
Lemma unknown_profile_is_404_witness :
  let h : Header := {[ "Content-Disposition" := "attachment" :: nil ]} in
  let w := fst (ServeHTTP Example.process "block" (NewResponse h)
                  (Example.get nil None) Example.idle) in
  Get h "Content-Disposition" = Some "attachment"
  /\ status w = Some StatusNotFound
  /\ sentHeader w "Content-Disposition" = None.
Proof.
  intros h w.
  destruct (unknown_profile_is_404 Example.process "block" h
              (Example.get nil None) Example.idle eq_refl)
    as (Hs & _ & _ & _ & _ & Hcd & _).
  split; [reflexivity|]. split; [exact Hs | exact Hcd].
Defined.

(** C5.  A request for a profile that the registry knows is answered with
    status 200 and the profile as its body.  When the debug value is 0 the
    response is an application/octet-stream with
    Content-Disposition: attachment; filename="<name>".  When it is not 0 the
    response is text/plain and the handler adds no Content-Disposition: the
    response has the one the header map came with, so none for a map without
    one (the empty map a server starts from). *)
Theorem found_profile_download_or_inline
  (proc : Process) (name : string) (p : NamedProfile) (h : Header)
  (r : Request) (st : State) :
  Lookup proc name = Some p ->
  let debug := fst (Strconv.Atoi (FormValue r "debug")) in
  let w := fst (ServeHTTP proc name (NewResponse h) r st) in
  let st' := snd (ServeHTTP proc name (NewResponse h) r st) in
  status w = Some StatusOK
  /\ body w = Payload p st' debug
  /\ (debug = 0 ->
      sentHeader w "Content-Type" = Some "application/octet-stream"
      /\ sentHeader w "Content-Disposition"
         = Some ("attachment; filename=" ++ quote ++ name ++ quote))
  /\ (debug <> 0 ->
      sentHeader w "Content-Type" = Some "text/plain; charset=utf-8"
      /\ sentHeader w "Content-Disposition" = Get h "Content-Disposition"
      /\ (Get h "Content-Disposition" = None ->
          sentHeader w "Content-Disposition" = None)).
Proof.
  intros Hl. unfold ServeHTTP. rewrite Hl.
  destruct (Strconv.Atoi (FormValue r "gc")) as [gc e1].
  destruct (Strconv.Atoi (FormValue r "debug")) as [debug e2].
  cbn [fst snd]. cbv zeta.
  destruct (Z.eqb_spec debug 0) as [Hd|Hd]; cbn [negb];
    unfold sentHeader, status, Write, WriteHeader, SetHeader, NewResponse;
    cbn [sent header body fmap option_fmap option_map fst snd];
    (split; [reflexivity|]); (split; [reflexivity|]);
    (split; intros Hd'; [|]); try congruence.
  - split; ResponseFacts.header_get; reflexivity.
  - assert (E : Get (Set_ (Set_ h "X-Content-Type-Options" "nosniff")
                       "Content-Type" "text/plain; charset=utf-8")
                  "Content-Disposition" = Get h "Content-Disposition").
    { now ResponseFacts.header_get. }
    split; [ResponseFacts.header_get; reflexivity|].
    split; [exact E|]. intros Hn. now rewrite E.
Qed.

(** The example registry knows [goroutine]: with debug=0 it is a download,
    with debug=2 it is text without Content-Disposition. *)
Lemma found_profile_download_or_inline_witness :
  let w0 := fst (ServeHTTP Example.process "goroutine" (NewResponse ∅)
                   (Example.get (("debug", "0" :: nil) :: nil) None)
                   Example.idle) in
  let w2 := fst (ServeHTTP Example.process "goroutine" (NewResponse ∅)
                   (Example.get (("debug", "2" :: nil) :: nil) None)
                   Example.idle) in
  (sentHeader w0 "Content-Type" = Some "application/octet-stream"
   /\ sentHeader w0 "Content-Disposition"
      = Some ("attachment; filename=" ++ quote ++ "goroutine" ++ quote))
  /\ (sentHeader w2 "Content-Type" = Some "text/plain; charset=utf-8"
      /\ sentHeader w2 "Content-Disposition" = None).
Proof.
  intros w0 w2. split.
  - destruct (found_profile_download_or_inline Example.process "goroutine"
                (Example.dump "goroutine") ∅
                (Example.get (("debug", "0" :: nil) :: nil) None)
                Example.idle eq_refl) as (_ & _ & H0 & _).
    apply H0. reflexivity.
  - destruct (found_profile_download_or_inline Example.process "goroutine"
                (Example.dump "goroutine") ∅
                (Example.get (("debug", "2" :: nil) :: nil) None)
                Example.idle eq_refl) as (_ & _ & _ & H2).
    destruct H2 as (Hct & _ & Hcd); [discriminate|].
    split; [exact Hct | apply Hcd; reflexivity].
Defined.

(** C6.  For a request whose gc value is above 0: when the name is [heap] and
    the registry knows it, the handler calls runtime.GC once and then writes
    the profile, in the state the collection left; in every other case (another
    name, or a name the registry does not know) it forces no collection. *)
Theorem gc_forced_only_for_heap
  (proc : Process) (name : string) (h : Header) (r : Request) (st : State) :
  0 < fst (Strconv.Atoi (FormValue r "gc")) ->
  let debug := fst (Strconv.Atoi (FormValue r "debug")) in
  let w := fst (ServeHTTP proc name (NewResponse h) r st) in
  let st' := snd (ServeHTTP proc name (NewResponse h) r st) in
  (forall p, name = "heap" -> Lookup proc name = Some p ->
     calls st' = (calls st ++ GC_ :: WriteTo_ name debug :: nil)%list
     /\ numForcedGC st' = S (numForcedGC st)
     /\ body w = Payload p st' debug)
  /\ (name <> "heap" \/ Lookup proc name = None ->
      numForcedGC st' = numForcedGC st
      /\ exists new, calls st' = (calls st ++ new)%list /\ ~ In GC_ new).
Proof.
  intros Hgc. unfold ServeHTTP.
  destruct (Strconv.Atoi (FormValue r "gc")) as [gc e1].
  destruct (Strconv.Atoi (FormValue r "debug")) as [debug e2].
  cbn [fst snd] in *. cbv zeta.
  assert (Hpos : (0 <? gc) = true) by (apply Z.ltb_lt, Hgc).
  rewrite Hpos, andb_true_r.
  split.
  - intros p -> Hl. rewrite Hl. cbn [String.eqb Ascii.eqb Bool.eqb fst snd].
    unfold GC, record. cbn [calls numForcedGC cpuProfiling tracing].
    rewrite <- app_assoc. cbn [app].
    repeat split. now destruct (negb (debug =? 0)).
  - intros [Hn|Hl].
    + apply String.eqb_neq in Hn. rewrite Hn.
      destruct (Lookup proc name) as [p|]; cbn [fst snd].
      * split; [reflexivity|].
        exists (WriteTo_ name debug :: nil). split; [reflexivity|].
        intros [H|[]]. discriminate.
      * split; [reflexivity|]. exists nil.
        split; [now rewrite app_nil_r|intros []].
    + rewrite Hl. cbn [fst snd]. split; [reflexivity|]. exists nil.
      split; [now rewrite app_nil_r|intros []].
Qed.

(** With gc=1 the [heap] profile of the example is written after one forced
    collection, the [goroutine] profile without any. *)
Lemma gc_forced_only_for_heap_witness :
  let r := Example.get (("gc", "1" :: nil) :: nil) None in
  calls (snd (ServeHTTP Example.process "heap" (NewResponse ∅) r Example.idle))
  = GC_ :: WriteTo_ "heap" 0 :: nil
  /\ numForcedGC
       (snd (ServeHTTP Example.process "goroutine" (NewResponse ∅) r Example.idle))
     = O.
Proof.
  intros r. split.
  - destruct (gc_forced_only_for_heap Example.process "heap" ∅ r Example.idle)
      as [H _]; [reflexivity|].
    destruct (H (Example.dump "heap") eq_refl eq_refl) as (Hc & _). exact Hc.
  - destruct (gc_forced_only_for_heap Example.process "goroutine" ∅ r
                Example.idle) as [_ H]; [reflexivity|].
    destruct H as [Hn _]; [left; discriminate|exact Hn].
Defined.

(** C7.  The seconds that Trace uses are the [seconds] parameter as ParseFloat
    reads it when it reads without an error and the value is above 0; they are
    1 when ParseFloat reports an error or the value is <= 0, so also when the
    parameter is absent, since ParseFloat rejects the empty string.  A capture
    that starts sleeps for that value times time.Second. *)
Theorem Trace_seconds_default_1
  (proc : Process)
  (ParseFloat : string -> Float64.float64 * option Strconv.NumError)
  (indefinite : Z) (h : Header) (r : Request) (st : State) :
  let parsed := ParseFloat (FormValue r "seconds") in
  (snd parsed = None -> Float64.lt Float64.zero (fst parsed) = true ->
   Trace_sec ParseFloat r = fst parsed)
  /\ (snd parsed <> None \/ Float64.le (fst parsed) Float64.zero = true ->
      Trace_sec ParseFloat r = Float64.of_int 1)
  /\ (snd (ParseFloat "") <> None -> Form r !! "seconds" = None ->
      Trace_sec ParseFloat r = Float64.of_int 1)
  /\ (durationExceedsWriteTimeout r (Trace_sec ParseFloat r) = false ->
      tracing st = false ->
      calls (snd (Trace proc ParseFloat indefinite (NewResponse h) r st))
      = (calls st ++ TraceStart_
           :: Sleep_ (Float64.to_int64 indefinite
                        (Float64.mul (Trace_sec ParseFloat r)
                           (Float64.of_int Time.Second)))
           :: TraceStop_ :: nil)%list).
Proof.
  cbv zeta. unfold Trace_sec at 1 2 3.
  repeat split.
  - destruct (ParseFloat (FormValue r "seconds")) as [f e]. cbn [fst snd].
    intros -> Hpos. apply Float64Facts.positive_not_le_zero in Hpos.
    rewrite Hpos. reflexivity.
  - destruct (ParseFloat (FormValue r "seconds")) as [f e]. cbn [fst snd].
    intros [He|Hle].
    + rewrite (bool_decide_eq_true_2 _ He), orb_true_r. reflexivity.
    + rewrite Hle. reflexivity.
  - intros Hempty Habs. unfold FormValue. rewrite Habs.
    destruct (ParseFloat "") as [f e]. cbn [snd] in Hempty.
    rewrite (bool_decide_eq_true_2 _ Hempty), orb_true_r. reflexivity.
  - intros Hd Hidle. unfold Trace, TraceStart. rewrite Hd.
    cbn [record tracing]. rewrite Hidle. cbn [snd].
    unfold TraceStop, sleep, record. cbn [calls].
    now rewrite <- !app_assoc.
Qed.

(** /trace with [seconds=5], with [seconds=-5], with [seconds=0] and without
    the parameter, read by the stand-in for ParseFloat. *)
Lemma Trace_seconds_default_1_witness :
  let sec v := Trace_sec Example.ParseFloat_int
                 (Example.get (("seconds", v :: nil) :: nil) None) in
  sec "5" = Float64.of_int 5
  /\ sec "-5" = Float64.of_int 1
  /\ sec "0" = Float64.of_int 1
  /\ Trace_sec Example.ParseFloat_int (Example.get nil None) = Float64.of_int 1
  /\ calls (snd (Trace Example.process Example.ParseFloat_int minInt64
                   (NewResponse ∅) (Example.get nil None) Example.idle))
     = TraceStart_ :: Sleep_ 1000000000 :: TraceStop_ :: nil.
Proof.
  cbv zeta.
  pose proof (fun v => Trace_seconds_default_1 Example.process
                Example.ParseFloat_int minInt64 ∅
                (Example.get (("seconds", v :: nil) :: nil) None) Example.idle)
    as H.
  destruct (Trace_seconds_default_1 Example.process Example.ParseFloat_int
              minInt64 ∅ (Example.get nil None) Example.idle)
    as (_ & _ & H3 & H4).
  destruct (H "5") as (Hpos & _).
  destruct (H "-5") as (_ & Hneg & _).
  destruct (H "0") as (_ & Hzero & _).
  split; [exact (Hpos eq_refl eq_refl)|].
  split; [apply Hneg; right; reflexivity|].
  split; [apply Hzero; right; reflexivity|].
  split; [apply H3; [discriminate|reflexivity]|].
  exact (H4 eq_refl eq_refl).
Defined.

(** A NaN that ParseFloat reads without an error is neither above 0 nor
    [<= 0]: Trace keeps it. *)
Lemma Trace_seconds_nan
  (ParseFloat : string -> Float64.float64 * option Strconv.NumError)
  (r : Request) :
  ParseFloat (FormValue r "seconds") = (S754_nan, None) ->
  Trace_sec ParseFloat r = S754_nan.
Proof. intros H. unfold Trace_sec. rewrite H. reflexivity. Qed.

(** An [int64] value is not changed by the wrap-around. *)
Lemma wrap_i64_small (n : Z) : minInt64 <= n <= maxInt64 -> wrap_i64 n = n.
Proof.
  unfold wrap_i64, minInt64, maxInt64.
  change (2 ^ 63) with 9223372036854775808.
  change (2 ^ 64) with 18446744073709551616.
  intros H. rewrite Z.mod_small; lia.
Qed.

(** The calls of a capture that passes the check of its duration on an idle
    sampler. *)
Lemma Profile_capture_calls
  (proc : Process) (h : Header) (r : Request) (st : State) :
  durationExceedsWriteTimeout r (Float64.of_int (Profile_sec r)) = false ->
  cpuProfiling st = false ->
  calls (snd (Profile proc (NewResponse h) r st))
  = (calls st ++ StartCPUProfile_
       :: Sleep_ (wrap_i64 (Profile_sec r * Time.Second))
       :: StopCPUProfile_ :: nil)%list.
Proof.
  intros Hd Hidle. unfold Profile, StartCPUProfile. rewrite Hd.
  cbn [record cpuProfiling]. rewrite Hidle. cbn [snd].
  unfold StopCPUProfile, sleep, record. cbn [calls].
  now rewrite <- !app_assoc.
Qed.

(** C8.  The seconds that Profile uses, for the check against the
    write-timeout and for the sleep, are the [seconds] parameter as ParseInt
    reads it in base 10, and 30 when the parameter is absent or reads as 0.
    A capture that starts sleeps for that many times time.Second, which is
    that number of seconds as long as the product fits an int64. *)
Theorem Profile_seconds_default_30
  (proc : Process) (h : Header) (r : Request) (st : State) :
  let parsed := fst (Strconv.ParseInt (FormValue r "seconds") 10) in
  (Form r !! "seconds" = None -> Profile_sec r = 30)
  /\ (parsed = 0 -> Profile_sec r = 30)
  /\ (parsed <> 0 -> Profile_sec r = parsed)
  /\ (durationExceedsWriteTimeout r (Float64.of_int (Profile_sec r)) = false ->
      cpuProfiling st = false ->
      calls (snd (Profile proc (NewResponse h) r st))
      = (calls st ++ StartCPUProfile_
           :: Sleep_ (wrap_i64 (Profile_sec r * Time.Second))
           :: StopCPUProfile_ :: nil)%list)
  /\ (minInt64 <= Profile_sec r * Time.Second <= maxInt64 ->
      wrap_i64 (Profile_sec r * Time.Second) = Profile_sec r * 1000000000).
Proof.
  cbv zeta. unfold Profile_sec at 1 2 3.
  repeat split.
  - intros Habs. unfold FormValue. rewrite Habs. reflexivity.
  - destruct (Strconv.ParseInt (FormValue r "seconds") 10) as [n e].
    cbn [fst]. intros ->. reflexivity.
  - destruct (Strconv.ParseInt (FormValue r "seconds") 10) as [n e].
    cbn [fst]. intros Hn. apply Z.eqb_neq in Hn. now rewrite Hn.
  - apply Profile_capture_calls.
  - apply wrap_i64_small.
Qed.

(** /profile without [seconds] and /profile with [seconds=5]. *)
Lemma Profile_seconds_default_30_witness :
  Profile_sec (Example.get nil None) = 30
  /\ Profile_sec (Example.get (("seconds", "5" :: nil) :: nil) None) = 5
  /\ calls (snd (Profile Example.process (NewResponse ∅)
                   (Example.get nil None) Example.idle))
     = StartCPUProfile_ :: Sleep_ 30000000000 :: StopCPUProfile_ :: nil.
Proof.
  destruct (Profile_seconds_default_30 Example.process ∅
              (Example.get nil None) Example.idle) as (H1 & _ & _ & H4 & _).
  destruct (Profile_seconds_default_30 Example.process ∅
              (Example.get (("seconds", "5" :: nil) :: nil) None) Example.idle)
    as (_ & _ & H3 & _).
  split; [apply H1; reflexivity|].
  split; [apply H3; discriminate|].
  exact (H4 eq_refl eq_refl).
Defined.

(** C9.  The reads of Symbol are some words read without an error followed by
    one read with an error, which is ErrBufferFull or the error that ends the
    input.  Every word is looked up, the last one included; after the last one
    the loop is left, and the line [reading request: <error>] is written then,
    once, unless the error is io.EOF, for which nothing is written. *)
Theorem Symbol_stops_at_first_read_error (proc : Process) (r : Request) :
  exists (ws : list string) (lw : string) (e : Io.error),
    Bufio.ReadSlices (Bufio.NewReader (Symbol_input r)) plus_byte
    = (map (fun w => (w, None)) ws ++ (lw, Some e) :: nil)%list
    /\ (e = Io.ErrBufferFull \/ e = Io.final (Symbol_input r))
    /\ Symbol_output proc r
       = Some (let buf := after_words proc ws
                            ("num_symbols: 1" ++ newline) in
               let buf := Symbol_word proc lw (Some e) buf in
               if Io.is_EOF e then buf
               else buf ++ "reading request: " ++ Io.Error e ++ newline).
Proof.
  unfold Symbol_output, Bufio.ReadSlices.
  destruct (SymbolFacts.Symbol_loop_reads proc
              (S (String.length
                    (Bufio.unread (Bufio.NewReader (Symbol_input r)))))
              (Bufio.NewReader (Symbol_input r))
              ("num_symbols: 1" ++ newline))
    as (ws & lw & e & Hr & He & Hl); [lia|].
  exists ws, lw, e. repeat split; assumption.
Qed.

(** A body that breaks off after [0x1a+0x2b] with a read error: both words
    are looked up, then the error is reported, once. *)
Example Symbol_read_error :
  let r := {| Method := "POST"; RawQuery := "";
              Body := {| Io.data := "0x1a+0x2b";
                         Io.final := Io.ReadError "unexpected EOF" |};
              Form := ∅; ContextServer := None |} in
  Symbol_output Example.process r
  = Some ("num_symbols: 1" ++ newline
          ++ "0x1a main.foo" ++ newline
          ++ "0x2b main.bar" ++ newline
          ++ "reading request: unexpected EOF" ++ newline).
Proof. reflexivity. Qed.

(** C10, as stated, fails, in two places.  [seconds=-10000000000] parses to
    a negative integer, passes the check when no write-timeout is configured,
    and the sampler starts, yet the sleep is for 8446744073709551616 ns, above
    zero: the product with time.Second wraps around.  And against a
    WriteTimeout of -8589934592999999999 ns, [seconds=-8589934593] is below the
    timeout, yet the request is refused: Seconds() rounds the timeout to
    -8589934593. *)
Lemma Profile_negative_seconds_counterexample :
  ~ (forall (proc : Process) (h : Header) (r : Request) (st : State) (d : Z),
       fst (Strconv.ParseInt (FormValue r "seconds") 10) < 0 ->
       cpuProfiling st = false ->
       calls st = nil ->
       In (Sleep_ d) (calls (snd (Profile proc (NewResponse h) r st))) ->
       d <= 0)
  /\ ~ (forall (r : Request) (srv : Server),
          fst (Strconv.ParseInt (FormValue r "seconds") 10) < 0 ->
          ContextServer r = Some srv ->
          Profile_sec r * Time.Second < WriteTimeout srv ->
          durationExceedsWriteTimeout r (Float64.of_int (Profile_sec r)) = false).
Proof.
  split; intros H.
  - assert (Hd : 8446744073709551616 <= 0); [|lia].
    apply (H Example.process ∅
             (Example.get (("seconds", "-10000000000" :: nil) :: nil) None)
             Example.idle).
    + reflexivity.
    + reflexivity.
    + reflexivity.
    + vm_compute. right. left. reflexivity.
  - specialize (H (Example.get (("seconds", "-8589934593" :: nil) :: nil)
                     (Some {| WriteTimeout := -8589934592999999999 |}))
                  {| WriteTimeout := -8589934592999999999 |}
                  eq_refl eq_refl eq_refl).
    vm_compute in H. discriminate.
Qed.

(** C10, amended.  When the [seconds] parameter parses to a negative integer
    the handler keeps it instead of the default 30.  The check of the duration
    passes when the request carries no server, when the WriteTimeout is zero
    or positive, and for a negative WriteTimeout whenever the value, as a
    float64, is below WriteTimeout.Seconds().  When the check passes and the
    sampler starts, the handler sleeps for the value times time.Second before
    it stops the capture, which is a duration below zero as long as the value
    is at least -9223372036, so that the product fits an int64. *)
Theorem Profile_negative_seconds_retained
  (proc : Process) (h : Header) (r : Request) (st : State) (n : Z) :
  fst (Strconv.ParseInt (FormValue r "seconds") 10) = n ->
  n < 0 ->
  Profile_sec r = n
  /\ (ContextServer r = None ->
      durationExceedsWriteTimeout r (Float64.of_int n) = false)
  /\ (forall srv, ContextServer r = Some srv ->
        0 <= WriteTimeout srv
        \/ Float64.lt (Float64.of_int n) (Time.Seconds (WriteTimeout srv)) = true ->
        durationExceedsWriteTimeout r (Float64.of_int n) = false)
  /\ (durationExceedsWriteTimeout r (Float64.of_int n) = false ->
      cpuProfiling st = false ->
      calls (snd (Profile proc (NewResponse h) r st))
      = (calls st ++ StartCPUProfile_
           :: Sleep_ (wrap_i64 (n * Time.Second))
           :: StopCPUProfile_ :: nil)%list
      /\ (-9223372036 <= n ->
          wrap_i64 (n * Time.Second) = n * 1000000000
          /\ wrap_i64 (n * Time.Second) < 0)).
Proof.
  intros Hn Hneg.
  assert (Hsec : Profile_sec r = n).
  { unfold Profile_sec.
    destruct (Strconv.ParseInt (FormValue r "seconds") 10) as [m e].
    cbn [fst] in Hn. subst m.
    destruct (Z.eqb_spec n 0); [lia|reflexivity]. }
  split; [exact Hsec|]. split; [|split].
  - intros Hsrv. unfold durationExceedsWriteTimeout. now rewrite Hsrv.
  - intros srv Hsrv Hwt. unfold durationExceedsWriteTimeout. rewrite Hsrv.
    destruct Hwt as [Hpos|Hlt].
    + rewrite (Float64Facts.negative_below_timeout _ _ Hneg Hpos).
      apply andb_false_r.
    + rewrite (Float64Facts.lt_not_ge _ _ Hlt). apply andb_false_r.
  - intros Hd Hidle. rewrite <- Hsec in *. split.
    + now apply Profile_capture_calls.
    + intros Hlow.
      assert (Hfit : wrap_i64 (Profile_sec r * Time.Second)
                     = Profile_sec r * 1000000000).
      { apply wrap_i64_small. unfold Time.Second, minInt64, maxInt64.
        change (2 ^ 63) with 9223372036854775808. lia. }
      split; [exact Hfit|]. rewrite Hfit. lia.
Qed.

(** /profile with [seconds=-5] on a server with a WriteTimeout of ten seconds
    and an idle sampler: the capture starts and sleeps for -5000000000 ns. *)
Lemma Profile_negative_seconds_retained_witness :
  let r := Example.get (("seconds", "-5" :: nil) :: nil)
             (Some {| WriteTimeout := 10000000000 |}) in
  Profile_sec r = -5
  /\ durationExceedsWriteTimeout r (Float64.of_int (-5)) = false
  /\ calls (snd (Profile Example.process (NewResponse ∅) r Example.idle))
     = StartCPUProfile_ :: Sleep_ (-5000000000) :: StopCPUProfile_ :: nil.
Proof.
  intros r.
  destruct (Profile_negative_seconds_retained Example.process ∅ r
              Example.idle (-5) eq_refl eq_refl) as (H1 & _ & H2 & H3).
  split; [exact H1|].
  split; [apply (H2 {| WriteTimeout := 10000000000 |});
          [reflexivity|left; discriminate]|].
  destruct (H3 eq_refl eq_refl) as [Hc _]. exact Hc.
Defined.

End PprofSpec.

(* ===================================================================== *)
(** * More of the package *)
(* ===================================================================== *)

Module PprofMore.
Import Http Runtime Pprof PprofIndex SymbolTokens Capture.

(** ** Index *)

Lemma HasPrefix_app (p s : string) : HasPrefix (p ++ s) p = true.
Proof.
  induction p as [|c p IH]; [reflexivity|].
  rewrite SymbolFacts.append_cons. cbn [HasPrefix].
  now rewrite Ascii.eqb_refl, IH.
Qed.

Lemma skip_app (p s : string) : skip (String.length p) (p ++ s) = s.
Proof.
  induction p as [|c p IH]; [reflexivity|].
  rewrite SymbolFacts.append_cons. cbn [String.length skip]. exact IH.
Qed.

Lemma TrimPrefix_app (p s : string) : TrimPrefix (p ++ s) p = s.
Proof. unfold TrimPrefix. now rewrite HasPrefix_app, skip_app. Qed.

Lemma HasPrefix_split (s p : string) :
  HasPrefix s p = true -> s = p ++ skip (String.length p) s.
Proof.
  revert s. induction p as [|c p IH]; intros s; [reflexivity|].
  destruct s as [|c' s]; cbn [HasPrefix]; [discriminate|].
  intros H. apply andb_true_iff in H as [Hc Hp].
  apply Ascii.eqb_eq in Hc. subst c'.
  rewrite SymbolFacts.append_cons. cbn [String.length skip].
  now rewrite <- (IH s Hp).
Qed.

(** X1.  Index serves the profile named by what follows /debug/pprof/ in the
    path, whatever follows, and the index page for every other path: the mount
    point itself and any path that does not begin with it.  The page is sent
    with status 200 and the headers the writer came with, and the runtime is
    not touched. *)
Theorem Index_dispatches_on_the_path
  (proc : Process) (profiles : list ProfileInfo)
  (htmlEscaper hrefEscaper : string -> string)
  (path : string) (h : Header) (r : Request) (st : State) :
  let index := Index proc profiles htmlEscaper hrefEscaper in
  let page := indexPage profiles htmlEscaper hrefEscaper in
  (exists name,
      name <> "" /\ path = mount ++ name
      /\ index path (NewResponse h) r st
         = ServeHTTP proc name (NewResponse h) r st)
  \/ ((forall name, name <> "" -> path <> mount ++ name)
      /\ snd (index path (NewResponse h) r st) = st
      /\ status (fst (index path (NewResponse h) r st)) = Some StatusOK
      /\ body (fst (index path (NewResponse h) r st)) = page
      /\ forall key,
           sentHeader (fst (index path (NewResponse h) r st)) key = Get h key).
Proof.
  cbv zeta. unfold Index.
  destruct (HasPrefix path mount) eqn:Hp.
  - pose proof (HasPrefix_split _ _ Hp) as Hs.
    unfold TrimPrefix. rewrite Hp.
    destruct (String.eqb_spec (skip (String.length mount) path) "") as [He|Hn].
    + right. cbn [negb fst snd]. split.
      * intros name Hname Hpath. rewrite Hpath, skip_app in He. contradiction.
      * repeat split.
    + left. exists (skip (String.length mount) path).
      cbn [negb]. repeat split; assumption.
  - right. cbn [fst snd]. split.
    + intros name Hname Hpath. rewrite Hpath, HasPrefix_app in Hp. discriminate.
    + repeat split.
Qed.

(** ** Captures *)

Lemma Profile_when_busy
  (proc : Process) (h : Header) (r : Request) (st : State) :
  durationExceedsWriteTimeout r (Float64.of_int (Profile_sec r)) = false ->
  cpuProfiling st = true ->
  Profile proc (NewResponse h) r st
  = (serveError (download h "profile") StatusInternalServerError
       "Could not enable CPU profiling: cpu profiling already in use",
     record StartCPUProfile_ st).
Proof.
  intros Hd Hbusy. unfold Profile, StartCPUProfile. rewrite Hd.
  cbn [record cpuProfiling]. now rewrite Hbusy.
Qed.

Lemma Profile_when_idle
  (proc : Process) (h : Header) (r : Request) (st : State) :
  durationExceedsWriteTimeout r (Float64.of_int (Profile_sec r)) = false ->
  cpuProfiling st = false ->
  Profile proc (NewResponse h) r st
  = (Write (download h "profile") (cpuSamples proc),
     {| cpuProfiling := false; tracing := tracing st;
        numForcedGC := numForcedGC st;
        calls := calls st ++ StartCPUProfile_
                   :: Sleep_ (wrap_i64 (Profile_sec r * Time.Second))
                   :: StopCPUProfile_ :: nil |}).
Proof.
  intros Hd Hidle. unfold Profile, StartCPUProfile. rewrite Hd.
  cbn [record cpuProfiling]. rewrite Hidle.
  unfold StopCPUProfile, sleep, record. cbn [calls tracing numForcedGC].
  now rewrite <- !app_assoc.
Qed.

Lemma Trace_when_busy
  (proc : Process)
  (ParseFloat : string -> Float64.float64 * option Strconv.NumError)
  (indefinite : Z) (h : Header) (r : Request) (st : State) :
  durationExceedsWriteTimeout r (Trace_sec ParseFloat r) = false ->
  tracing st = true ->
  Trace proc ParseFloat indefinite (NewResponse h) r st
  = (serveError (download h "trace") StatusInternalServerError
       "Could not enable tracing: tracing is already enabled",
     record TraceStart_ st).
Proof.
  intros Hd Hbusy. unfold Trace, TraceStart. rewrite Hd.
  cbn [record tracing]. now rewrite Hbusy.
Qed.

Lemma Trace_when_idle
  (proc : Process)
  (ParseFloat : string -> Float64.float64 * option Strconv.NumError)
  (indefinite : Z) (h : Header) (r : Request) (st : State) :
  durationExceedsWriteTimeout r (Trace_sec ParseFloat r) = false ->
  tracing st = false ->
  Trace proc ParseFloat indefinite (NewResponse h) r st
  = (Write (download h "trace") (traceEvents proc),
     {| cpuProfiling := cpuProfiling st; tracing := false;
        numForcedGC := numForcedGC st;
        calls := calls st ++ TraceStart_
                   :: Sleep_ (Float64.to_int64 indefinite
                                (Float64.mul (Trace_sec ParseFloat r)
                                   (Float64.of_int Time.Second)))
                   :: TraceStop_ :: nil |}).
Proof.
  intros Hd Hidle. unfold Trace, TraceStart. rewrite Hd.
  cbn [record tracing]. rewrite Hidle.
  unfold TraceStop, sleep, record. cbn [calls cpuProfiling numForcedGC].
  now rewrite <- !app_assoc.
Qed.

(** What the client sees of an error response that is written after the
    headers of a download were set. *)
Lemma serveError_after_download
  (h : Header) (file : string) (status : Z) (txt : string) :
  let w := serveError (download h file) status txt in
  Http.status w = Some status
  /\ body w = txt ++ newline
  /\ sentHeader w "Content-Type" = Some "text/plain; charset=utf-8"
  /\ sentHeader w "X-Content-Type-Options" = Some "nosniff"
  /\ sentHeader w "X-Go-Pprof" = Some "1"
  /\ sentHeader w "Content-Disposition" = None.
Proof.
  cbv zeta.
  unfold serveError, Fprintln, Write, WriteHeader, DelHeader, download,
    SetHeader, NewResponse, sentHeader, Http.status.
  cbn [sent header body fmap option_fmap option_map fst].
  repeat split; ResponseFacts.header_get; reflexivity.
Qed.

(** What the client sees of a download. *)
Lemma download_seen (h : Header) (file data : string) :
  let w := Write (download h file) data in
  Http.status w = Some StatusOK
  /\ body w = data
  /\ sentHeader w "Content-Type" = Some "application/octet-stream"
  /\ sentHeader w "X-Content-Type-Options" = Some "nosniff"
  /\ sentHeader w "Content-Disposition"
     = Some ("attachment; filename=" ++ quote ++ file ++ quote).
Proof.
  cbv zeta.
  unfold Write, WriteHeader, download, SetHeader, NewResponse, sentHeader,
    Http.status.
  cbn [sent header body fmap option_fmap option_map fst].
  repeat split; ResponseFacts.header_get; reflexivity.
Qed.

(** X2.  When the sampler is already capturing, /profile answers with status
    500 and the error as plain text; the Content-Disposition that was set for
    the download is taken back; the handler neither sleeps nor stops the
    sampler, so the capture under way goes on.  /trace does the same with the
    tracer. *)
Theorem capture_start_failure_is_500
  (proc : Process)
  (ParseFloat : string -> Float64.float64 * option Strconv.NumError)
  (indefinite : Z) (h : Header) (r : Request) (st : State) :
  (durationExceedsWriteTimeout r (Float64.of_int (Profile_sec r)) = false ->
   cpuProfiling st = true ->
   let res := Profile proc (NewResponse h) r st in
   status (fst res) = Some StatusInternalServerError
   /\ body (fst res)
      = "Could not enable CPU profiling: cpu profiling already in use"
        ++ newline
   /\ sentHeader (fst res) "Content-Type" = Some "text/plain; charset=utf-8"
   /\ sentHeader (fst res) "Content-Disposition" = None
   /\ calls (snd res) = (calls st ++ StartCPUProfile_ :: nil)%list
   /\ cpuProfiling (snd res) = true)
  /\
  (durationExceedsWriteTimeout r (Trace_sec ParseFloat r) = false ->
   tracing st = true ->
   let res := Trace proc ParseFloat indefinite (NewResponse h) r st in
   status (fst res) = Some StatusInternalServerError
   /\ body (fst res)
      = "Could not enable tracing: tracing is already enabled" ++ newline
   /\ sentHeader (fst res) "Content-Type" = Some "text/plain; charset=utf-8"
   /\ sentHeader (fst res) "Content-Disposition" = None
   /\ calls (snd res) = (calls st ++ TraceStart_ :: nil)%list
   /\ tracing (snd res) = true).
Proof.
  split; intros Hd Hbusy; cbv zeta.
  - rewrite (Profile_when_busy proc h r st Hd Hbusy). cbn [fst snd].
    destruct (serveError_after_download h "profile" StatusInternalServerError
                "Could not enable CPU profiling: cpu profiling already in use")
      as (Hs & Hb & Hct & _ & _ & Hcd).
    repeat split; assumption.
  - rewrite (Trace_when_busy proc ParseFloat indefinite h r st Hd Hbusy).
    cbn [fst snd].
    destruct (serveError_after_download h "trace" StatusInternalServerError
                "Could not enable tracing: tracing is already enabled")
      as (Hs & Hb & Hct & _ & _ & Hcd).
    repeat split; assumption.
Qed.

(** A runtime whose sampler and tracer are both capturing. *)
Lemma capture_start_failure_is_500_witness :
  let busy := {| cpuProfiling := true; tracing := true;
                 numForcedGC := 0; calls := nil |} in
  let r := Example.get nil None in
  (status (fst (Profile Example.process (NewResponse ∅) r busy))
   = Some StatusInternalServerError
   /\ calls (snd (Profile Example.process (NewResponse ∅) r busy))
      = StartCPUProfile_ :: nil)
  /\ (status (fst (Trace Example.process Example.ParseFloat_int minInt64
                     (NewResponse ∅) r busy))
      = Some StatusInternalServerError
      /\ calls (snd (Trace Example.process Example.ParseFloat_int minInt64
                       (NewResponse ∅) r busy))
         = TraceStart_ :: nil).
Proof.
  intros busy r.
  destruct (capture_start_failure_is_500 Example.process
              Example.ParseFloat_int minInt64 ∅ r busy) as [HP HT].
  destruct (HP eq_refl eq_refl) as (Hs & _ & _ & _ & Hc & _).
  destruct (HT eq_refl eq_refl) as (Hs' & _ & _ & _ & Hc' & _).
  repeat split; assumption.
Defined.

(** X3.  When the duration passes the check and the sampler is idle, /profile
    answers with status 200 as a download named [profile] whose body is what
    the sampler wrote, and the sampler is idle again when the handler returns.
    /trace does the same with the tracer and the name [trace]. *)
Theorem capture_success_is_download
  (proc : Process)
  (ParseFloat : string -> Float64.float64 * option Strconv.NumError)
  (indefinite : Z) (h : Header) (r : Request) (st : State) :
  (durationExceedsWriteTimeout r (Float64.of_int (Profile_sec r)) = false ->
   cpuProfiling st = false ->
   let res := Profile proc (NewResponse h) r st in
   status (fst res) = Some StatusOK
   /\ body (fst res) = cpuSamples proc
   /\ sentHeader (fst res) "Content-Type" = Some "application/octet-stream"
   /\ sentHeader (fst res) "Content-Disposition"
      = Some ("attachment; filename=" ++ quote ++ "profile" ++ quote)
   /\ cpuProfiling (snd res) = false)
  /\
  (durationExceedsWriteTimeout r (Trace_sec ParseFloat r) = false ->
   tracing st = false ->
   let res := Trace proc ParseFloat indefinite (NewResponse h) r st in
   status (fst res) = Some StatusOK
   /\ body (fst res) = traceEvents proc
   /\ sentHeader (fst res) "Content-Type" = Some "application/octet-stream"
   /\ sentHeader (fst res) "Content-Disposition"
      = Some ("attachment; filename=" ++ quote ++ "trace" ++ quote)
   /\ tracing (snd res) = false).
Proof.
  split; intros Hd Hidle; cbv zeta.
  - rewrite (Profile_when_idle proc h r st Hd Hidle). cbn [fst snd].
    destruct (download_seen h "profile" (cpuSamples proc))
      as (Hs & Hb & Hct & _ & Hcd).
    repeat split; assumption.
  - rewrite (Trace_when_idle proc ParseFloat indefinite h r st Hd Hidle).
    cbn [fst snd].
    destruct (download_seen h "trace" (traceEvents proc))
      as (Hs & Hb & Hct & _ & Hcd).
    repeat split; assumption.
Qed.

(** /profile and /trace without parameters on an idle runtime and a server
    without write-timeout. *)
Lemma capture_success_is_download_witness :
  let r := Example.get nil None in
  (body (fst (Profile Example.process (NewResponse ∅) r Example.idle))
   = "cpu samples"
   /\ cpuProfiling (snd (Profile Example.process (NewResponse ∅) r Example.idle))
      = false)
  /\ (body (fst (Trace Example.process Example.ParseFloat_int minInt64
                   (NewResponse ∅) r Example.idle))
      = "trace events"
      /\ tracing (snd (Trace Example.process Example.ParseFloat_int minInt64
                         (NewResponse ∅) r Example.idle))
         = false).
Proof.
  intros r.
  destruct (capture_success_is_download Example.process
              Example.ParseFloat_int minInt64 ∅ r Example.idle) as [HP HT].
  destruct (HP eq_refl eq_refl) as (_ & Hb & _ & _ & Hf).
  destruct (HT eq_refl eq_refl) as (_ & Hb' & _ & _ & Hf').
  repeat split; assumption.
Defined.

(** X4.  Whatever the request and whatever the runtime is doing, /profile
    returns with the sampler capturing or idle as it found it, and with the
    tracer and the count of forced collections untouched; /trace likewise
    returns with the tracer as it found it; and a named profile touches
    neither the sampler nor the tracer.  No handler leaves a capture of its
    own running. *)
Theorem handlers_leave_captures_as_found
  (proc : Process)
  (ParseFloat : string -> Float64.float64 * option Strconv.NumError)
  (indefinite : Z) (name : string) (w : ResponseWriter) (r : Request)
  (st : State) :
  (let st' := snd (Profile proc w r st) in
   cpuProfiling st' = cpuProfiling st /\ tracing st' = tracing st
   /\ numForcedGC st' = numForcedGC st)
  /\ (let st' := snd (Trace proc ParseFloat indefinite w r st) in
      cpuProfiling st' = cpuProfiling st /\ tracing st' = tracing st
      /\ numForcedGC st' = numForcedGC st)
  /\ (let st' := snd (ServeHTTP proc name w r st) in
      cpuProfiling st' = cpuProfiling st /\ tracing st' = tracing st).
Proof.
  cbv zeta. split; [|split].
  - unfold Profile, StartCPUProfile.
    destruct (durationExceedsWriteTimeout r _); [repeat split|].
    cbn [record cpuProfiling].
    destruct (cpuProfiling st) eqn:E; cbn [snd]; repeat split; auto.
  - unfold Trace, TraceStart.
    destruct (durationExceedsWriteTimeout r _); [repeat split|].
    cbn [record tracing].
    destruct (tracing st) eqn:E; cbn [snd]; repeat split; auto.
  - unfold ServeHTTP.
    destruct (Lookup proc name); [|repeat split].
    destruct (Strconv.Atoi (FormValue r "gc")) as [gc e1].
    destruct (Strconv.Atoi (FormValue r "debug")) as [debug e2].
    destruct (String.eqb name "heap" && (0 <? gc)); repeat split.
Qed.

(** X5.  Without a server in the context of the request, or with a server
    whose WriteTimeout is zero, no duration is refused: /profile and /trace
    never answer 400 and always go on to start the capture. *)
Theorem no_write_timeout_no_refusal
  (proc : Process)
  (ParseFloat : string -> Float64.float64 * option Strconv.NumError)
  (indefinite : Z) (h : Header) (r : Request) (st : State) :
  (ContextServer r = None
   \/ exists srv, ContextServer r = Some srv /\ WriteTimeout srv = 0) ->
  (let res := Profile proc (NewResponse h) r st in
   status (fst res) <> Some StatusBadRequest
   /\ exists more,
        calls (snd res) = (calls st ++ StartCPUProfile_ :: more)%list)
  /\ (let res := Trace proc ParseFloat indefinite (NewResponse h) r st in
      status (fst res) <> Some StatusBadRequest
      /\ exists more,
           calls (snd res) = (calls st ++ TraceStart_ :: more)%list).
Proof.
  intros Hsrv.
  assert (Hno : forall seconds, durationExceedsWriteTimeout r seconds = false).
  { intros seconds. unfold durationExceedsWriteTimeout.
    destruct Hsrv as [-> | (srv & -> & ->)]; reflexivity. }
  cbv zeta. split.
  - destruct (cpuProfiling st) eqn:E.
    + rewrite (Profile_when_busy proc h r st (Hno _) E). cbn [fst snd].
      destruct (serveError_after_download h "profile"
                  StatusInternalServerError
                  "Could not enable CPU profiling: cpu profiling already in use")
        as (Hs & _).
      rewrite Hs. split; [discriminate|now exists nil].
    + rewrite (Profile_when_idle proc h r st (Hno _) E). cbn [fst snd calls].
      destruct (download_seen h "profile" (cpuSamples proc)) as (Hs & _).
      rewrite Hs. split; [discriminate|eauto].
  - destruct (tracing st) eqn:E.
    + rewrite (Trace_when_busy proc ParseFloat indefinite h r st (Hno _) E).
      cbn [fst snd].
      destruct (serveError_after_download h "trace"
                  StatusInternalServerError
                  "Could not enable tracing: tracing is already enabled")
        as (Hs & _).
      rewrite Hs. split; [discriminate|now exists nil].
    + rewrite (Trace_when_idle proc ParseFloat indefinite h r st (Hno _) E).
      cbn [fst snd calls].
      destruct (download_seen h "trace" (traceEvents proc)) as (Hs & _).
      rewrite Hs. split; [discriminate|eauto].
Qed.

(** /profile with [seconds=86400] on a server without write-timeout. *)
Lemma no_write_timeout_no_refusal_witness :
  let r := Example.get (("seconds", "86400" :: nil) :: nil)
             (Some {| WriteTimeout := 0 |}) in
  status (fst (Profile Example.process (NewResponse ∅) r Example.idle))
  <> Some StatusBadRequest
  /\ calls (snd (Profile Example.process (NewResponse ∅) r Example.idle))
     = StartCPUProfile_ :: Sleep_ 86400000000000 :: StopCPUProfile_ :: nil.
Proof.
  intros r.
  destruct (no_write_timeout_no_refusal Example.process
              Example.ParseFloat_int minInt64 ∅ r Example.idle) as [HP _].
  { right. now exists {| WriteTimeout := 0 |}. }
  destruct HP as [Hs _]. split; [exact Hs|reflexivity].
Defined.

(** ** Numbers as strconv reads and writes them *)

Lemma digit_bounds (c : ascii) (d : Z) :
  Strconv.digit c = Some d -> 0 <= d < 36.
Proof.
  unfold Strconv.digit.
  repeat match goal with
         | |- context [if ?b then _ else _] => destruct b eqn:?
         end; intros [= <-]; lia.
Qed.

Lemma digit_not_plus (c : ascii) (d : Z) :
  Strconv.digit c = Some d -> Ascii.eqb c plus_byte = false.
Proof.
  intros H. destruct (Ascii.eqb_spec c plus_byte) as [->|]; [|reflexivity].
  vm_compute in H. discriminate.
Qed.

Lemma number_ge (base : Z) (s : string) :
  2 <= base ->
  forall acc v, 0 <= acc -> number base s acc = Some v -> acc <= v.
Proof.
  intros Hb. induction s as [|c s IH]; intros acc v Hacc; cbn [number].
  - intros [= <-]. lia.
  - destruct (Strconv.digit c) as [d|] eqn:Ed; [|discriminate].
    destruct (d <? base); [|discriminate].
    apply digit_bounds in Ed. intros H. apply IH in H; nia.
Qed.

Lemma number_no_plus (base : Z) (s : string) :
  forall acc v, number base s acc = Some v ->
                Strings.Contains s plus_byte = false.
Proof.
  induction s as [|c s IH]; intros acc v; cbn [number Strings.Contains];
    [reflexivity|].
  destruct (Strconv.digit c) as [d|] eqn:Ed; [|discriminate].
  destruct (d <? base); [|discriminate].
  intros H. now rewrite (digit_not_plus _ _ Ed), (IH _ _ H).
Qed.

(** A number read after [acc + k] is the number read after [acc], plus [k]
    shifted by the digits read. *)
Lemma number_shift (base : Z) (s : string) :
  forall acc v k,
    number base s acc = Some v ->
    number base s (acc + k)
    = Some (v + k * base ^ Z.of_nat (String.length s)).
Proof.
  induction s as [|c s IH]; intros acc v k; cbn [number String.length].
  - intros [= <-]. f_equal. change (Z.of_nat 0) with 0. lia.
  - destruct (Strconv.digit c) as [d|] eqn:Ed; [|discriminate].
    destruct (d <? base); [|discriminate].
    intros H.
    replace ((acc + k) * base + d) with ((acc * base + d) + k * base) by lia.
    rewrite (IH _ _ _ H). f_equal.
    rewrite Nat2Z.inj_succ, Z.pow_succ_r by lia. lia.
Qed.

(** The digit loop of ParseUint returns the number that the digits denote when
    it fits 64 bits, and the largest value with a range error when it does
    not. *)
Lemma digits_number (base : Z) (s : string) :
  2 <= base <= 36 ->
  forall n v,
    0 <= n <= maxUint64 ->
    number base s n = Some v ->
    Strconv.digits base (maxUint64 / base + 1) s n
    = if v <=? maxUint64 then (v, None)
      else (maxUint64, Some Strconv.ErrRange).
Proof.
  intros Hb. induction s as [|c s IH]; intros n v Hn;
    cbn [number Strconv.digits].
  - intros [= <-]. destruct (Z.leb_spec n maxUint64); [reflexivity|lia].
  - destruct (Strconv.digit c) as [d|] eqn:Ed; [|discriminate].
    destruct (Z.ltb_spec d base) as [Hd|]; [|discriminate].
    destruct (Z.leb_spec base d); [lia|].
    apply digit_bounds in Ed. intros Hv.
    assert (Hnb0 : 0 <= n * base) by (apply Z.mul_nonneg_nonneg; lia).
    pose proof (number_ge base s ltac:(lia) (n * base + d) v ltac:(lia) Hv) as Hge.
    pose proof (Z.mul_succ_div_gt maxUint64 base ltac:(lia)) as Hgt.
    pose proof (Z.mul_div_le maxUint64 base ltac:(lia)) as Hle.
    destruct (Z.leb_spec (maxUint64 / base + 1) n) as [Hcut|Hcut].
    + destruct (Z.leb_spec v maxUint64); [nia|reflexivity].
    + assert (Hnb : 0 <= n * base <= maxUint64) by nia.
      unfold wrap_u64, maxUint64 in *.
      change (2 ^ 64) with 18446744073709551616 in *.
      rewrite (Z.mod_small (n * base)) by lia.
      destruct (Z_le_gt_dec (n * base + d) (18446744073709551616 - 1))
        as [Hfit|Hover].
      * rewrite (Z.mod_small (n * base + d)) by lia.
        destruct (Z.ltb_spec (n * base + d) (n * base)); [lia|].
        destruct (Z.ltb_spec (18446744073709551616 - 1) (n * base + d));
          [lia|].
        cbn [orb]. apply IH; [lia|exact Hv].
      * assert (Hm : (n * base + d) mod 18446744073709551616
                     = n * base + d - 18446744073709551616).
        { symmetry. apply (Z.mod_unique_pos _ _ 1). lia. lia. }
        rewrite Hm.
        destruct (Z.ltb_spec (n * base + d - 18446744073709551616) (n * base));
          [|lia].
        cbn [orb].
        destruct (Z.leb_spec v (18446744073709551616 - 1)); [lia|reflexivity].
Qed.

Lemma digit_hexdigit (d : Z) :
  0 <= d < 16 -> Strconv.digit (Strconv.hexdigit d) = Some d.
Proof.
  intros H.
  assert (E : d = 0 \/ d = 1 \/ d = 2 \/ d = 3 \/ d = 4 \/ d = 5 \/ d = 6
              \/ d = 7 \/ d = 8 \/ d = 9 \/ d = 10 \/ d = 11 \/ d = 12
              \/ d = 13 \/ d = 14 \/ d = 15) by lia.
  repeat destruct E as [->|E]; try subst d; reflexivity.
Qed.

Lemma hex_loop_number (fuel : nat) :
  forall n acc v0,
    0 <= n < 16 ^ Z.of_nat fuel ->
    number 16 acc 0 = Some v0 ->
    number 16 (Strconv.hex_loop fuel n acc) 0
    = Some (n * 16 ^ Z.of_nat (String.length acc) + v0).
Proof.
  induction fuel as [|fuel IH]; intros n acc v0 Hn Hacc.
  - change (16 ^ Z.of_nat 0) with 1 in Hn. cbn [Strconv.hex_loop].
    rewrite Hacc. f_equal. lia.
  - rewrite Nat2Z.inj_succ, Z.pow_succ_r in Hn by lia.
    cbn [Strconv.hex_loop].
    pose proof (Z.mod_pos_bound n 16 ltac:(lia)) as Hmod.
    pose proof (Z.div_mod n 16 ltac:(lia)) as Hdm.
    assert (Hacc' : number 16 (String (Strconv.hexdigit (n mod 16)) acc) 0
                    = Some (v0 + n mod 16 * 16 ^ Z.of_nat (String.length acc))).
    { cbn [number]. rewrite (digit_hexdigit _ Hmod).
      destruct (Z.ltb_spec (n mod 16) 16); [|lia].
      change (0 * 16 + n mod 16) with (0 + n mod 16).
      apply number_shift, Hacc. }
    destruct (Z.eqb_spec (n / 16) 0) as [Hz|Hnz].
    + rewrite Hacc'. f_equal. nia.
    + rewrite (IH (n / 16) _ _ ltac:(split; [apply Z.div_pos; lia|
                                             apply Z.div_lt_upper_bound; lia])
                 Hacc').
      f_equal. cbn [String.length].
      rewrite Nat2Z.inj_succ, Z.pow_succ_r by lia. nia.
Qed.

Lemma hex_loop_length (fuel : nat) :
  forall n acc,
    (String.length (Strconv.hex_loop fuel n acc)
     <= fuel + String.length acc)%nat.
Proof.
  induction fuel as [|fuel IH]; intros n acc; cbn [Strconv.hex_loop]; [lia|].
  destruct (n / 16 =? 0); [cbn [String.length]; lia|].
  etransitivity; [apply IH|]. cbn [String.length]. lia.
Qed.

Lemma hex_loop_not_empty (fuel : nat) (n : Z) (acc : string) :
  Strconv.hex_loop (S fuel) n acc <> "".
Proof.
  cbn [Strconv.hex_loop]. destruct (n / 16 =? 0); [discriminate|].
  generalize (n / 16). generalize (Strconv.hexdigit (n mod 16)).
  revert acc. induction fuel as [|fuel IH]; intros acc c m;
    cbn [Strconv.hex_loop]; [discriminate|].
  destruct (m / 16 =? 0); [discriminate|apply IH].
Qed.

Lemma FormatHex_number (n : Z) :
  0 <= n <= maxUint64 -> number 16 (Strconv.FormatHex n) 0 = Some n.
Proof.
  intros Hn. unfold Strconv.FormatHex.
  rewrite (hex_loop_number 16 n "" 0); [f_equal; cbn; lia| |reflexivity].
  unfold maxUint64 in Hn. change (16 ^ Z.of_nat 16) with (2 ^ 64). lia.
Qed.

(** ParseUint with base 0 reads back what [%#x] wrote. *)
Lemma ParseUint_hex_address (n : Z) :
  0 <= n <= maxUint64 -> Strconv.ParseUint (hex_address n) 0 = (n, None).
Proof.
  intros Hn. unfold hex_address.
  change ("0x" ++ Strconv.FormatHex n)
    with (String "0" (String "x" (Strconv.FormatHex n))).
  cbn [Strconv.ParseUint].
  change ((2 <=? 0) && (0 <=? 36)) with false.
  change (0 =? 0) with true. cbn match.
  change (Ascii.eqb "0" "0") with true.
  change (Ascii.eqb "x" "x" || Ascii.eqb "x" "X") with true. cbn match.
  pose proof (FormatHex_number n Hn) as Hnum.
  pose proof (digits_number 16 (Strconv.FormatHex n) ltac:(lia) 0 n
                ltac:(unfold maxUint64; cbn; lia) Hnum) as Hd.
  destruct (Z.leb_spec n maxUint64); [|lia].
  destruct (Strconv.FormatHex n) eqn:E.
  - exfalso. revert E. apply hex_loop_not_empty.
  - exact Hd.
Qed.

(** ParseUint with base 0 reads a string of decimal digits that does not
    begin with 0 in base 10. *)
Lemma ParseUint_decimal (t : string) (v : Z) :
  decimal_value t = Some v ->
  HasPrefix t "0" = false ->
  Strconv.ParseUint t 0
  = if v <=? maxUint64 then (v, None) else (maxUint64, Some Strconv.ErrRange).
Proof.
  unfold decimal_value. destruct t as [|c t]; [discriminate|].
  intros Hv H0. cbn [HasPrefix] in H0. rewrite andb_true_r in H0.
  cbn [Strconv.ParseUint].
  change ((2 <=? 0) && (0 <=? 36)) with false.
  change (0 =? 0) with true. cbn match. rewrite H0.
  apply (digits_number 10 (String c t) ltac:(lia) 0 v); [|exact Hv].
  unfold maxUint64. cbn. lia.
Qed.

(** ** Symbol, token by token *)

Lemma scan_token (t rest : string) :
  Strings.Contains t plus_byte = false ->
  forall room,
    (String.length t < room)%nat ->
    Bufio.scan room plus_byte (t ++ String plus_byte rest)
    = Bufio.Found (t ++ str1 plus_byte) rest.
Proof.
  induction t as [|c t IH]; intros Hc room Hlen.
  - destruct room as [|room]; [cbn in Hlen; lia|].
    change ("" ++ String plus_byte rest) with (String plus_byte rest).
    cbn [Bufio.scan]. now rewrite Ascii.eqb_refl.
  - cbn [Strings.Contains] in Hc. apply orb_false_iff in Hc as [Hc1 Hc2].
    destruct room as [|room]; [cbn in Hlen; lia|].
    rewrite !SymbolFacts.append_cons. cbn [Bufio.scan]. rewrite Hc1.
    rewrite (IH Hc2 room) by (cbn [String.length] in Hlen; lia).
    reflexivity.
Qed.

Lemma scan_last (t : string) :
  Strings.Contains t plus_byte = false ->
  forall room,
    (String.length t < room)%nat ->
    Bufio.scan room plus_byte t = Bufio.Ended t.
Proof.
  induction t as [|c t IH]; intros Hc room Hlen.
  - destruct room as [|room]; [cbn in Hlen; lia|]. reflexivity.
  - cbn [Strings.Contains] in Hc. apply orb_false_iff in Hc as [Hc1 Hc2].
    destruct room as [|room]; [cbn in Hlen; lia|].
    cbn [Bufio.scan]. rewrite Hc1.
    rewrite (IH Hc2 room) by (cbn [String.length] in Hlen; lia).
    reflexivity.
Qed.


Lemma trim_last_app (t : string) (c : ascii) : trim_last (t ++ str1 c) = t.
Proof.
  induction t as [|a t IH]; [reflexivity|].
  rewrite SymbolFacts.append_cons. cbn [trim_last].
  destruct t as [|b t]; [reflexivity|].
  rewrite SymbolFacts.append_cons in *. now rewrite IH.
Qed.

Lemma length_app (s t : string) :
  String.length (s ++ t) = (String.length s + String.length t)%nat.
Proof.
  induction s as [|c s IH]; [reflexivity|].
  rewrite SymbolFacts.append_cons. cbn [String.length]. now rewrite IH.
Qed.

Section Tokens.
Variable proc : Process.

(** What one round of the loop adds to the buffer. *)
Lemma Symbol_word_token (t : string) (buf : string) :
  Symbol_word proc (t ++ str1 plus_byte) None buf = buf ++ token_text proc t.
Proof.
  unfold Symbol_word, token_text, resolved_line. rewrite trim_last_app.
  destruct (Strconv.ParseUint t 0) as [pc e].
  destruct (negb (pc =? 0)); [|now rewrite SymbolFacts.append_nil_r].
  destruct (FuncForPC proc pc); [reflexivity|].
  now rewrite SymbolFacts.append_nil_r.
Qed.

Lemma Symbol_word_last (t : string) (e : Io.error) (buf : string) :
  Symbol_word proc t (Some e) buf = buf ++ token_text proc t.
Proof.
  unfold Symbol_word, token_text, resolved_line.
  destruct (Strconv.ParseUint t 0) as [pc e'].
  destruct (negb (pc =? 0)); [|now rewrite SymbolFacts.append_nil_r].
  destruct (FuncForPC proc pc); [reflexivity|].
  now rewrite SymbolFacts.append_nil_r.
Qed.

Lemma Symbol_loop_tokens (e : Io.error) (ts : list string) :
  ts <> nil ->
  Forall (fun t => is_token t = true) ts ->
  forall fuel buf,
    (String.length (Strings.Join ts (str1 plus_byte)) < fuel)%nat ->
    Symbol_loop proc fuel
      {| Bufio.unread := Strings.Join ts (str1 plus_byte); Bufio.rdErr := e |}
      buf
    = Some (buf ++ concat_text (map (token_text proc) ts) ++ error_line e).
Proof.
  intros Hne Hall. induction Hall as [|t rest Ht Hrest IH]; [congruence|].
  intros fuel buf Hlen.
  unfold is_token in Ht. apply andb_true_iff in Ht as [Hplus Hshort].
  apply negb_true_iff in Hplus. apply Nat.ltb_lt in Hshort.
  destruct fuel as [|fuel]; [lia|].
  destruct rest as [|t' rest'].
  - cbn [Strings.Join map concat_text fold_right] in *.
    cbn [Symbol_loop]. unfold Bufio.ReadSlice. cbn [Bufio.unread Bufio.rdErr].
    rewrite (scan_last t Hplus _ Hshort).
    rewrite Symbol_word_last. unfold error_line.
    rewrite SymbolFacts.append_nil_r.
    destruct (Io.is_EOF e); cbn [negb].
    + now rewrite SymbolFacts.append_nil_r.
    + now rewrite SymbolFacts.append_assoc.
  - change (Strings.Join (t :: t' :: rest') (str1 plus_byte))
      with (t ++ String plus_byte (Strings.Join (t' :: rest') (str1 plus_byte)))
      in *.
    cbn [Symbol_loop]. unfold Bufio.ReadSlice. cbn [Bufio.unread Bufio.rdErr].
    rewrite (scan_token t _ Hplus _ Hshort).
    rewrite Symbol_word_token.
    rewrite IH; [|discriminate|].
    + cbn [map concat_text fold_right].
      now rewrite !SymbolFacts.append_assoc.
    + rewrite length_app in Hlen. cbn [String.length] in Hlen. lia.
Qed.

End Tokens.

(** X6.  The tokens of a request are looked up one by one, in their order, and
    each on its own: when the input is tokens joined by plus signs (no token
    of 4096 bytes or more), the body of Symbol is the line [num_symbols: 1],
    then for each token the line of its address if it reads as an address
    other than 0 that the symbol table knows and nothing otherwise, then the
    line of the read error if the input did not end with io.EOF.  An empty
    token, so a plus sign at the end or two in a row, adds nothing. *)
Theorem Symbol_looks_up_each_token
  (proc : Process) (r : Request) (ts : list string) :
  ts <> nil ->
  Forall (fun t => is_token t = true) ts ->
  Io.data (Symbol_input r) = Strings.Join ts (str1 plus_byte) ->
  Symbol_output proc r
  = Some (symbol_head ++ concat_text (map (token_text proc) ts)
          ++ error_line (Io.final (Symbol_input r)))
  /\ token_text proc "" = "".
Proof.
  intros Hne Hall Hdata. split; [|reflexivity].
  unfold Symbol_output, Bufio.NewReader. cbn [Bufio.unread]. rewrite Hdata.
  apply Symbol_loop_tokens; [assumption|assumption|lia].
Qed.

(** The query [0x1a+junk++0x2b+] against the example symbol table. *)
Lemma Symbol_looks_up_each_token_witness :
  Symbol_output Example.process (query "0x1a+junk++0x2b+")
  = Some (symbol_head ++ "0x1a main.foo" ++ newline
          ++ "0x2b main.bar" ++ newline).
Proof.
  destruct (Symbol_looks_up_each_token Example.process
              (query "0x1a+junk++0x2b+")
              ("0x1a" :: "junk" :: "" :: "0x2b" :: "" :: nil)) as [H _].
  - discriminate.
  - repeat constructor.
  - reflexivity.
  - exact H.
Defined.

(** ** Addresses as Symbol writes and reads them *)

Lemma is_token_hex_address (pc : Z) :
  0 <= pc <= maxUint64 -> is_token (hex_address pc) = true.
Proof.
  intros Hpc. unfold is_token, hex_address. apply andb_true_iff. split.
  - apply negb_true_iff.
    change ("0x" ++ Strconv.FormatHex pc)
      with (String "0" (String "x" (Strconv.FormatHex pc))).
    cbn [Strings.Contains].
    change (Ascii.eqb "0" plus_byte) with false.
    change (Ascii.eqb "x" plus_byte) with false. cbn [orb].
    eapply number_no_plus, FormatHex_number, Hpc.
  - apply Nat.ltb_lt. rewrite length_app.
    pose proof (hex_loop_length 16 pc "") as H.
    unfold Strconv.FormatHex, Bufio.defaultBufSize.
    cbn [String.length] in *. lia.
Qed.

Lemma token_text_hex_address (proc : Process) (pc : Z) :
  0 <= pc <= maxUint64 ->
  token_text proc (hex_address pc)
  = if pc =? 0 then "" else resolved_line proc pc.
Proof.
  intros Hpc. unfold token_text. rewrite (ParseUint_hex_address pc Hpc).
  now destruct (pc =? 0).
Qed.

(** X7.  Symbol reads the addresses it writes.  Every 64-bit address, written
    as [%#x] writes it, is read back by ParseUint with base 0 as the same
    address, without an error; so a request that lists addresses in that form
    is answered with the line of each address the symbol table knows, in the
    order of the request; address 0 is never looked up. *)
Theorem Symbol_reads_the_addresses_it_writes
  (proc : Process) (pcs : list Z) :
  pcs <> nil ->
  Forall (fun pc => 0 <= pc <= maxUint64) pcs ->
  Forall (fun pc => Strconv.ParseUint (hex_address pc) 0 = (pc, None)) pcs
  /\ Symbol_output proc
       (query (Strings.Join (map hex_address pcs) (str1 plus_byte)))
     = Some (symbol_head
             ++ concat_text
                  (map (fun pc => if pc =? 0 then ""
                                  else resolved_line proc pc) pcs)).
Proof.
  intros Hne Hall. split.
  - clear Hne. induction Hall as [|pc rest Hpc Hrest IH]; constructor;
      [apply ParseUint_hex_address, Hpc|exact IH].
  - unfold Symbol_output, Bufio.NewReader. cbn [Bufio.unread].
    change (Io.data (Symbol_input (query ?q))) with q.
    change (Io.final (Symbol_input (query ?q))) with Io.EOF.
    rewrite (Symbol_loop_tokens proc Io.EOF (map hex_address pcs)).
    + f_equal. f_equal. unfold error_line. cbn [Io.is_EOF].
      rewrite SymbolFacts.append_nil_r. f_equal.
      rewrite map_map. clear Hne.
      induction Hall as [|pc rest Hpc Hrest IH]; [reflexivity|].
      cbn [map]. now rewrite IH, (token_text_hex_address proc pc Hpc).
    + destruct pcs; [congruence|discriminate].
    + clear Hne. induction Hall as [|pc rest Hpc Hrest IH]; constructor;
        [apply is_token_hex_address, Hpc|exact IH].
    + lia.
Qed.

(** The addresses 0x2b, 0 and 0x1a against the example symbol table. *)
Lemma Symbol_reads_the_addresses_it_writes_witness :
  Strings.Join (map hex_address (43 :: 0 :: 26 :: nil)) (str1 plus_byte)
  = "0x2b+0x0+0x1a"
  /\ Symbol_output Example.process (query "0x2b+0x0+0x1a")
     = Some (symbol_head ++ "0x2b main.bar" ++ newline
             ++ "0x1a main.foo" ++ newline).
Proof.
  split; [reflexivity|].
  destruct (Symbol_reads_the_addresses_it_writes Example.process
              (43 :: 0 :: 26 :: nil)) as [_ H].
  - discriminate.
  - repeat constructor; unfold maxUint64; cbn; lia.
  - exact H.
Defined.

(** ** Tokens that do not fit *)

Lemma decimal_no_plus (t : string) (v : Z) :
  decimal_value t = Some v -> Strings.Contains t plus_byte = false.
Proof.
  unfold decimal_value. destruct t as [|c t]; [discriminate|].
  apply number_no_plus.
Qed.

(** X8.  A token of decimal digits that does not begin with 0 is read in base
    10.  When its value is above the largest 64-bit value, ParseUint returns
    that largest value with a range error; Symbol drops the error and looks up
    0xffffffffffffffff. *)
Theorem Symbol_decimal_token_saturates
  (proc : Process) (t : string) (v : Z) :
  decimal_value t = Some v ->
  HasPrefix t "0" = false ->
  (String.length t < Bufio.defaultBufSize)%nat ->
  Strconv.ParseUint t 0
  = (Z.min v maxUint64,
     if v <=? maxUint64 then None else Some Strconv.ErrRange)
  /\ (maxUint64 < v ->
      Symbol_output proc (query t)
      = Some (symbol_head ++ resolved_line proc maxUint64)).
Proof.
  intros Hv H0 Hlen.
  assert (Hp : Strconv.ParseUint t 0
               = (Z.min v maxUint64,
                  if v <=? maxUint64 then None else Some Strconv.ErrRange)).
  { rewrite (ParseUint_decimal t v Hv H0).
    destruct (Z.leb_spec v maxUint64); f_equal; lia. }
  split; [exact Hp|]. intros Hbig.
  unfold Symbol_output, Bufio.NewReader. cbn [Bufio.unread].
  change (Io.data (Symbol_input (query t))) with (Strings.Join (t :: nil)
                                                    (str1 plus_byte)).
  change (Io.final (Symbol_input (query t))) with Io.EOF.
  rewrite (Symbol_loop_tokens proc Io.EOF (t :: nil)).
  - cbn [map concat_text fold_right]. unfold error_line. cbn [Io.is_EOF].
    rewrite !SymbolFacts.append_nil_r. unfold token_text. rewrite Hp.
    rewrite Z.min_r by lia. reflexivity.
  - discriminate.
  - constructor; [|constructor]. unfold is_token.
    rewrite (decimal_no_plus t v Hv). apply Nat.ltb_lt in Hlen.
    now rewrite Hlen.
  - cbn [Strings.Join]. lia.
Qed.

(** The token 18446744073709551616, which is 2^64, against a symbol table
    that knows the last address. *)
Lemma Symbol_decimal_token_saturates_witness :
  let proc := {| Args := nil;
                 FuncForPC := fun pc =>
                   if pc =? maxUint64 then Some "runtime.end" else None;
                 Lookup := fun _ => None;
                 cpuSamples := ""; traceEvents := "" |} in
  Strconv.ParseUint "18446744073709551616" 0
  = (18446744073709551615, Some Strconv.ErrRange)
  /\ Symbol_output proc (query "18446744073709551616")
     = Some (symbol_head ++ "0xffffffffffffffff runtime.end" ++ newline).
Proof.
  intros proc.
  destruct (Symbol_decimal_token_saturates proc "18446744073709551616"
              18446744073709551616) as [Hp Hs].
  - reflexivity.
  - reflexivity.
  - vm_compute. lia.
  - split; [exact Hp|]. apply Hs. reflexivity.
Defined.



(** ** Addresses the symbol table does not know *)

Lemma after_words_unknown (proc : Process) :
  (forall pc, FuncForPC proc pc = None) ->
  forall ws buf, after_words proc ws buf = buf.
Proof.
  intros Hnone. unfold after_words.
  induction ws as [|w ws IH]; intros buf; cbn [fold_left]; [reflexivity|].
  rewrite IH. unfold Symbol_word.
  destruct (Strconv.ParseUint _ 0) as [pc e].
  rewrite Hnone. now destruct (negb (pc =? 0)).
Qed.

(** X10.  When the symbol table knows no address, Symbol still answers with
    status 200 and the line [num_symbols: 1]; no request adds a line for an
    address to it, and the only other line there can be is that of a read
    error. *)
Theorem Symbol_without_symbols_is_the_head
  (proc : Process) (h : Header) (r : Request) :
  (forall pc, FuncForPC proc pc = None) ->
  exists e,
    (e = Io.ErrBufferFull \/ e = Io.final (Symbol_input r))
    /\ Symbol_output proc r = Some (symbol_head ++ error_line e)
    /\ (status <$> Symbol proc (NewResponse h) r) = Some (Some StatusOK).
Proof.
  intros Hnone.
  destruct (SymbolFacts.Symbol_loop_reads proc
              (S (String.length
                    (Bufio.unread (Bufio.NewReader (Symbol_input r)))))
              (Bufio.NewReader (Symbol_input r)) symbol_head)
    as (ws & lw & e & _ & He & Hl); [lia|].
  assert (Ho : Symbol_output proc r = Some (symbol_head ++ error_line e)).
  { unfold Symbol_output. fold symbol_head. rewrite Hl. f_equal.
    unfold after_last. rewrite (after_words_unknown proc Hnone).
    unfold Symbol_word, error_line.
    destruct (Strconv.ParseUint lw 0) as [pc e'].
    rewrite Hnone.
    destruct (negb (pc =? 0)), (Io.is_EOF e);
      now rewrite ?SymbolFacts.append_nil_r. }
  exists e. split; [exact He|]. split; [exact Ho|].
  unfold Symbol. rewrite Ho. reflexivity.
Qed.

(** A process without symbols, asked for two addresses. *)
Lemma Symbol_without_symbols_is_the_head_witness :
  let proc := {| Args := nil; FuncForPC := fun _ => None;
                 Lookup := fun _ => None;
                 cpuSamples := ""; traceEvents := "" |} in
  exists e,
    (e = Io.ErrBufferFull \/ e = Io.EOF)
    /\ Symbol_output proc (query "0x1a+0x2b") = Some (symbol_head ++ error_line e)
    /\ (status <$> Symbol proc (NewResponse ∅) (query "0x1a+0x2b"))
       = Some (Some StatusOK).
Proof.
  intros proc.
  apply (Symbol_without_symbols_is_the_head proc ∅ (query "0x1a+0x2b")).
  intros pc. reflexivity.
Defined.

(** ** The answers of the handlers *)

Section Answers.
Variable proc : Process.
Variable ParseFloat : string -> Float64.float64 * option Strconv.NumError.
Variable indefinite : Z.

(** The answer of Profile, case by case. *)
Lemma Profile_cases (h : Header) (r : Request) (st : State) :
  let w := fst (Profile proc (NewResponse h) r st) in
  (exists txt,
     w = serveError
           (SetHeader (NewResponse h) "X-Content-Type-Options" "nosniff")
           StatusBadRequest txt)
  \/ (exists txt,
        w = serveError (download h "profile") StatusInternalServerError txt)
  \/ w = Write (download h "profile") (cpuSamples proc).
Proof.
  cbv zeta.
  destruct (durationExceedsWriteTimeout r (Float64.of_int (Profile_sec r)))
    eqn:Hd.
  - left. unfold Profile. rewrite Hd. eauto.
  - right. destruct (cpuProfiling st) eqn:E.
    + left. rewrite (Profile_when_busy proc h r st Hd E). eauto.
    + right. now rewrite (Profile_when_idle proc h r st Hd E).
Qed.

(** The answer of Trace, case by case. *)
Lemma Trace_cases (h : Header) (r : Request) (st : State) :
  let w := fst (Trace proc ParseFloat indefinite (NewResponse h) r st) in
  (exists txt,
     w = serveError
           (SetHeader (NewResponse h) "X-Content-Type-Options" "nosniff")
           StatusBadRequest txt)
  \/ (exists txt,
        w = serveError (download h "trace") StatusInternalServerError txt)
  \/ w = Write (download h "trace") (traceEvents proc).
Proof.
  cbv zeta.
  destruct (durationExceedsWriteTimeout r (Trace_sec ParseFloat r)) eqn:Hd.
  - left. unfold Trace. rewrite Hd. eauto.
  - right. destruct (tracing st) eqn:E.
    + left. rewrite (Trace_when_busy proc ParseFloat indefinite h r st Hd E).
      eauto.
    + right.
      now rewrite (Trace_when_idle proc ParseFloat indefinite h r st Hd E).
Qed.

(** The answer of a named profile, case by case. *)
Lemma ServeHTTP_cases (name : string) (h : Header) (r : Request) (st : State) :
  let w := fst (ServeHTTP proc name (NewResponse h) r st) in
  w = serveError
        (SetHeader (NewResponse h) "X-Content-Type-Options" "nosniff")
        StatusNotFound "Unknown profile"
  \/ (exists data, w = Write (download h name) data)
  \/ (exists data,
        w = Write
              (SetHeader
                 (SetHeader (NewResponse h) "X-Content-Type-Options" "nosniff")
                 "Content-Type" "text/plain; charset=utf-8") data).
Proof.
  cbv zeta. unfold ServeHTTP.
  destruct (Lookup proc name) as [p|]; [|now left].
  destruct (Strconv.Atoi (FormValue r "gc")) as [gc e1].
  destruct (Strconv.Atoi (FormValue r "debug")) as [debug e2].
  right. destruct (negb (debug =? 0)); cbn [fst]; [right|left]; eauto.
Qed.

Lemma plain_text_seen (h : Header) (data : string) :
  let w := Write
             (SetHeader
                (SetHeader (NewResponse h) "X-Content-Type-Options" "nosniff")
                "Content-Type" "text/plain; charset=utf-8") data in
  status w = Some StatusOK
  /\ body w = data
  /\ sentHeader w "Content-Type" = Some "text/plain; charset=utf-8"
  /\ nosniff w.
Proof.
  cbv zeta.
  unfold nosniff, Write, WriteHeader, SetHeader, NewResponse, sentHeader,
    status.
  cbn [sent header body fmap option_fmap option_map fst].
  repeat split; ResponseFacts.header_get; reflexivity.
Qed.

(** X11.  Cmdline and Symbol always answer, with status 200 and plain text,
    and the answer carries [X-Content-Type-Options: nosniff], whatever the
    request, whatever the arguments of the process and whatever the header map
    held before; Symbol does so also when the read of the request fails. *)
Theorem Cmdline_and_Symbol_always_answer_200 (h : Header) (r : Request) :
  (exists w, Cmdline proc (NewResponse h) r = Some w
             /\ status w = Some StatusOK
             /\ sentHeader w "Content-Type" = Some "text/plain; charset=utf-8"
             /\ nosniff w)
  /\ (exists w, Symbol proc (NewResponse h) r = Some w
                /\ status w = Some StatusOK
                /\ sentHeader w "Content-Type"
                   = Some "text/plain; charset=utf-8"
                /\ nosniff w).
Proof.
  split.
  - unfold Cmdline.
    destruct (FmtFacts.Sprintf_total (Strings.Join (Args proc) (str1 NUL)))
      as [out ->].
    eexists. split; [reflexivity|].
    destruct (plain_text_seen h out) as (Hs & _ & Hct & Hn). auto.
  - unfold Symbol, Symbol_output.
    destruct (SymbolFacts.Symbol_loop_reads proc
                (S (String.length
                      (Bufio.unread (Bufio.NewReader (Symbol_input r)))))
                (Bufio.NewReader (Symbol_input r))
                ("num_symbols: 1" ++ newline))
      as (ws & lw & e & _ & _ & ->); [lia|].
    eexists. split; [reflexivity|].
    match goal with
    | |- status (Write _ ?data) = _ /\ _ =>
        destruct (plain_text_seen h data) as (Hs & _ & Hct & Hn)
    end.
    auto.
Qed.

(** The three shapes of an answer of Profile and Trace, and the two of a named
    profile. *)
Lemma capture_answer (w : ResponseWriter) (h : Header) (file data : string) :
  (exists txt,
     w = serveError
           (SetHeader (NewResponse h) "X-Content-Type-Options" "nosniff")
           StatusBadRequest txt)
  \/ (exists txt,
        w = serveError (download h file) StatusInternalServerError txt)
  \/ w = Write (download h file) data ->
  nosniff w
  /\ (status w = Some StatusOK \/ status w = Some StatusBadRequest
      \/ status w = Some StatusInternalServerError)
  /\ (status w <> Some StatusOK -> plain_error w)
  /\ (status w = Some StatusOK ->
      sentHeader w "Content-Type" = Some "application/octet-stream").
Proof.
  intros [[txt ->]|[[txt ->]| ->]].
  - destruct (ResponseFacts.serveError_seen h StatusBadRequest txt)
      as (Hs & _ & Hct & Hn & Hx & Hcd & _).
    rewrite Hs. repeat split; auto; discriminate.
  - destruct (serveError_after_download h file StatusInternalServerError txt)
      as (Hs & _ & Hct & Hn & Hx & Hcd).
    rewrite Hs. repeat split; auto; discriminate.
  - destruct (download_seen h file data) as (Hs & _ & Hct & Hn & _).
    rewrite Hs. repeat split; auto; congruence.
Qed.

(** X12.  Every answer of Profile, Trace and a named profile carries
    [X-Content-Type-Options: nosniff]; Profile and Trace answer with status
    200, 400 or 500 and a named profile with 200 or 404, never another; every
    answer that is not a 200 is plain text with the marker [X-Go-Pprof: 1] and
    without Content-Disposition, also when the headers of a download had been
    set before the failure; and every 200 of Profile and Trace is an
    application/octet-stream. *)
Theorem every_error_is_plain_text
  (name : string) (h : Header) (r : Request) (st : State) :
  (let w := fst (Profile proc (NewResponse h) r st) in
   nosniff w
   /\ (status w = Some StatusOK \/ status w = Some StatusBadRequest
       \/ status w = Some StatusInternalServerError)
   /\ (status w <> Some StatusOK -> plain_error w)
   /\ (status w = Some StatusOK ->
       sentHeader w "Content-Type" = Some "application/octet-stream"))
  /\ (let w := fst (Trace proc ParseFloat indefinite (NewResponse h) r st) in
      nosniff w
      /\ (status w = Some StatusOK \/ status w = Some StatusBadRequest
          \/ status w = Some StatusInternalServerError)
      /\ (status w <> Some StatusOK -> plain_error w)
      /\ (status w = Some StatusOK ->
          sentHeader w "Content-Type" = Some "application/octet-stream"))
  /\ (let w := fst (ServeHTTP proc name (NewResponse h) r st) in
      nosniff w
      /\ (status w = Some StatusOK \/ status w = Some StatusNotFound)
      /\ (status w <> Some StatusOK -> plain_error w)).
Proof.
  cbv zeta. split; [|split].
  - apply (capture_answer _ h "profile" (cpuSamples proc)), Profile_cases.
  - apply (capture_answer _ h "trace" (traceEvents proc)), Trace_cases.
  - destruct (ServeHTTP_cases name h r st) as [-> |[[data ->]|[data ->]]].
    + destruct (ResponseFacts.serveError_seen h StatusNotFound
                  "Unknown profile") as (Hs & _ & Hct & Hn & Hx & Hcd & _).
      rewrite Hs. repeat split; auto.
    + destruct (download_seen h name data) as (Hs & _ & _ & Hn & _).
      rewrite Hs. repeat split; auto; congruence.
    + destruct (plain_text_seen h data) as (Hs & _ & _ & Hn).
      rewrite Hs. repeat split; auto; congruence.
Qed.

End Answers.

(** /profile while the sampler is capturing, and a profile that the example
    registry does not know. *)
Lemma every_error_is_plain_text_witness :
  let busy := {| cpuProfiling := true; tracing := false;
                 numForcedGC := 0; calls := nil |} in
  let r := Example.get nil None in
  plain_error (fst (Profile Example.process (NewResponse ∅) r busy))
  /\ plain_error
       (fst (ServeHTTP Example.process "block" (NewResponse ∅) r busy)).
Proof.
  intros busy r.
  destruct (every_error_is_plain_text Example.process Example.ParseFloat_int
              minInt64 "block" ∅ r busy)
    as ((_ & _ & HP & _) & _ & (_ & _ & HS)).
  split; [apply HP|apply HS]; discriminate.
Defined.

(** ** The parameters of a request *)

Lemma ParseInt_syntax_zero (s : string) (base : Z) :
  snd (Strconv.ParseInt s base) = Some Strconv.ErrSyntax ->
  Strconv.ParseInt s base = (0, Some Strconv.ErrSyntax).
Proof.
  unfold Strconv.ParseInt. destruct s as [|c0 s1]; [reflexivity|].
  cbv zeta.
  destruct (Strconv.ParseUint _ base) as [un [[]|]];
    repeat match goal with
           | |- context [if ?b then _ else _] => destruct b
           end; cbn [snd]; intros H; try discriminate H; reflexivity.
Qed.

Lemma ParseInt_absent (r : Request) (key : string) :
  Form r !! key = None ->
  Strconv.ParseInt (FormValue r key) 10 = (0, Some Strconv.ErrSyntax).
Proof. intros H. unfold FormValue. now rewrite H. Qed.

Lemma digit_is_digit (c : ascii) :
  Fmt.is_digit c = false ->
  Strconv.digit c = None \/ exists d, Strconv.digit c = Some d /\ 10 <= d.
Proof.
  unfold Fmt.is_digit, Strconv.digit. intros ->.
  repeat match goal with
         | |- context [if ?b then _ else _] => destruct b eqn:?
         end; [right; eexists; split; [reflexivity|lia]..|now left].
Qed.

(** A value that begins with a byte that is neither a sign nor a decimal
    digit is a syntax error for ParseInt in base 10. *)
Lemma ParseInt_first_byte (c : ascii) (v : string) :
  Fmt.is_digit c = false ->
  Ascii.eqb c "+" = false ->
  Ascii.eqb c "-" = false ->
  Strconv.ParseInt (String c v) 10 = (0, Some Strconv.ErrSyntax).
Proof.
  intros Hd Hp Hm. cbn [Strconv.ParseInt]. rewrite Hp, Hm. cbn [orb].
  cbn [Strconv.ParseUint].
  change ((2 <=? 10) && (10 <=? 36)) with true. cbn match.
  cbn [Strconv.digits].
  destruct (digit_is_digit c Hd) as [-> |(d & -> & Hge)]; [reflexivity|].
  destruct (Z.leb_spec 10 d); [reflexivity|lia].
Qed.

Lemma ParseUint_base10 (t : string) (v : Z) :
  decimal_value t = Some v ->
  Strconv.ParseUint t 10
  = if v <=? maxUint64 then (v, None) else (maxUint64, Some Strconv.ErrRange).
Proof.
  unfold decimal_value. destruct t as [|c t]; [discriminate|].
  intros Hv. cbn [Strconv.ParseUint].
  change ((2 <=? 10) && (10 <=? 36)) with true. cbn match.
  apply (digits_number 10 (String c t) ltac:(lia) 0 v); [|exact Hv].
  unfold maxUint64. cbn. lia.
Qed.

Lemma decimal_first_byte (c : ascii) (t : string) (v : Z) :
  decimal_value (String c t) = Some v ->
  Ascii.eqb c "+" = false /\ Ascii.eqb c "-" = false.
Proof.
  unfold decimal_value. cbn [number].
  destruct (Strconv.digit c) as [d|] eqn:Ed; [|discriminate]. intros _.
  split.
  - exact (digit_not_plus c d Ed).
  - destruct (Ascii.eqb_spec c "-") as [->|]; [|reflexivity].
    vm_compute in Ed. discriminate.
Qed.

(** ParseInt in base 10 on a string of decimal digits: its value, or the
    largest int64 with a range error. *)
Lemma ParseInt_decimal (t : string) (v : Z) :
  decimal_value t = Some v ->
  Strconv.ParseInt t 10
  = if v <=? maxInt64 then (v, None) else (maxInt64, Some Strconv.ErrRange).
Proof.
  intros Hv. pose proof (ParseUint_base10 t v Hv) as Hu.
  destruct t as [|c t]; [discriminate|].
  destruct (decimal_first_byte c t v Hv) as [Hp Hm].
  unfold Strconv.ParseInt. rewrite Hp, Hm. cbn [orb]. cbv zeta. rewrite Hu.
  unfold maxUint64, maxInt64 in *.
  change (2 ^ 63) with 9223372036854775808 in *.
  change (2 ^ 64) with 18446744073709551616 in *.
  cbn [negb andb].
  destruct (Z.leb_spec v (18446744073709551616 - 1)).
  - destruct (Z.leb_spec 9223372036854775808 v);
      destruct (Z.leb_spec v (9223372036854775808 - 1)); try lia; reflexivity.
  - destruct (Z.leb_spec v (9223372036854775808 - 1)); [lia|]. reflexivity.
Qed.

(** X13.  The seconds of Profile, from the text of the parameter.  For a value
    of decimal digits they are its number, 30 when the number is 0, and the
    largest int64 when the number does not fit an int64; the product of that
    with time.Second wraps around to minus one second, so on a server without
    write-timeout the capture of such a request is stopped at once. *)
Theorem Profile_seconds_of_decimal_digits
  (proc : Process) (h : Header) (r : Request) (st : State) (v : Z) :
  decimal_value (FormValue r "seconds") = Some v ->
  Profile_sec r = (if v =? 0 then 30 else Z.min v maxInt64)
  /\ (maxInt64 < v ->
      ContextServer r = None ->
      cpuProfiling st = false ->
      calls (snd (Profile proc (NewResponse h) r st))
      = (calls st ++ StartCPUProfile_ :: Sleep_ (- Time.Second)
           :: StopCPUProfile_ :: nil)%list).
Proof.
  intros Hv.
  assert (Hsec : Profile_sec r = if v =? 0 then 30 else Z.min v maxInt64).
  { unfold Profile_sec. rewrite (ParseInt_decimal _ v Hv).
    unfold maxInt64. change (2 ^ 63) with 9223372036854775808.
    destruct (Z.leb_spec v (9223372036854775808 - 1)).
    - destruct (Z.eqb_spec v 0); [reflexivity|]. now rewrite Z.min_l by lia.
    - destruct (Z.eqb_spec v 0); [lia|]. now rewrite Z.min_r by lia. }
  split; [exact Hsec|]. intros Hbig Hsrv Hidle.
  rewrite (Profile_when_idle proc h r st); [|
    unfold durationExceedsWriteTimeout; now rewrite Hsrv | exact Hidle].
  cbn [snd calls]. rewrite Hsec.
  destruct (Z.eqb_spec v 0) as [-> |_]; [unfold maxInt64 in Hbig; cbn in Hbig; lia|].
  rewrite Z.min_r by lia. reflexivity.
Qed.

(** /profile with [seconds=7] and with [seconds=9223372036854775808]. *)
Lemma Profile_seconds_of_decimal_digits_witness :
  let r s := Example.get (("seconds", s :: nil) :: nil) None in
  Profile_sec (r "7") = 7
  /\ Profile_sec (r "9223372036854775808") = 9223372036854775807
  /\ calls (snd (Profile Example.process (NewResponse ∅)
                   (r "9223372036854775808") Example.idle))
     = StartCPUProfile_ :: Sleep_ (-1000000000) :: StopCPUProfile_ :: nil.
Proof.
  intros r.
  destruct (Profile_seconds_of_decimal_digits Example.process ∅ (r "7")
              Example.idle 7 eq_refl) as [H7 _].
  destruct (Profile_seconds_of_decimal_digits Example.process ∅
              (r "9223372036854775808") Example.idle 9223372036854775808
              eq_refl) as [Hbig Hcalls].
  split; [exact H7|]. split; [exact Hbig|].
  apply Hcalls; reflexivity.
Defined.

(** X14.  A parameter that is no integer counts as absent.  When ParseInt
    reports a syntax error for [seconds], Profile captures for 30 seconds;
    when Atoi reports one for [gc], a named profile forces no collection; when
    it reports one for [debug], the profile is sent in its binary form as a
    download.  An absent parameter and a value that begins with a byte that is
    neither a sign nor a decimal digit are syntax errors. *)
Theorem malformed_parameter_counts_as_absent
  (proc : Process) (name : string) (p : NamedProfile) (h : Header)
  (r : Request) (st : State) :
  let malformed key :=
    snd (Strconv.Atoi (FormValue r key)) = Some Strconv.ErrSyntax in
  let w := fst (ServeHTTP proc name (NewResponse h) r st) in
  let st' := snd (ServeHTTP proc name (NewResponse h) r st) in
  (forall key, Form r !! key = None -> malformed key)
  /\ (forall key c v,
        FormValue r key = String c v ->
        Fmt.is_digit c = false -> c <> "+"%char -> c <> "-"%char ->
        malformed key)
  /\ (malformed "seconds" -> Profile_sec r = 30)
  /\ (Lookup proc name = Some p -> malformed "gc" ->
      numForcedGC st' = numForcedGC st
      /\ calls st'
         = (calls st
              ++ WriteTo_ name (fst (Strconv.Atoi (FormValue r "debug")))
              :: nil)%list)
  /\ (Lookup proc name = Some p -> malformed "debug" ->
      status w = Some StatusOK
      /\ body w = Payload p st' 0
      /\ sentHeader w "Content-Type" = Some "application/octet-stream"
      /\ sentHeader w "Content-Disposition"
         = Some ("attachment; filename=" ++ quote ++ name ++ quote)).
Proof.
  cbv zeta. unfold Strconv.Atoi. split; [|split; [|split; [|split]]].
  - intros key Habs. now rewrite (ParseInt_absent r key Habs).
  - intros key c v -> Hd Hp Hm. apply Ascii.eqb_neq in Hp, Hm.
    now rewrite (ParseInt_first_byte c v Hd Hp Hm).
  - intros Hs. unfold Profile_sec. now rewrite (ParseInt_syntax_zero _ _ Hs).
  - intros Hl Hs. unfold ServeHTTP, Strconv.Atoi. rewrite Hl.
    rewrite (ParseInt_syntax_zero _ _ Hs).
    destruct (Strconv.ParseInt (FormValue r "debug") 10) as [debug e].
    rewrite andb_false_r. cbn [fst snd]. split; reflexivity.
  - intros Hl Hs. unfold ServeHTTP, Strconv.Atoi. rewrite Hl.
    rewrite (ParseInt_syntax_zero _ _ Hs).
    destruct (Strconv.ParseInt (FormValue r "gc") 10) as [gc e].
    cbn [fst snd Z.eqb negb].
    match goal with
    | |- status (Write _ ?data) = _ /\ _ =>
        destruct (download_seen h name data) as (H1 & H2 & H3 & _ & H5)
    end.
    repeat split; assumption.
Qed.

(** The heap profile of the example asked for with [gc=yes&debug=true], and
    /profile asked for with [seconds=1.5]. *)
Lemma malformed_parameter_counts_as_absent_witness :
  let r := Example.get (("gc", "yes" :: nil) :: ("debug", "true" :: nil)
                          :: ("seconds", "1.5" :: nil) :: nil) None in
  let res := ServeHTTP Example.process "heap" (NewResponse ∅) r Example.idle in
  Profile_sec r = 30
  /\ calls (snd res) = WriteTo_ "heap" 0 :: nil
  /\ sentHeader (fst res) "Content-Type" = Some "application/octet-stream".
Proof.
  intros r res.
  destruct (malformed_parameter_counts_as_absent Example.process "heap"
              (Example.dump "heap") ∅ r Example.idle)
    as (_ & _ & Hsec & Hgc & Hdebug).
  split; [exact (Hsec eq_refl)|].
  destruct (Hgc eq_refl eq_refl) as [_ Hcalls].
  destruct (Hdebug eq_refl eq_refl) as (_ & _ & Hct & _).
  split; [exact Hcalls|exact Hct].
Defined.

(** ** Cmdline *)

(** X15.  When no argument holds a percent sign, Cmdline answers with status
    200 and plain text whose body is the arguments joined by NUL bytes; when,
    besides, there is an argument and none holds a NUL byte, splitting the
    body at the NUL bytes gives the argument vector back. *)
Theorem Cmdline_echoes_arguments_without_percent
  (proc : Process) (h : Header) (r : Request) :
  Forall (fun a => Strings.Contains a "%" = false) (Args proc) ->
  exists w,
    Cmdline proc (NewResponse h) r = Some w
    /\ status w = Some StatusOK
    /\ sentHeader w "Content-Type" = Some "text/plain; charset=utf-8"
    /\ body w = Strings.Join (Args proc) (str1 NUL)
    /\ (Args proc <> nil ->
        Forall (fun a => Strings.Contains a NUL = false) (Args proc) ->
        Strings.Split (body w) NUL = Args proc).
Proof.
  intros Hpct. unfold Cmdline.
  rewrite FmtFacts.Sprintf_plain
    by (apply StringsFacts.Contains_Join; [reflexivity|exact Hpct]).
  eexists. split; [reflexivity|].
  destruct (plain_text_seen h (Strings.Join (Args proc) (str1 NUL)))
    as (Hs & Hb & Hct & _).
  split; [exact Hs|]. split; [exact Hct|]. split; [exact Hb|].
  intros Hne Hnul. rewrite Hb. now apply StringsFacts.Split_Join.
Qed.

(** A process started as [prog -v out.txt]. *)
Lemma Cmdline_echoes_arguments_without_percent_witness :
  let proc := {| Args := "prog" :: "-v" :: "out.txt" :: nil;
                 FuncForPC := Example.symtab; Lookup := Example.registry;
                 cpuSamples := ""; traceEvents := "" |} in
  exists w,
    Cmdline proc (NewResponse ∅) (Example.get nil None) = Some w
    /\ body w = "prog" ++ str1 NUL ++ "-v" ++ str1 NUL ++ "out.txt"
    /\ Strings.Split (body w) NUL = "prog" :: "-v" :: "out.txt" :: nil.
Proof.
  intros proc.
  destruct (Cmdline_echoes_arguments_without_percent proc ∅
              (Example.get nil None)) as (w & Hw & _ & _ & Hb & Hsplit).
  - repeat constructor.
  - exists w. split; [exact Hw|]. split; [exact Hb|].
    apply Hsplit; [discriminate|repeat constructor].
Defined.

(** ** Trace and a NaN *)

Lemma ge_nan (x : Float64.float64) : Float64.ge S754_nan x = false.
Proof. now destruct x. Qed.

Lemma mul_nan (y : Float64.float64) : Float64.mul S754_nan y = S754_nan.
Proof. now destruct y. Qed.

(** X16.  A [seconds] value that ParseFloat reads as NaN without an error
    passes both checks of Trace: it is not replaced by 1, since a NaN is not
    [<= 0], and it is not refused, whatever the WriteTimeout of the server,
    since a NaN is not [>=] any timeout.  The trace then starts, and the sleep
    is for the duration that the conversion of a NaN to int64 yields. *)
Theorem Trace_nan_seconds_pass_the_checks
  (proc : Process)
  (ParseFloat : string -> Float64.float64 * option Strconv.NumError)
  (indefinite : Z) (h : Header) (r : Request) (st : State) :
  ParseFloat (FormValue r "seconds") = (S754_nan, None) ->
  Trace_sec ParseFloat r = S754_nan
  /\ durationExceedsWriteTimeout r (Trace_sec ParseFloat r) = false
  /\ status (fst (Trace proc ParseFloat indefinite (NewResponse h) r st))
     <> Some StatusBadRequest
  /\ (tracing st = false ->
      calls (snd (Trace proc ParseFloat indefinite (NewResponse h) r st))
      = (calls st ++ TraceStart_ :: Sleep_ indefinite :: TraceStop_ :: nil)%list).
Proof.
  intros Hnan.
  assert (Hsec : Trace_sec ParseFloat r = S754_nan).
  { unfold Trace_sec. now rewrite Hnan. }
  assert (Hd : durationExceedsWriteTimeout r (Trace_sec ParseFloat r) = false).
  { rewrite Hsec. unfold durationExceedsWriteTimeout.
    destruct (ContextServer r) as [srv|]; [|reflexivity].
    now rewrite ge_nan, andb_false_r. }
  split; [exact Hsec|]. split; [exact Hd|]. split.
  - destruct (tracing st) eqn:E.
    + rewrite (Trace_when_busy proc ParseFloat indefinite h r st Hd E).
      cbn [fst].
      destruct (serveError_after_download h "trace"
                  StatusInternalServerError
                  "Could not enable tracing: tracing is already enabled")
        as (Hs & _).
      rewrite Hs. discriminate.
    + rewrite (Trace_when_idle proc ParseFloat indefinite h r st Hd E).
      cbn [fst].
      destruct (download_seen h "trace" (traceEvents proc)) as (Hs & _).
      rewrite Hs. discriminate.
  - intros E.
    rewrite (Trace_when_idle proc ParseFloat indefinite h r st Hd E).
    cbn [snd calls]. rewrite Hsec, mul_nan. reflexivity.
Qed.

(** /trace with [seconds=NaN] on a server whose WriteTimeout is one
    nanosecond, where the conversion of a NaN yields the least int64. *)
Lemma Trace_nan_seconds_pass_the_checks_witness :
  let r := Example.get (("seconds", "NaN" :: nil) :: nil)
             (Some {| WriteTimeout := 1 |}) in
  durationExceedsWriteTimeout r (Float64.of_int 1) = true
  /\ durationExceedsWriteTimeout r (Trace_sec ParseFloat_nan r) = false
  /\ calls (snd (Trace Example.process ParseFloat_nan minInt64
                   (NewResponse ∅) r Example.idle))
     = TraceStart_ :: Sleep_ minInt64 :: TraceStop_ :: nil.
Proof.
  intros r.
  destruct (Trace_nan_seconds_pass_the_checks Example.process ParseFloat_nan
              minInt64 ∅ r Example.idle eq_refl) as (_ & Hd & _ & Hcalls).
  split; [reflexivity|]. split; [exact Hd|]. exact (Hcalls eq_refl).
Defined.

(** ** Trace and whole seconds *)

(** Shifting out [k] zero bits loses nothing. *)
Lemma iter_shr_1_even (k : positive) :
  forall q,
    SpecFloat.iter_pos shr_1 k
      {| shr_m := Zpos (Pos.iter xO q k); shr_r := false; shr_s := false |}
    = {| shr_m := Zpos q; shr_r := false; shr_s := false |}.
Proof.
  induction k as [k IH|k IH|]; intros q;
    cbn [SpecFloat.iter_pos Pos.iter shr_1 orb].
  - now rewrite !IH.
  - now rewrite !IH.
  - reflexivity.
Qed.

(** A mantissa of 53 digits followed by [k] zero bits rounds to itself. *)
Lemma binary_round_aux_shift (s : bool) (q k : positive) (e : Z) :
  Zpos (digits2_pos q) = 53 ->
  -1074 <= e + Zpos k <= 971 ->
  binary_round_aux Float64.prec Float64.emax s (Zpos (Pos.iter xO q k)) e
    loc_Exact
  = S754_finite s q (e + Zpos k).
Proof.
  intros Hd He.
  assert (Hs1 : shr_fexp Float64.prec Float64.emax (Zpos (Pos.iter xO q k)) e
                  loc_Exact
                = ({| shr_m := Zpos q; shr_r := false; shr_s := false |},
                   e + Zpos k)).
  { unfold shr_fexp. cbn [Zdigits2].
    rewrite Float64Facts.iter_xO_digits, Hd.
    replace (fexp Float64.prec Float64.emax (53 + Zpos k + e) - e)
      with (Zpos k)
      by (unfold fexp, emin, Float64.prec, Float64.emax; lia).
    unfold shr. cbn [shr_record_of_loc]. now rewrite iter_shr_1_even. }
  assert (Hs2 : shr_fexp Float64.prec Float64.emax (Zpos q) (e + Zpos k)
                  loc_Exact
                = ({| shr_m := Zpos q; shr_r := false; shr_s := false |},
                   e + Zpos k)).
  { unfold shr_fexp. cbn [Zdigits2]. rewrite Hd.
    replace (fexp Float64.prec Float64.emax (53 + (e + Zpos k))
             - (e + Zpos k)) with 0; [reflexivity|].
    unfold fexp, emin, Float64.prec, Float64.emax. lia. }
  unfold binary_round_aux. rewrite Hs1.
  cbn [shr_m loc_of_shr_record round_nearest_even]. rewrite Hs2. cbn [shr_m].
  replace (e + Zpos k <=? Float64.emax - Float64.prec) with true;
    [reflexivity|].
  symmetry. apply Z.leb_le. unfold Float64.emax, Float64.prec. lia.
Qed.

Lemma mant53_digits (n : positive) :
  Zpos n < 2 ^ 53 -> Zpos (digits2_pos (Float64.mant53 n)) = 53.
Proof.
  intros Hn. destruct (Float64Facts.of_int_small n Hn) as (_ & _ & Hd).
  unfold Float64.mant53.
  destruct (53 - Zpos (digits2_pos n)) as [|k|k] eqn:K; try lia.
  rewrite Float64Facts.iter_xO_digits. lia.
Qed.

(** The product of two integers, when it is below [2^53], is the product of
    their conversions. *)
Lemma mul_of_int_small (a b : positive) :
  Zpos (a * b) < 2 ^ 53 ->
  Float64.mul (Float64.of_int (Zpos a)) (Float64.of_int (Zpos b))
  = Float64.of_int (Zpos (a * b)).
Proof.
  intros Hp.
  assert (Ha : Zpos a < 2 ^ 53) by nia.
  assert (Hb : Zpos b < 2 ^ 53) by nia.
  destruct (Float64Facts.of_int_small a Ha) as (Ea & Ma & Da).
  destruct (Float64Facts.of_int_small b Hb) as (Eb & Mb & Db).
  destruct (Float64Facts.of_int_small (a * b) Hp) as (Ep & Mp & Dp).
  pose proof (Float64Facts.digits2_pos_bound a) as La.
  pose proof (Float64Facts.digits2_pos_bound b) as Lb.
  pose proof (Float64Facts.digits2_pos_bound (a * b)) as Lp.
  pose proof (Float64Facts.digits2_pos_upper a) as Ua.
  pose proof (Float64Facts.digits2_pos_upper b) as Ub.
  pose proof (Float64Facts.digits2_pos_upper (a * b)) as Up.
  set (da := Zpos (digits2_pos a)) in *.
  set (db := Zpos (digits2_pos b)) in *.
  set (dp := Zpos (digits2_pos (a * b))) in *.
  rewrite Pos2Z.inj_mul in Lp, Up, Mp.
  assert (Hlow : da + db < dp + 2).
  { apply (Z.pow_lt_mono_r_iff 2); [lia|lia|].
    rewrite !Z.pow_add_r by lia. change (2 ^ 2) with 4. nia. }
  assert (Hhigh : dp < da + db + 1).
  { apply (Z.pow_lt_mono_r_iff 2); [lia|lia|].
    rewrite !Z.pow_add_r by lia. change (2 ^ 1) with 2.
    assert (0 < 2 ^ da) by (apply Z.pow_pos_nonneg; lia).
    assert (0 < 2 ^ db) by (apply Z.pow_pos_nonneg; lia).
    nia. }
  rewrite Ea, Eb, Ep. unfold Float64.mul, SFmul. cbn [xorb].
  fold da db dp.
  set (j := 53 - da - db + dp).
  assert (Hj : 0 < j) by (unfold j; lia).
  assert (Hm : (Float64.mant53 a * Float64.mant53 b)%positive
               = Pos.iter xO (Float64.mant53 (a * b)) (Z.to_pos j)).
  { apply Pos2Z.inj.
    rewrite Pos2Z.inj_mul, Float64Facts.iter_xO_value, Ma, Mb, Mp.
    rewrite Z2Pos.id by exact Hj.
    assert (Hpow : 2 ^ (53 - da) * 2 ^ (53 - db) = 2 ^ (53 - dp) * 2 ^ j).
    { rewrite <- !Z.pow_add_r by lia. f_equal. unfold j. lia. }
    replace (Zpos a * 2 ^ (53 - da) * (Zpos b * 2 ^ (53 - db)))
      with (Zpos a * Zpos b * (2 ^ (53 - da) * 2 ^ (53 - db))) by ring.
    rewrite Hpow. ring. }
  rewrite Hm, binary_round_aux_shift.
  - f_equal. rewrite Z2Pos.id by exact Hj. unfold j. lia.
  - apply mant53_digits, Hp.
  - rewrite Z2Pos.id by exact Hj. unfold j. lia.
Qed.

(** The conversion to [int64] undoes the conversion of an integer below
    [2^53]. *)
Lemma to_int64_of_int_small (indefinite : Z) (n : positive) :
  Zpos n < 2 ^ 53 ->
  Float64.to_int64 indefinite (Float64.of_int (Zpos n)) = Zpos n.
Proof.
  intros Hn. destruct (Float64Facts.of_int_small n Hn) as (En & Mn & Dn).
  rewrite En. unfold Float64.to_int64, Float64.trunc.
  assert (Ht : match Zpos (digits2_pos n) - 53 with
               | Zneg p => Z.shiftr (Zpos (Float64.mant53 n)) (Zpos p)
               | _ => Z.shiftl (Zpos (Float64.mant53 n))
                        (Zpos (digits2_pos n) - 53)
               end = Zpos n).
  { destruct (Zpos (digits2_pos n) - 53) as [|p|p] eqn:K; try lia.
    - rewrite Z.shiftl_0_r, Mn.
      replace (53 - Zpos (digits2_pos n)) with 0 by lia. cbn. lia.
    - rewrite Z.shiftr_div_pow2, Mn by lia.
      replace (53 - Zpos (digits2_pos n)) with (Zpos p) by lia.
      apply Z.div_mul. apply Z.pow_nonzero; lia. }
  rewrite Ht. unfold in_int64, minInt64, maxInt64.
  change (2 ^ 53) with 9007199254740992 in Hn.
  change (2 ^ 63) with 9223372036854775808.
  destruct (Z.leb_spec (- 9223372036854775808) (Zpos n)); [|lia].
  destruct (Z.leb_spec (Zpos n) (9223372036854775808 - 1)); [|lia].
  reflexivity.
Qed.

(** X17.  Trace captures for the whole seconds it is asked for.  When
    ParseFloat reads the [seconds] value as the whole number [n], with [0 < n]
    and [n] seconds below [2^53] nanoseconds (104 days), the seconds of Trace
    are [n], and a capture that starts sleeps for exactly [n * time.Second]:
    the product and the conversion to a Duration lose nothing.  Against a
    WriteTimeout of [k] whole seconds the request is refused exactly when
    [k <= n]. *)
Theorem Trace_sleeps_whole_seconds
  (proc : Process)
  (ParseFloat : string -> Float64.float64 * option Strconv.NumError)
  (indefinite : Z) (h : Header) (r : Request) (st : State) (n : Z) :
  0 < n -> n * Time.Second < 2 ^ 53 ->
  ParseFloat (FormValue r "seconds") = (Float64.of_int n, None) ->
  Trace_sec ParseFloat r = Float64.of_int n
  /\ Float64.to_int64 indefinite
       (Float64.mul (Float64.of_int n) (Float64.of_int Time.Second))
     = n * Time.Second
  /\ (durationExceedsWriteTimeout r (Float64.of_int n) = false ->
      tracing st = false ->
      calls (snd (Trace proc ParseFloat indefinite (NewResponse h) r st))
      = (calls st ++ TraceStart_ :: Sleep_ (n * Time.Second)
           :: TraceStop_ :: nil)%list)
  /\ (forall srv k,
        ContextServer r = Some srv -> 0 < k < 2 ^ 53 ->
        WriteTimeout srv = k * Time.Second ->
        durationExceedsWriteTimeout r (Trace_sec ParseFloat r) = (k <=? n)).
Proof.
  intros Hpos Hsmall Hparse.
  destruct n as [|n|n]; try lia.
  unfold Time.Second in *.
  change (Zpos n * 1000000000) with (Zpos (n * 1000000000)) in *.
  assert (Hn : Zpos n < 2 ^ 53) by lia.
  assert (Hsec : Trace_sec ParseFloat r = Float64.of_int (Zpos n)).
  { unfold Trace_sec. rewrite Hparse.
    destruct (Float64Facts.of_int_small n Hn) as (En & _). rewrite En.
    reflexivity. }
  assert (Hd : Float64.to_int64 indefinite
                 (Float64.mul (Float64.of_int (Zpos n))
                    (Float64.of_int 1000000000))
               = Zpos (n * 1000000000)).
  { rewrite (mul_of_int_small n 1000000000 Hsmall).
    apply to_int64_of_int_small, Hsmall. }
  split; [exact Hsec|]. split; [exact Hd|]. split.
  - intros Hok Hidle. rewrite <- Hsec in Hok.
    rewrite (Trace_when_idle proc ParseFloat indefinite h r st Hok Hidle).
    cbn [snd calls]. rewrite Hsec. unfold Time.Second. now rewrite Hd.
  - intros srv k Hsrv Hk Hwt. unfold durationExceedsWriteTimeout.
    rewrite Hsrv, Hwt, Hsec.
    fold Time.Second. rewrite (Float64Facts.whole_seconds_ge (Zpos n) k Hk).
    destruct (Z.eqb_spec (k * Time.Second) 0) as [E|_];
      [unfold Time.Second in E; lia|reflexivity].
Qed.

(** /trace with [seconds=5], read by the stand-in for ParseFloat. *)
Lemma Trace_sleeps_whole_seconds_witness :
  calls (snd (Trace Example.process Example.ParseFloat_int minInt64
                (NewResponse ∅)
                (Example.get (("seconds", "5" :: nil) :: nil) None)
                Example.idle))
  = TraceStart_ :: Sleep_ 5000000000 :: TraceStop_ :: nil.
Proof.
  destruct (Trace_sleeps_whole_seconds Example.process Example.ParseFloat_int
              minInt64 ∅ (Example.get (("seconds", "5" :: nil) :: nil) None)
              Example.idle 5) as (_ & _ & H & _).
  - lia.
  - vm_compute. reflexivity.
  - reflexivity.
  - exact (H eq_refl eq_refl).
Defined.

End PprofMore.
